(** * DC Bicycle Dashboard: the data module of [src/js/main.js]

    A shallow embedding of the data-joining and derived-metrics layer
    (the [dataState] store, the source loaders, [processData], the join in
    [processRoadNetworkData], [calculateStatistics], the filtered views and
    the temporal lookup), followed by the properties established about it.

    Conventions of the embedding.
    - A JavaScript number is a finite double, written as the rational it
      denotes ([Q]).  The arithmetic operators round their exact result to
      the nearest double, ties to even ([double]); comparisons, [Math.floor],
      [Math.round] and [Math.abs] are exact.  Every division of the modelled
      code is guarded by a test of its denominator.  [NaN] arises from
      [parseFloat] only and is modelled by [jsnum]; a result beyond the
      range of the doubles is not modelled ([double] has no largest value),
      and the negative zero is identified with 0.
    - A string is the sequence of its UTF-8 bytes.
    - A property of a record read from JSON is an [option]: [None] stands
      for an absent ([undefined] or [null]) property.  Numeric properties
      hold numbers and textual ones strings.  A cell of a parsed CSV row is
      a [Cell], which tells [undefined], [null], booleans, numbers and text
      apart.
    - A plain object used as a dictionary is a finite map of its own
      properties; a read goes on to the prototype, so the names that every
      object inherits from [Object.prototype] are found even when no
      property was stored ([Obj.get]).  Nothing in the modelled code adds a
      property to [Object.prototype] itself, given the typing of the
      counter keys and of the temporal rows stated with their records.
    - The two collections that the module mutates in place and hands out to
      the rendering layer (road network and counter points) live in an
      object store and are referred to by location. *)

From Stdlib Require Import QArith Qround Qabs Qpower ZArith Lia Lqa.
From stdpp Require Import gmap strings list fin_maps pretty.

Local Open Scope Q_scope.

(** ** JavaScript primitives *)

Module JS.

(** Truthiness, as used by [if (x)], [x || y] and [!x]. *)
Class Truthy (A : Type) := truthy : A → bool.

#[global] Instance truthy_num : Truthy Q := fun q => negb (Qeq_bool q 0).
#[global] Instance truthy_str : Truthy string := fun s => negb (String.eqb s "").
#[global] Instance truthy_opt {A} `{Truthy A} : Truthy (option A) :=
  fun o => match o with Some a => truthy a | None => false end.

(** [a || b] on possibly absent properties. *)
Definition jor {A} `{Truthy A} (a b : option A) : option A :=
  if truthy a then a else b.

(** [a || d] where [d] is a literal: the result is always a value. *)
Definition jor_lit {A} `{Truthy A} (a : option A) (d : A) : A :=
  match a with
  | Some x => if truthy x then x else d
  | None => d
  end.

(** Numeric comparisons [a >= b] and [a < b]. *)
Definition ge (a b : Q) : bool := Qle_bool b a.
Definition lt (a b : Q) : bool := negb (Qle_bool b a).
Definition gt (a b : Q) : bool := lt b a.

(** [Math.floor], [Math.round] (halves go up) and [Math.abs]. *)
Definition Math_floor (q : Q) : Z := Qfloor q.
Definition Math_round (q : Q) : Z := Qfloor (q + (1 # 2)).
Definition Math_abs (q : Q) : Q := Qabs q.

(** *** Double-precision arithmetic *)

Definition pow2 (e : Z) : Q := 2 ^ e.

(** The binary exponent of a positive number: [2^e <= q < 2^(e+1)]. *)
Definition ilog2 (q : Q) : Z :=
  let e := (Z.log2 (Qnum q) - Z.log2 (Zpos (Qden q)))%Z in
  if Qle_bool (pow2 e) q then e else (e - 1)%Z.

(** The nearest integer, the even one of two that are equally near. *)
Definition nearest_even (q : Q) : Z :=
  let f := Qfloor q in
  match Qcompare (q - inject_Z f) (1 # 2) with
  | Lt => f
  | Gt => (f + 1)%Z
  | Eq => if Z.even f then f else (f + 1)%Z
  end.

(** The exponent of the unit in the last place: 53 significant bits, and
    [2^-1074] for the subnormal numbers. *)
Definition ulp_exponent (q : Q) : Z := Z.max (ilog2 (Qabs q) - 52) (-1074).

(** The double nearest to [q], ties to even. *)
Definition double (q : Q) : Q :=
  if Qeq_bool q 0 then 0
  else let x := ulp_exponent q in
       Qred (inject_Z (nearest_even (q / pow2 x)) * pow2 x).

(** [a + b], [a - b], [a * b] and [a / b]. *)
Definition add (a b : Q) : Q := double (a + b).
Definition sub (a b : Q) : Q := double (a - b).
Definition mul (a b : Q) : Q := double (a * b).
Definition div (a b : Q) : Q := double (a / b).

(** *** [Number.prototype.toString] *)

Definition pow10 (n : Z) : Q := 10 ^ n.

(** The decimal exponent of a positive number: [10^(n-1) <= v < 10^n]. *)
Definition decimal_exponent (v : Q) : Z :=
  let guess := (ilog2 v * 30103 / 100000)%Z in
  default guess
    (List.find (fun n => Qle_bool (pow10 (n - 1)) v && negb (Qle_bool (pow10 n) v))
       [guess - 1; guess; guess + 1; guess + 2]%Z).

(** The digits [s] with [k] places for which [s * 10^(n0-k)] rounds to the
    double [v], the nearer one (the even one) of two. *)
Definition digits_for (v : Q) (n0 : Z) (k : Z) : option Z :=
  let scale := pow10 (n0 - k) in
  let lo := Qfloor (v / scale) in
  let hi := (lo + 1)%Z in
  let fits s := Qeq_bool (double (inject_Z s * scale)) v in
  match fits lo, fits hi with
  | true, true =>
      match Qcompare (v - inject_Z lo * scale) (inject_Z hi * scale - v) with
      | Lt => Some lo
      | Gt => Some hi
      | Eq => Some (if Z.even lo then lo else hi)
      end
  | true, false => Some lo
  | false, true => Some hi
  | false, false => None
  end.

(** The shortest digit string that identifies the double [v > 0]: the
    triple [(n, k, s)] of the specification of [Number::toString]. *)
Definition shortest (v : Q) : Z * Z * Z :=
  let n0 := decimal_exponent v in
  let found :=
    List.find (fun k => bool_decide (is_Some (digits_for v n0 k)))
      (map Z.of_nat (seq 1 17)) in
  let k := default 17%Z found in
  let s := default (Qfloor (v / pow10 (n0 - k))) (digits_for v n0 k) in
  if (s =? 10 ^ k)%Z then ((n0 + 1)%Z, 1%Z, 1%Z) else (n0, k, s).

Definition zeros (n : Z) : string := String.string_of_list_ascii (replicate (Z.to_nat n) (Ascii.ascii_of_nat 48)).

Definition toString_positive (v : Q) : string :=
  let '(n, k, s) := shortest v in
  let digits := pretty s in
  if ((k <=? n) && (n <=? 21))%Z then digits +:+ zeros (n - k)
  else if ((0 <? n) && (n <=? 21))%Z then
    String.substring 0 (Z.to_nat n) digits +:+ "." +:+
    String.substring (Z.to_nat n) (Z.to_nat (k - n)) digits
  else if ((-6 <? n) && (n <=? 0))%Z then "0." +:+ zeros (- n) +:+ digits
  else
    let e := (n - 1)%Z in
    let mantissa :=
      if (k =? 1)%Z then digits
      else String.substring 0 1 digits +:+ "." +:+
           String.substring 1 (Z.to_nat (k - 1)) digits in
    mantissa +:+ "e" +:+ (if (e <? 0)%Z then "-" else "+") +:+ pretty (Z.abs e).

(** [String(q)] of a number: the decimal digits of a safe integer, and the
    shortest digit string that reads back as the same double otherwise. *)
Definition Number_toString (q : Q) : string :=
  if Qeq_bool q 0 then "0"
  else if Qeq_bool q (inject_Z (Qfloor q)) && Qle_bool (Qabs q) 9007199254740992
  then pretty (Qfloor q)
  else if Qle_bool q 0 then "-" +:+ toString_positive (- q)
  else toString_positive q.

(** *** Cells of a parsed CSV row *)

Inductive Cell :=
| Undefined
| Null
| Bool (b : bool)
| Number (q : Q)
| Text (s : string).

#[global] Instance truthy_cell : Truthy Cell :=
  fun c =>
    match c with
    | Undefined | Null => false
    | Bool b => b
    | Number q => truthy q
    | Text s => truthy s
    end.

(** [a || b] on cells. *)
Definition cell_or (a b : Cell) : Cell := if truthy a then a else b.

(** [String(x)] *)
Definition String_ (x : Cell) : string :=
  match x with
  | Undefined => "undefined"
  | Null => "null"
  | Bool true => "true"
  | Bool false => "false"
  | Number q => Number_toString q
  | Text s => s
  end.

(** A numeric cell: missing from the row, empty ([null]), or a number. *)
Inductive Numeric :=
| NUndefined
| NNull
| NNumber (q : Q).

Definition cell_of (n : Numeric) : Cell :=
  match n with
  | NUndefined => Undefined
  | NNull => Null
  | NNumber q => Number q
  end.

(** [x === undefined] *)
Definition is_undefined (x : Cell) : bool :=
  match x with Undefined => true | _ => false end.

(** *** [parseFloat] *)

(** The result of [parseFloat]: a number or [NaN]. *)
Inductive jsnum := NaN | Num (q : Q).

#[global] Instance truthy_jsnum : Truthy jsnum :=
  fun n => match n with NaN => false | Num q => truthy q end.

(** Leading white space and line terminators, in UTF-8. *)
Fixpoint skip_white (s : list N) : list N :=
  match s with
  | (9 | 10 | 11 | 12 | 13 | 32)%N :: rest => skip_white rest
  | 194%N :: 160%N :: rest => skip_white rest
  | 225%N :: 154%N :: 128%N :: rest => skip_white rest
  | 226%N :: 128%N :: (128 | 129 | 130 | 131 | 132 | 133 | 134 | 135 | 136 | 137
                       | 138 | 168 | 169 | 175)%N :: rest => skip_white rest
  | 226%N :: 129%N :: 159%N :: rest => skip_white rest
  | 227%N :: 128%N :: 128%N :: rest => skip_white rest
  | 239%N :: 187%N :: 191%N :: rest => skip_white rest
  | _ => s
  end.

Definition is_digit (c : N) : bool := ((48 <=? c) && (c <=? 57))%N.

(** The leading decimal digits and what follows them. *)
Fixpoint span_digits (s : list N) : list N * list N :=
  match s with
  | c :: rest =>
      if is_digit c then let '(ds, r) := span_digits rest in (c :: ds, r)
      else ([], s)
  | [] => ([], [])
  end.

Definition digits_value (ds : list N) : Z :=
  fold_left (fun acc c => (acc * 10 + (Z.of_N c - 48))%Z) ds 0%Z.

(** An exponent part [e], [e+] or [e-] followed by digits; 0 when there is
    none. *)
Definition exponent_part (s : list N) : Z :=
  match s with
  | (101 | 69)%N :: rest =>
      match rest with
      | 43%N :: r =>
          let ds := (span_digits r).1 in if ds is [] then 0%Z else digits_value ds
      | 45%N :: r =>
          let ds := (span_digits r).1 in if ds is [] then 0%Z else (- digits_value ds)%Z
      | _ =>
          let ds := (span_digits rest).1 in if ds is [] then 0%Z else digits_value ds
      end
  | _ => 0%Z
  end.

(** The unsigned decimal literal at the head of [s].  The literal
    [Infinity] denotes no number of the model. *)
Definition unsigned_literal (s : list N) : jsnum :=
  let '(int, rest) := span_digits s in
  let '(frac, rest) :=
    match rest with
    | 46%N :: r => span_digits r
    | _ => ([], rest)
    end in
  if bool_decide (int = [] ∧ frac = []) then NaN
  else
    Num (double (inject_Z (digits_value (int ++ frac))
                 * pow10 (exponent_part rest - Z.of_nat (length frac)))).

(** [parseFloat] of a string. *)
Definition parseFloat_text (s : string) : jsnum :=
  match skip_white (map Ascii.N_of_ascii (String.list_ascii_of_string s)) with
  | 45%N :: rest =>
      match unsigned_literal rest with Num q => Num (- q) | NaN => NaN end
  | 43%N :: rest => unsigned_literal rest
  | rest => unsigned_literal rest
  end.

(** [parseFloat(x)]: the argument is converted to a string first, and the
    string of a number reads back as that number. *)
Definition parseFloat (x : Cell) : jsnum :=
  match x with
  | Undefined | Null | Bool _ => NaN
  | Number q => Num q
  | Text s => parseFloat_text s
  end.

(** [n || d] for a [parseFloat] result and a numeric fall-back. *)
Definition num_or (n : jsnum) (d : Q) : Q :=
  match n with
  | Num q => if truthy q then q else d
  | NaN => d
  end.

End JS.
Import JS.

Notation "a ||| b" := (jor a b) (at level 50, left associativity).
Notation "a ||: d" := (jor_lit a d) (at level 50, left associativity).
Notation "a ⊕ b" := (add a b) (at level 50, left associativity).
Notation "a ⊖ b" := (sub a b) (at level 50, left associativity).
Notation "a ⊗ b" := (mul a b) (at level 40, left associativity).
Notation "a ⊘ b" := (div a b) (at level 40, left associativity).

(** ** Plain objects used as dictionaries *)

Module Obj.

(** The properties of [Object.prototype], which every plain object
    inherits: functions, and the accessor [__proto__]. *)
Definition prototype_names : list string :=
  ["constructor"; "__defineGetter__"; "__defineSetter__"; "hasOwnProperty";
   "__lookupGetter__"; "__lookupSetter__"; "isPrototypeOf";
   "propertyIsEnumerable"; "toString"; "valueOf"; "__proto__"; "toLocaleString"].

Definition inherited (k : string) : bool := bool_decide (k ∈ prototype_names).

(** A name that [Object.prototype] does not define. *)
Record Key := { name : string; own_name : inherited name = false }.

(** What a read [o[k]] finds: a value stored in the dictionary, a
    primitive property of an object that was installed as its prototype (of
    which the code only tests the truthiness), a member inherited from
    [Object.prototype] (a built-in function, or for [__proto__] the prototype
    object itself), or nothing ([undefined]). *)
Inductive Slot (V : Type) :=
| Own (v : V)
| Field (is_truthy : bool)
| Member (name : string)
| Missing.
Arguments Own {V} _.
Arguments Field {V} _.
Arguments Member {V} _.
Arguments Missing {V}.

#[global] Instance truthy_slot {V} : Truthy (Slot V) :=
  fun s =>
    match s with
    | Own _ | Member _ => true
    | Field b => b
    | Missing => false
    end.

(** The stored value a read found, if any. *)
Definition stored {V} (s : Slot V) : option V :=
  match s with Own v => Some v | _ => None end.

(** *** Dictionaries of primitive values *)

(** [o[k] = v] for a primitive [v]: the setter of [__proto__] ignores it. *)
Definition set_primitive {V} (k : string) (v : V) (o : gmap string V) : gmap string V :=
  if String.eqb k "__proto__" then o else <[k := v]> o.

(** [o[k]] *)
Definition read {V} (o : gmap string V) (k : string) : Slot V :=
  match o !! k with
  | Some v => Own v
  | None => if inherited k then Member k else Missing
  end.

(** *** Dictionaries of objects *)

(** The own properties of the stored objects: the truthiness of the
    property [k] of [v], if [v] has it. *)
Class Fields (V : Type) := field : V → string → option bool.

(** The own properties of a dictionary and the object that an assignment to
    [__proto__] has installed as its prototype. *)
Record t (V : Type) := { props : gmap string V; proto : option V }.
Arguments props {V} _.
Arguments proto {V} _.

Definition empty {V} : t V := {| props := ∅; proto := None |}.

(** [o[k] = v] for an object [v]. *)
Definition set {V} (k : string) (v : V) (o : t V) : t V :=
  if String.eqb k "__proto__" then {| props := props o; proto := Some v |}
  else {| props := <[k := v]> (props o); proto := proto o |}.

(** [o[k]] *)
Definition get {V} `{Fields V} (o : t V) (k : string) : Slot V :=
  match props o !! k with
  | Some v => Own v
  | None =>
      if String.eqb k "__proto__" then
        match proto o with Some v => Own v | None => Member k end
      else
        match proto o ≫= fun v => field v k with
        | Some b => Field b
        | None => if inherited k then Member k else Missing
        end
  end.

(** *** Enumeration order *)

(** An array index: the canonical decimal string of an integer below
    [2^32 - 1]. *)
Definition array_index (k : string) : option N :=
  let bytes := map Ascii.N_of_ascii (String.list_ascii_of_string k) in
  let n := Z.to_N (digits_value bytes) in
  if forallb is_digit bytes && String.eqb (pretty n) k && (n <? 4294967295)%N
  then Some n else None.

Fixpoint insert_by_index {V} (e : N * (string * V)) (l : list (N * (string * V)))
  : list (N * (string * V)) :=
  match l with
  | [] => [e]
  | e' :: l' => if (e.1 <? e'.1)%N then e :: l else e' :: insert_by_index e l'
  end.

(** [Object.entries(o)] for own properties listed in insertion order:
    array indices first, in ascending order, then the other names as
    inserted. *)
Definition entries {V} (o : list (string * V)) : list (string * V) :=
  let indexed :=
    fold_left (fun acc e =>
      match array_index e.1 with
      | Some n => insert_by_index (n, e) acc
      | None => acc
      end) o [] in
  map snd indexed ++ List.filter (fun e => negb (bool_decide (is_Some (array_index e.1)))) o.

End Obj.

(** ** Filters handed over by the rendering layer *)

Inductive VolumeFilter :=
| VFStr (category : string)
| VFArr (categories : list string).

Record Filters := {
  neighborhood : string;
  counterType : string;
  volumeFilter : VolumeFilter;
  viewType : option string
}.

(** [isInVolumeCategory(count, category)] *)
Definition isInVolumeCategory (count : Q) (category : string) : bool :=
  if String.eqb category "high" then ge count 80
  else if String.eqb category "medium-high" then ge count 50 && lt count 80
  else if String.eqb category "medium" then ge count 30 && lt count 50
  else if String.eqb category "medium-low" then ge count 10 && lt count 30
  else if String.eqb category "low" then lt count 10
  else true.

(** ** Data model: the records read from the source files *)

(** A GeoJSON feature collection; [features] may be missing from a parsed
    object, which the code tests with [data && data.features]. *)
Record Collection (F : Type) := { features : option (list F) }.
Arguments features {F} _.

(** A feature as it is parsed: its [properties] member is an object
    ([WithProps]) or [null] ([NoProps]); [F] is the feature with its property
    object and [G] the geometry. *)
Inductive Parsed (F G : Type) :=
| WithProps (feature : F)
| NoProps (geometry : option G).
Arguments WithProps {F G} _.
Arguments NoProps {F G} _.

(** The features of a list that all have properties. *)
Definition with_properties {F G} (items : list (Parsed F G)) : option (list F) :=
  mapM (fun item => match item with WithProps f => Some f | NoProps _ => None end) items.

(** A GeoJSON position [[lng, lat]]. *)
Definition Position := list Q.

(** Coordinates of any shape: a number or an array. *)
#[local] Unset Elimination Schemes.
Inductive Coord :=
| CNum (q : Q)
| CArr (elements : list Coord).
#[local] Set Elimination Schemes.

#[global] Instance truthy_coord : Truthy Coord :=
  fun c => match c with CNum q => truthy q | CArr _ => true end.

(** The outcome of a call that may throw. *)
Inductive Outcome (A : Type) :=
| Returned (a : A)
| Thrown (message : string).
Arguments Returned {A} _.
Arguments Thrown {A} _.

(** [l.forEach(body)] where [body] updates the element in place or throws:
    the list as the loop leaves it, and how the loop ends. *)
Fixpoint forEach {A} (body : A → Outcome A) (l : list A) : Outcome unit * list A :=
  match l with
  | [] => (Returned tt, [])
  | a :: l' =>
      match body a with
      | Returned a' => let '(o, l'') := forEach body l' in (o, a' :: l'')
      | Thrown e => (Thrown e, a :: l')
      end
  end.

(** Road segments: [data/segments_wgs84.geojson]. *)
Module Road.

Record Geometry := { type : string; coordinates : option Coord }.

Record Props := {
  SUBBLOCKKEY : option string;
  SUBBLOK : option string;
  NEIGHBORHOOD : option string;
  BIKE_FT : option string;
  bike_facility_type : option string;
  SEG_LEN : option Q;
  segment_length : option Q;
  degree_max : option Q;
  betweenness_max : option Q;
  closeness_max : option Q;
  populationE : option Q;
  median_incomeE : option Q;
  commute_bicycleE : option Q;
  edu_bachelors_plusE : option Q;
  rent_percentE : option Q;
  median_ageE : option Q;
  (* attached or overwritten by the join *)
  predicted : option Q;
  predicted_alt : option Q;
  OBSERVED_COUNT : option Q;
  COUNTER_TYPE : option string;
  GEOID : option string;
  POPULATION : option Q;
  MEDIAN_INCOME : option Q;
  COMMUTE_TIME : option Q;
  BIKE_COMMUTE : option Q;
  EDUCATION : option Q;
  WHITE_PERCENTAGE : option Q;
  RENT_PRICE : option Q;
  MEDIAN_AGE : option Q;
  DEGREE : option Q;
  BETWEEN : option Q;
  CLOSENESS : option Q;
  residual : option Q;
  percent_error : option Q;
  traffic_level : option string;
  lat : option Coord;
  lng : option Coord
}.

Record Feature := { properties : Props; geometry : option Geometry }.

Abbreviation Item := (Parsed Feature Geometry).

(** A property bag with every property absent. *)
Definition no_props : Props :=
  {| SUBBLOCKKEY := None; SUBBLOK := None; NEIGHBORHOOD := None;
     BIKE_FT := None; bike_facility_type := None; SEG_LEN := None;
     segment_length := None; degree_max := None; betweenness_max := None;
     closeness_max := None; populationE := None; median_incomeE := None;
     commute_bicycleE := None; edu_bachelors_plusE := None;
     rent_percentE := None; median_ageE := None; predicted := None;
     predicted_alt := None; OBSERVED_COUNT := None; COUNTER_TYPE := None;
     GEOID := None; POPULATION := None; MEDIAN_INCOME := None;
     COMMUTE_TIME := None; BIKE_COMMUTE := None; EDUCATION := None;
     WHITE_PERCENTAGE := None; RENT_PRICE := None; MEDIAN_AGE := None;
     DEGREE := None; BETWEEN := None; CLOSENESS := None; residual := None;
     percent_error := None; traffic_level := None; lat := None; lng := None |}.

End Road.

(** Counter points: [data/Counters Data/combined_counters_wgs84.geojson].
    The segment key and the site name of a counter are typed as names that
    [Object.prototype] does not define: under any other name
    [observedCountMap[key]] is a built-in function, which the code would
    store in [COUNT]. *)
Module Counter.

Record Props := {
  SUBBLOCKKEY : option Obj.Key;
  Site_Nm : option Obj.Key;
  NEIGHBORHOOD : option string;
  COUNTER_TYPE : option string;
  cntr_ty : option string;
  COUNT : option Q;
  OBSERVED_COUNT : option Q
}.

Record Feature := { properties : Props; geometry : option Position }.

Abbreviation Item := (Parsed Feature Position).

Definition set_COUNT (v : option Q) (p : Props) : Props :=
  {| SUBBLOCKKEY := SUBBLOCKKEY p; Site_Nm := Site_Nm p;
     NEIGHBORHOOD := NEIGHBORHOOD p; COUNTER_TYPE := COUNTER_TYPE p;
     cntr_ty := cntr_ty p; COUNT := v; OBSERVED_COUNT := OBSERVED_COUNT p |}.

Definition set_OBSERVED_COUNT (v : option Q) (p : Props) : Props :=
  {| SUBBLOCKKEY := SUBBLOCKKEY p; Site_Nm := Site_Nm p;
     NEIGHBORHOOD := NEIGHBORHOOD p; COUNTER_TYPE := COUNTER_TYPE p;
     cntr_ty := cntr_ty p; COUNT := COUNT p; OBSERVED_COUNT := v |}.

Definition with_props (f : Feature) (p : Props) : Feature :=
  {| properties := p; geometry := geometry f |}.

End Counter.

(** Census areas:
    [data/Census Data/selected_seg_census_wgs84_with_white.geojson]. *)
Module Census.

Record Props := {
  SUBBLOC : option string;
  GEOID : option string;
  popltnE : option Q;
  mdn_ncE : option Q;
  cmmt__E : option Q;
  cmmt_bE : option Q;
  ed_bc_E : option Q;
  pct_white : option Q;
  rnt_prE : option Q;
  medn_gE : option Q
}.

Definition Polygon := list (list Position).

Record Feature := {
  properties : Props;
  geometry : option Polygon
}.

Abbreviation Item := (Parsed Feature Polygon).

End Census.

(** Neighborhood polygons: [data/DC_Health_Planning_Neighborhoods.geojson]. *)
Module Hood.

Record Props := {
  DC_HPN_NAME : option string;
  NAME : option string;
  NEIGHBORHOOD : option string
}.

Record Feature := {
  properties : option Props;
  geometry : option (list (list Position))
}.

End Hood.

(** Rows of [data/spatial_predictions.csv]; [pred] and [pred_1] are the
    columns [.pred] and [.pred.1]. *)
Module Pred.

Record Row := {
  SUBBLOCKKEY : Cell;
  observed : Cell;
  OBSERVED_COUNT : Cell;
  pred : Cell;
  pred_1 : Cell;
  predicted : Cell;
  predicted_alt : Cell
}.

End Pred.

(** Rows of [data/time_predictions_nogeom.csv].  The columns [dotw] and
    [hour] hold numbers.  No row is keyed [__proto__]: such a row would add
    its day to [Object.prototype]. *)
Module Temporal.

Record Row := {
  GEOID : Cell;
  dotw : Numeric;
  hour : Numeric;
  hr_pred : Cell;
  GEOID_ok : String.eqb (String_ GEOID) "__proto__" = false
}.

End Temporal.

(** ** Lookup builders *)

Module Lookup.

Record PredictedEntry := { predicted : Q; predicted_alt : Q }.

Record CounterEntry := { OBSERVED_COUNT : Q; COUNTER_TYPE : string }.

Record CensusEntry := {
  GEOID : option string;
  POPULATION : option Q;
  MEDIAN_INCOME : option Q;
  COMMUTE_TIME : option Q;
  BIKE_COMMUTE : option Q;
  EDUCATION : option Q;
  WHITE_PERCENTAGE : option Q;
  RENT_PRICE : option Q;
  MEDIAN_AGE : option Q
}.

#[global] Instance predicted_fields : Obj.Fields PredictedEntry :=
  fun e k =>
    if String.eqb k "predicted" then Some (truthy (predicted e))
    else if String.eqb k "predicted_alt" then Some (truthy (predicted_alt e))
    else None.

#[global] Instance counter_fields : Obj.Fields CounterEntry :=
  fun e k =>
    if String.eqb k "OBSERVED_COUNT" then Some (truthy (OBSERVED_COUNT e))
    else if String.eqb k "COUNTER_TYPE" then Some (truthy (COUNTER_TYPE e))
    else None.

#[global] Instance census_fields : Obj.Fields CensusEntry :=
  fun e k =>
    if String.eqb k "GEOID" then Some (truthy (GEOID e))
    else if String.eqb k "POPULATION" then Some (truthy (POPULATION e))
    else if String.eqb k "MEDIAN_INCOME" then Some (truthy (MEDIAN_INCOME e))
    else if String.eqb k "COMMUTE_TIME" then Some (truthy (COMMUTE_TIME e))
    else if String.eqb k "BIKE_COMMUTE" then Some (truthy (BIKE_COMMUTE e))
    else if String.eqb k "EDUCATION" then Some (truthy (EDUCATION e))
    else if String.eqb k "WHITE_PERCENTAGE" then Some (truthy (WHITE_PERCENTAGE e))
    else if String.eqb k "RENT_PRICE" then Some (truthy (RENT_PRICE e))
    else if String.eqb k "MEDIAN_AGE" then Some (truthy (MEDIAN_AGE e))
    else None.

End Lookup.

(** The key under which a record is indexed: [Some k] exactly when the
    property is truthy. *)
Definition key_of (o : option string) : option string :=
  match o with
  | Some k => if truthy k then Some k else None
  | None => None
  end.

(** The same for a cell of a CSV row, which is converted to a string when
    it is used as a property name. *)
Definition cell_key (c : Cell) : option string :=
  if truthy c then Some (String_ c) else None.

(** [createPredictedLookup(predictedData)] *)
Definition createPredictedLookup (predictedData : list Pred.Row)
  : Obj.t Lookup.PredictedEntry :=
  fold_left (fun predictedLookup item =>
    match cell_key (Pred.SUBBLOCKKEY item) with
    | Some k =>
        Obj.set k
          {| Lookup.predicted :=
               num_or (parseFloat (Pred.pred item))
                 (num_or (parseFloat (Pred.predicted item)) 0);
             Lookup.predicted_alt :=
               num_or (parseFloat (Pred.pred_1 item))
                 (num_or (parseFloat (Pred.predicted_alt item)) 0) |}
          predictedLookup
    | None => predictedLookup
    end) predictedData Obj.empty.

(** [createCounterLookup(counterData)] *)
Definition createCounterLookup (counterData : option (Collection Counter.Feature))
  : Obj.t Lookup.CounterEntry :=
  match counterData ≫= features with
  | None => Obj.empty
  | Some fs =>
      fold_left (fun counterLookup feature =>
        let props := Counter.properties feature in
        let count := Counter.COUNT props ||| Counter.OBSERVED_COUNT props ||: 0 in
        let entry :=
          {| Lookup.OBSERVED_COUNT := count;
             Lookup.COUNTER_TYPE :=
               Counter.COUNTER_TYPE props ||| Counter.cntr_ty props ||: "UNKNOWN" |} in
        match key_of (Obj.name <$> Counter.SUBBLOCKKEY props) with
        | Some k => Obj.set k entry counterLookup
        | None =>
            match key_of (Obj.name <$> Counter.Site_Nm props) with
            | Some k => Obj.set k entry counterLookup
            | None => counterLookup
            end
        end) fs Obj.empty
  end.

(** The entry [createCensusLookup] stores for a feature with properties. *)
Definition census_entry (props : Census.Props) : Lookup.CensusEntry :=
  {| Lookup.GEOID := Census.GEOID props;
     Lookup.POPULATION := Census.popltnE props;
     Lookup.MEDIAN_INCOME := Census.mdn_ncE props;
     Lookup.COMMUTE_TIME := Census.cmmt__E props;
     Lookup.BIKE_COMMUTE := Census.cmmt_bE props;
     Lookup.EDUCATION := Census.ed_bc_E props;
     Lookup.WHITE_PERCENTAGE := Census.pct_white props;
     Lookup.RENT_PRICE := Census.rnt_prE props;
     Lookup.MEDIAN_AGE := Census.medn_gE props |}.

(** [createCensusLookup(censusData)]: [props.SUBBLOC] throws on a feature
    without properties, and the table built so far is lost. *)
Definition createCensusLookup (censusData : option (Collection Census.Item))
  : Outcome (Obj.t Lookup.CensusEntry) :=
  match censusData ≫= features with
  | None => Returned Obj.empty
  | Some items =>
      match with_properties items with
      | None => Thrown "TypeError"
      | Some fs =>
          Returned
            (fold_left (fun censusLookup feature =>
               let props := Census.properties feature in
               match key_of (Census.SUBBLOC props) with
               | Some k => Obj.set k (census_entry props) censusLookup
               | None => censusLookup
               end) fs Obj.empty)
      end
  end.

(** ** Join engine *)

(** [c[i]]: [undefined] off the end of an array and on a number. *)
Definition at_ (c : Coord) (i : nat) : option Coord :=
  match c with
  | CArr elements => elements !! i
  | CNum _ => None
  end.

(** [Math.floor(c.length / 2)]: [NaN] on a number, which has no length. *)
Definition mid_index (c : Coord) : option nat :=
  match c with
  | CArr elements => Some (Nat.div (length elements) 2)
  | CNum _ => None
  end.

(** The representative point picked inside the [try] block; reading the
    length of a missing middle line throws. *)
Definition midPoint (type : string) (coords : Coord) : Outcome (option Coord) :=
  if String.eqb type "LineString" then
    Returned (mid_index coords ≫= at_ coords)
  else if String.eqb type "MultiLineString" then
    match mid_index coords ≫= at_ coords with
    | Some midLine => Returned (mid_index midLine ≫= at_ midLine)
    | None => Thrown "TypeError"
    end
  else Returned (at_ coords 0).

(** The truthy [midPoint] of a feature whose geometry has truthy
    coordinates, if the [try] block yields one. *)
Definition representative (geometry : option Road.Geometry) : option Coord :=
  match geometry with
  | Some g =>
      match Road.coordinates g with
      | Some coords =>
          if truthy coords then
            match midPoint (Road.type g) coords with
            | Returned (Some m) => if truthy m then Some m else None
            | _ => None
            end
          else None
      | None => None
      end
  | None => None
  end.

(** [Number(x)] of a number. *)
Definition Number_ (q : Q) : Q := q.

(** The traffic-level bucket of a truthy prediction. *)
Definition traffic_bucket (predicted : Q) : string :=
  if ge predicted 80 then "high"
  else if ge predicted 40 then "medium"
  else "low".

(** The body of the [forEach] in [processRoadNetworkData] after
    [const props = feature.properties]: the feature after the in-place
    updates. *)
Definition joinFeature
    (predictedLookup : Obj.t Lookup.PredictedEntry)
    (counterLookup : Obj.t Lookup.CounterEntry)
    (censusLookup : Obj.t Lookup.CensusEntry)
    (feature : Road.Feature) : Road.Feature :=
  let props := Road.properties feature in
  match key_of (Road.SUBBLOCKKEY props ||| Road.SUBBLOK props) with
  | None => feature
  | Some subblockKey =>
      (* if (lookup[key]) props.x = lookup[key].x: a truthy value that is
         not an entry has no such property *)
      let p := Obj.get predictedLookup subblockKey in
      let predicted :=
        if truthy p then Lookup.predicted <$> Obj.stored p else Road.predicted props in
      let predicted_alt :=
        if truthy p then Lookup.predicted_alt <$> Obj.stored p
        else Road.predicted_alt props in
      let c := Obj.get counterLookup subblockKey in
      let OBSERVED_COUNT :=
        if truthy c then Lookup.OBSERVED_COUNT <$> Obj.stored c
        else Road.OBSERVED_COUNT props in
      let COUNTER_TYPE :=
        if truthy c then Lookup.COUNTER_TYPE <$> Obj.stored c
        else Road.COUNTER_TYPE props in
      (* Object.assign(props, censusLookup[subblockKey]): a function or a
         primitive has no enumerable property among the modelled ones *)
      let s := Obj.stored (Obj.get censusLookup subblockKey) in
      let assigned {A} (get : Lookup.CensusEntry → option A) (old : option A) :=
        from_option get old s in
      let DEGREE := Road.degree_max props ||: 0 in
      let BETWEEN := Road.betweenness_max props ||: 0 in
      let CLOSENESS := Road.closeness_max props ||: 0 in
      let POPULATION := assigned Lookup.POPULATION (Road.POPULATION props) in
      let MEDIAN_INCOME := assigned Lookup.MEDIAN_INCOME (Road.MEDIAN_INCOME props) in
      let BIKE_COMMUTE := assigned Lookup.BIKE_COMMUTE (Road.BIKE_COMMUTE props) in
      let EDUCATION := assigned Lookup.EDUCATION (Road.EDUCATION props) in
      let RENT_PRICE := assigned Lookup.RENT_PRICE (Road.RENT_PRICE props) in
      let MEDIAN_AGE := assigned Lookup.MEDIAN_AGE (Road.MEDIAN_AGE props) in
      let derived :=
        match OBSERVED_COUNT, predicted with
        | Some o, Some p =>
            if truthy o && truthy p then
              let residual := o ⊖ p in
              (Some residual, Some ((residual ⊘ o) ⊗ 100))
            else (Road.residual props, Road.percent_error props)
        | _, _ => (Road.residual props, Road.percent_error props)
        end in
      let traffic_level :=
        match predicted with
        | Some p => if truthy p then Some (traffic_bucket p) else Road.traffic_level props
        | None => Road.traffic_level props
        end in
      let mid := representative (Road.geometry feature) in
      {| Road.properties :=
           {| Road.SUBBLOCKKEY := Road.SUBBLOCKKEY props;
              Road.SUBBLOK := Road.SUBBLOK props;
              Road.NEIGHBORHOOD := Road.NEIGHBORHOOD props;
              Road.BIKE_FT := Road.BIKE_FT props;
              Road.bike_facility_type := Road.bike_facility_type props;
              Road.SEG_LEN := Road.SEG_LEN props;
              Road.segment_length := Road.segment_length props;
              Road.degree_max := Road.degree_max props;
              Road.betweenness_max := Road.betweenness_max props;
              Road.closeness_max := Road.closeness_max props;
              Road.populationE := Road.populationE props;
              Road.median_incomeE := Road.median_incomeE props;
              Road.commute_bicycleE := Road.commute_bicycleE props;
              Road.edu_bachelors_plusE := Road.edu_bachelors_plusE props;
              Road.rent_percentE := Road.rent_percentE props;
              Road.median_ageE := Road.median_ageE props;
              Road.predicted := predicted;
              Road.predicted_alt := predicted_alt;
              Road.OBSERVED_COUNT := OBSERVED_COUNT;
              Road.COUNTER_TYPE := COUNTER_TYPE;
              Road.GEOID := assigned Lookup.GEOID (Road.GEOID props);
              Road.POPULATION := Some (Road.populationE props ||| POPULATION ||: 0);
              Road.MEDIAN_INCOME := Some (Road.median_incomeE props ||| MEDIAN_INCOME ||: 0);
              Road.COMMUTE_TIME := assigned Lookup.COMMUTE_TIME (Road.COMMUTE_TIME props);
              Road.BIKE_COMMUTE := Some (Road.commute_bicycleE props ||| BIKE_COMMUTE ||: 0);
              Road.EDUCATION := Some (Road.edu_bachelors_plusE props ||| EDUCATION ||: 0);
              Road.WHITE_PERCENTAGE :=
                assigned Lookup.WHITE_PERCENTAGE (Road.WHITE_PERCENTAGE props);
              Road.RENT_PRICE := Some (Road.rent_percentE props ||| RENT_PRICE ||: 0);
              Road.MEDIAN_AGE := Some (Road.median_ageE props ||| MEDIAN_AGE ||: 0);
              Road.DEGREE := Some (Number_ (Some DEGREE ||: 0));
              Road.BETWEEN := Some (Number_ (Some BETWEEN ||: 0));
              Road.CLOSENESS := Some (Number_ (Some CLOSENESS ||: 0));
              Road.residual := derived.1;
              Road.percent_error := derived.2;
              Road.traffic_level := traffic_level;
              Road.lat := from_option (fun m => at_ m 1) (Road.lat props) mid;
              Road.lng := from_option (fun m => at_ m 0) (Road.lng props) mid |};
         Road.geometry := Road.geometry feature |}
  end.

(** The body of the [forEach] on a parsed feature: [props.SUBBLOCKKEY]
    throws when the feature has no properties. *)
Definition joinItem
    (predictedLookup : Obj.t Lookup.PredictedEntry)
    (counterLookup : Obj.t Lookup.CounterEntry)
    (censusLookup : Obj.t Lookup.CensusEntry)
    (item : Road.Item) : Outcome Road.Item :=
  match item with
  | WithProps feature =>
      Returned (WithProps (joinFeature predictedLookup counterLookup censusLookup feature))
  | NoProps _ => Thrown "TypeError"
  end.

(** [processRoadNetworkData(roadData, counterData, predictedData, censusData)]:
    how the call ends, and the collection as the in-place updates leave
    it. *)
Definition processRoadNetworkData
    (roadData : Collection Road.Item)
    (counterData : option (Collection Counter.Feature))
    (predictedData : list Pred.Row)
    (censusData : option (Collection Census.Item))
  : Outcome unit * Collection Road.Item :=
  match features roadData with
  | None => (Returned tt, roadData)
  | Some items =>
      let predictedLookup := createPredictedLookup predictedData in
      let counterLookup := createCounterLookup counterData in
      match createCensusLookup censusData with
      | Thrown e => (Thrown e, roadData)
      | Returned censusLookup =>
          let '(o, items') :=
            forEach (joinItem predictedLookup counterLookup censusLookup) items in
          (o, {| features := Some items' |})
      end
  end.

(** ** Counter points and the observed counts of the predictions table *)

(** The cell [updateCounterPointsWithObservedData] reads from a row:
    [item.observed || item.OBSERVED_COUNT || item['.pred']]. *)
Definition observed_cell (item : Pred.Row) : Cell :=
  cell_or (cell_or (Pred.observed item) (Pred.OBSERVED_COUNT item)) (Pred.pred item).

(** The dictionary [observedCountMap] built by
    [updateCounterPointsWithObservedData]. *)
Definition observedCountMap (predictionsData : list Pred.Row) : gmap string Q :=
  fold_left (fun m item =>
    match cell_key (Pred.SUBBLOCKKEY item) with
    | Some k =>
        if truthy (observed_cell item)
        then Obj.set_primitive k (num_or (parseFloat (observed_cell item)) 0) m
        else m
    | None => m
    end) predictionsData ∅.

(** [Math.floor(Math.random() * 80) + 20] for the draw [r] of [Math.random]. *)
Definition filler (r : Q) : Q := inject_Z (Math_floor (r ⊗ 80)) ⊕ 20.

#[global] Instance truthy_key : Truthy Obj.Key := fun k => truthy (Obj.name k).

(** [key && observedCountMap[key]] for [key = SUBBLOCKKEY || Site_Nm]; the
    key is no inherited name, so the read finds an own property or
    nothing. *)
Definition matched_count (obs : gmap string Q) (props : Counter.Props) : option Q :=
  match key_of (Obj.name <$> (Counter.SUBBLOCKKEY props ||| Counter.Site_Nm props)) with
  | Some k => obs !! k
  | None => None
  end.

(** The body of the [forEach] over the counter features.  [rand] is the
    sequence of values returned by [Math.random] and [n] the number of draws
    made so far; a draw is made only when the filler is needed. *)
Definition updateCounterFeature (obs : gmap string Q) (rand : nat → Q)
    (n : nat) (feature : Counter.Feature) : Counter.Feature * nat :=
  let props := Counter.properties feature in
  let found := matched_count obs props in
  if truthy found then
    (Counter.with_props feature
       (Counter.set_OBSERVED_COUNT found (Counter.set_COUNT found props)), n)
  else
    let drawn : option Q * nat :=
      if truthy (Counter.COUNT props)
      then (Counter.COUNT props, n)
      else (Some (filler (rand n)), S n) in
    let props' := Counter.set_COUNT drawn.1 props in
    (Counter.with_props feature
       (Counter.set_OBSERVED_COUNT (Counter.COUNT props') props'), drawn.2).

Fixpoint updateCounterFeatures (obs : gmap string Q) (rand : nat → Q)
    (n : nat) (fs : list Counter.Feature) : list Counter.Feature * nat :=
  match fs with
  | [] => ([], n)
  | f :: fs' =>
      let '(f', n') := updateCounterFeature obs rand n f in
      let '(fs'', n'') := updateCounterFeatures obs rand n' fs' in
      (f' :: fs'', n'')
  end.

(** [updateCounterPointsWithObservedData()] on the counter collection of the
    store. *)
Definition updateCounterPointsWithObservedData (predictionsData : list Pred.Row)
    (rand : nat → Q) (n : nat) (counterPointsData : Collection Counter.Feature)
  : Collection Counter.Feature * nat :=
  match features counterPointsData with
  | None => (counterPointsData, n)
  | Some fs =>
      let '(fs', n') := updateCounterFeatures (observedCountMap predictionsData) rand n fs in
      ({| features := Some fs' |}, n')
  end.

(** ** Aggregator *)

Record Statistics := {
  totalObserved : Q;
  totalEstimated : Q;
  averagePredicted : Q;
  observedSegments : option nat;
  bikeLaneCoverage : Z;
  mostActiveArea : string;
  busyHours : list Z;
  modelAccuracy : Z;
  averageIncome : Z;
  averagePopulation : Z;
  averageBikeCommute : Z;
  averageEducation : Z
}.

(** A value of [neighborhoodCounts]: a number, or the string that results
    from adding a number to a built-in function or to such a string.  The
    string does not read as a number. *)
Inductive Tally :=
| Count (q : Q)
| Concatenation.

(** The local counters of [calculateStatistics]. *)
Module Acc.

Record t := {
  observedTotal : Q;
  estimatedTotal : Q;
  estimatedCount : nat;
  observedSegments : nat;
  bikePathLength : Q;
  totalRoadLength : Q;
  neighborhoodCounts : list (string * Tally);
  totalIncome : Q;
  incomeCount : nat;
  totalPopulation : Q;
  populationCount : nat;
  totalBikeCommute : Q;
  bikeCommuteCount : nat;
  totalEducation : Q;
  educationCount : nat
}.

Definition init : t :=
  {| observedTotal := 0; estimatedTotal := 0; estimatedCount := 0;
     observedSegments := 0; bikePathLength := 0; totalRoadLength := 0;
     neighborhoodCounts := []; totalIncome := 0; incomeCount := 0;
     totalPopulation := 0; populationCount := 0; totalBikeCommute := 0;
     bikeCommuteCount := 0; totalEducation := 0; educationCount := 0 |}.

End Acc.

(** The own properties of [neighborhoodCounts], in insertion order:
    the value stored under [k], and [neighborhoodCounts[k] = v]. *)
Fixpoint entry_get {V} (k : string) (o : list (string * V)) : option V :=
  match o with
  | [] => None
  | (k', v) :: o' => if String.eqb k k' then Some v else entry_get k o'
  end.

Fixpoint entry_set {V} (k : string) (v : V) (o : list (string * V))
  : list (string * V) :=
  match o with
  | [] => [(k, v)]
  | (k', v') :: o' =>
      if String.eqb k k' then (k, v) :: o' else (k', v') :: entry_set k v o'
  end.

(** [(neighborhoodCounts[k] || 0) + volume]: a number is added to a
    number; a built-in function that the read inherits, or a string stored
    before, is concatenated with the number. *)
Definition tally_sum (counts : list (string * Tally)) (k : string) (volume : Q) : Tally :=
  match entry_get k counts with
  | Some (Count v) => Count ((if truthy v then v else 0) ⊕ volume)
  | Some Concatenation => Concatenation
  | None => if Obj.inherited k then Concatenation else Count (0 ⊕ volume)
  end.

(** [neighborhoodCounts[k] = v]: the setter of [__proto__] ignores the
    primitive. *)
Definition tally_set (k : string) (v : Tally) (counts : list (string * Tally))
  : list (string * Tally) :=
  if String.eqb k "__proto__" then counts else entry_set k v counts.

(** [t += v; n++] when [cond] holds. *)
Definition tally (cond : bool) (v : Q) (acc : Q * nat) : Q * nat :=
  if cond then (acc.1 ⊕ v, S acc.2) else acc.

(** Segment length and bike facility as read by the coverage computation. *)
Definition segLength (props : Road.Props) : option Q :=
  Road.SEG_LEN props ||| Road.segment_length props.

Definition bikeFacility (props : Road.Props) : string :=
  Road.BIKE_FT props ||| Road.bike_facility_type props ||: "".

Definition has_bike_lane (props : Road.Props) : bool :=
  truthy (bikeFacility props)
  && negb (String.eqb (bikeFacility props) "None")
  && negb (String.eqb (bikeFacility props) "NA").

(** The census attributes as read by the averages. *)
Definition income_of (props : Road.Props) : option Q :=
  Road.MEDIAN_INCOME props ||| Road.median_incomeE props.
Definition population_of (props : Road.Props) : option Q :=
  Road.POPULATION props ||| Road.populationE props.
Definition bikeCommute_of (props : Road.Props) : option Q :=
  Road.BIKE_COMMUTE props ||| Road.commute_bicycleE props.
Definition education_of (props : Road.Props) : option Q :=
  Road.EDUCATION props ||| Road.edu_bachelors_plusE props.

(** The body of the first [forEach] of [calculateStatistics]. *)
Definition accumulate (a : Acc.t) (feature : Road.Feature) : Acc.t :=
  let props := Road.properties feature in
  let obs := tally (truthy (Road.OBSERVED_COUNT props))
               (default 0 (Road.OBSERVED_COUNT props))
               (Acc.observedTotal a, Acc.observedSegments a) in
  let est := tally (truthy (Road.predicted props))
               (default 0 (Road.predicted props))
               (Acc.estimatedTotal a, Acc.estimatedCount a) in
  let len := segLength props ||: 0 in
  let counted := truthy (segLength props) in
  let inc := tally (truthy (income_of props)) (income_of props ||: 0)
               (Acc.totalIncome a, Acc.incomeCount a) in
  let pop := tally (truthy (population_of props)) (population_of props ||: 0)
               (Acc.totalPopulation a, Acc.populationCount a) in
  let bik := tally (truthy (bikeCommute_of props)) (bikeCommute_of props ||: 0)
               (Acc.totalBikeCommute a, Acc.bikeCommuteCount a) in
  let edu := tally (truthy (education_of props)) (education_of props ||: 0)
               (Acc.totalEducation a, Acc.educationCount a) in
  {| Acc.observedTotal := obs.1;
     Acc.observedSegments := obs.2;
     Acc.estimatedTotal := est.1;
     Acc.estimatedCount := est.2;
     Acc.totalRoadLength :=
       if counted then Acc.totalRoadLength a ⊕ len else Acc.totalRoadLength a;
     Acc.bikePathLength :=
       if counted && has_bike_lane props
       then Acc.bikePathLength a ⊕ len else Acc.bikePathLength a;
     Acc.neighborhoodCounts :=
       match key_of (Road.NEIGHBORHOOD props) with
       | Some nb =>
           tally_set nb
             (tally_sum (Acc.neighborhoodCounts a) nb
                (Road.OBSERVED_COUNT props ||| Road.predicted props ||: 0))
             (Acc.neighborhoodCounts a)
       | None => Acc.neighborhoodCounts a
       end;
     Acc.totalIncome := inc.1; Acc.incomeCount := inc.2;
     Acc.totalPopulation := pop.1; Acc.populationCount := pop.2;
     Acc.totalBikeCommute := bik.1; Acc.bikeCommuteCount := bik.2;
     Acc.totalEducation := edu.1; Acc.educationCount := edu.2 |}.

(** The scan over [Object.entries(neighborhoodCounts)]: the most active
    area and the highest count so far.  In [count > highestCount] a string
    that does not read as a number compares as [NaN], so the test fails. *)
Definition most_active (counts : list (string * Tally)) : string * Q :=
  fold_left (fun best e =>
               match e.2 with
               | Count q => if gt q best.2 then (e.1, q) else best
               | Concatenation => best
               end)
    (Obj.entries counts) ("Unknown", 0).

(** The body of the second [forEach]: [errorSum] and [errorCount]. *)
Definition accumulate_error (acc : Q * nat) (feature : Road.Feature) : Q * nat :=
  let props := Road.properties feature in
  match Road.OBSERVED_COUNT props, Road.predicted props with
  | Some o, Some p =>
      tally (truthy o && truthy p) (Math_abs (o ⊖ p) ⊘ o) acc
  | _, _ => acc
  end.

(** A counter as a number. *)
Definition of_count (n : nat) : Q := inject_Z (Z.of_nat n).

(** [c > 0 ? Math.round(t / c) : 0] *)
Definition rounded_mean (t : Q) (c : nat) : Z :=
  if (0 <? c)%nat then Math_round (t ⊘ of_count c) else 0%Z.

(** The statistics object assembled by [calculateStatistics] from road
    features that all have properties ([[]] when the collection or its
    features are missing). *)
Definition computeStatistics (fs : list Road.Feature) : Statistics :=
  let a := fold_left accumulate fs Acc.init in
  let err := fold_left accumulate_error fs (0, 0%nat) in
  let modelAccuracy :=
    if (0 <? err.2)%nat then 100 ⊗ (1 ⊖ err.1 ⊘ of_count err.2) else 0 in
  {| totalObserved := Acc.observedTotal a;
     totalEstimated := Acc.estimatedTotal a;
     averagePredicted :=
       if (0 <? Acc.estimatedCount a)%nat
       then Acc.estimatedTotal a ⊘ of_count (Acc.estimatedCount a) else 0;
     observedSegments := Some (Acc.observedSegments a);
     bikeLaneCoverage :=
       if truthy (Acc.totalRoadLength a)
       then Math_round ((Acc.bikePathLength a ⊘ Acc.totalRoadLength a) ⊗ 100)
       else 0%Z;
     mostActiveArea := (most_active (Acc.neighborhoodCounts a)).1;
     busyHours := [8; 9; 17; 18]%Z;
     modelAccuracy := Math_round modelAccuracy;
     averageIncome := rounded_mean (Acc.totalIncome a) (Acc.incomeCount a);
     averagePopulation := rounded_mean (Acc.totalPopulation a) (Acc.populationCount a);
     averageBikeCommute := rounded_mean (Acc.totalBikeCommute a) (Acc.bikeCommuteCount a);
     averageEducation := rounded_mean (Acc.totalEducation a) (Acc.educationCount a) |}.

(** ** The module state and the object store *)

(** Locations of the objects that are shared by reference. *)
Definition loc := positive.

(** An array of [dataState.temporalPredictions]: its elements (a hole of an
    extended array is [None]) and the properties stored under names that are
    no array index. *)
Record Series := { elements : list (option Cell); named : gmap string Cell }.

(** [dataState.temporalPredictions]: key, then day of week, then the hourly
    series. *)
Definition DayTable := gmap string Series.

Record DataState := {
  isInitialized : bool;
  roadNetworkData : option loc;
  counterPointsData : option loc;
  neighborhoodBoundaries : option (Collection Hood.Feature);
  predictionsData : option (list Pred.Row);
  censusData : option (Collection Census.Item);
  temporalPredictions : gmap string DayTable;
  statistics : Statistics;
  neighborhoodsList : list string
}.

(** The program state: [dataState], the objects it refers to, and the number
    of [Math.random] draws made so far. *)
Record Store := {
  ds : DataState;
  roads : gmap loc (Collection Road.Item);
  counters : gmap loc (Collection Counter.Feature);
  draws : nat
}.

Definition dataState0 : DataState :=
  {| isInitialized := false; roadNetworkData := None; counterPointsData := None;
     neighborhoodBoundaries := None; predictionsData := None; censusData := None;
     temporalPredictions := ∅;
     statistics :=
       {| totalObserved := 0; totalEstimated := 0; averagePredicted := 0;
          observedSegments := None; bikeLaneCoverage := 0; mostActiveArea := "";
          busyHours := []; modelAccuracy := 0; averageIncome := 0;
          averagePopulation := 0; averageBikeCommute := 0; averageEducation := 0 |};
     neighborhoodsList := [] |}.

Definition store0 : Store :=
  {| ds := dataState0; roads := ∅; counters := ∅; draws := 0 |}.

(** The object a reference of [dataState] points to. *)
Definition road_object (σ : Store) : option (Collection Road.Item) :=
  roadNetworkData (ds σ) ≫= fun l => roads σ !! l.

Definition counter_object (σ : Store) : option (Collection Counter.Feature) :=
  counterPointsData (ds σ) ≫= fun l => counters σ !! l.

(** A write through a reference: [None] (a [null] reference) writes nothing. *)
Definition write {A} (r : option loc) (v : A) (h : gmap loc A) : gmap loc A :=
  match r with Some l => <[l := v]> h | None => h end.

(** [processData()]: how the call ends and the store it leaves. *)
Definition processData (rand : nat → Q) (σ : Store) : Outcome unit * Store :=
  let σ1 :=
    match counter_object σ, predictionsData (ds σ) with
    | Some cs, Some preds =>
        let '(cs', n') := updateCounterPointsWithObservedData preds rand (draws σ) cs in
        {| ds := ds σ; roads := roads σ;
           counters := write (counterPointsData (ds σ)) cs' (counters σ);
           draws := n' |}
    | _, _ => σ
    end in
  match road_object σ1, counter_object σ1, predictionsData (ds σ1), censusData (ds σ1) with
  | Some rs, Some cs, Some preds, Some cens =>
      let '(o, rs') := processRoadNetworkData rs (Some cs) preds (Some cens) in
      (o, {| ds := ds σ1;
             roads := write (roadNetworkData (ds σ1)) rs' (roads σ1);
             counters := counters σ1;
             draws := draws σ1 |})
  | _, _, _, _ => (Returned tt, σ1)
  end.

(** [dataState.statistics = {...}] *)
Definition set_statistics (s : Statistics) (d : DataState) : DataState :=
  {| isInitialized := isInitialized d; roadNetworkData := roadNetworkData d;
     counterPointsData := counterPointsData d;
     neighborhoodBoundaries := neighborhoodBoundaries d;
     predictionsData := predictionsData d; censusData := censusData d;
     temporalPredictions := temporalPredictions d; statistics := s;
     neighborhoodsList := neighborhoodsList d |}.

(** [calculateStatistics()]: [props.OBSERVED_COUNT] throws on a feature
    without properties, before the statistics are assigned. *)
Definition calculateStatistics (σ : Store) : Outcome unit * Store :=
  match with_properties (default [] (road_object σ ≫= features)) with
  | Some fs =>
      (Returned tt,
       {| ds := set_statistics (computeStatistics fs) (ds σ);
          roads := roads σ; counters := counters σ; draws := draws σ |})
  | None => (Thrown "TypeError", σ)
  end.

(** ** Query and filter service *)

(** [x !== "all" && y !== x] for a filter value [x] and a property [y]. *)
Definition rejects (filter : string) (prop : option string) : bool :=
  negb (String.eqb filter "all")
  && negb (match prop with Some s => String.eqb s filter | None => false end).

(** [filters.viewType === v] *)
Definition view_is (filters : Filters) (v : string) : bool :=
  match viewType filters with Some s => String.eqb s v | None => false end.

(** [getCountForFeature(feature, filters)] *)
Definition getCountForFeature (feature : Road.Feature) (filters : Filters) : Q :=
  let props := Road.properties feature in
  if view_is filters "observed" && truthy (Road.OBSERVED_COUNT props)
  then default 0 (Road.OBSERVED_COUNT props)
  else if view_is filters "predicted" && truthy (Road.predicted props)
  then default 0 (Road.predicted props)
  else Road.OBSERVED_COUNT props ||| Road.predicted props ||: 0.

(** The predicate handed to [filter] in [getFilteredRoadData], on a feature
    with properties. *)
Definition keepRoad (filters : Filters) (feature : Road.Feature) : bool :=
  let props := Road.properties feature in
  if rejects (neighborhood filters) (Road.NEIGHBORHOOD props) then false
  else if rejects (counterType filters) (Road.COUNTER_TYPE props) then false
  else
    match volumeFilter filters with
    | VFStr category =>
        if String.eqb category "all" then true
        else isInVolumeCategory (getCountForFeature feature filters) category
    | VFArr categories =>
        existsb (isInVolumeCategory (getCountForFeature feature filters)) categories
    end.

(** The filters under which the predicate reads no property: all three
    are "all". *)
Definition reads_nothing (filters : Filters) : bool :=
  String.eqb (neighborhood filters) "all"
  && String.eqb (counterType filters) "all"
  && match volumeFilter filters with
     | VFStr category => String.eqb category "all"
     | VFArr _ => false
     end.

(** The same predicate on a parsed feature: the first property read throws
    when the feature has no properties. *)
Definition keepRoadItem (filters : Filters) (item : Road.Item) : Outcome bool :=
  match item with
  | WithProps feature => Returned (keepRoad filters feature)
  | NoProps _ => if reads_nothing filters then Returned true else Thrown "TypeError"
  end.

(** The predicate handed to [filter] in [getFilteredCounterData]. *)
Definition keepCounter (filters : Filters) (feature : Counter.Feature) : bool :=
  let props := Counter.properties feature in
  if rejects (neighborhood filters) (Counter.NEIGHBORHOOD props) then false
  else if rejects (counterType filters)
            (Counter.COUNTER_TYPE props ||| Counter.cntr_ty props) then false
  else true.

(** [l.filter(keep)] for a predicate that may throw. *)
Fixpoint filter_ {A} (keep : A → Outcome bool) (l : list A) : Outcome (list A) :=
  match l with
  | [] => Returned []
  | a :: l' =>
      match keep a with
      | Thrown e => Thrown e
      | Returned b =>
          match filter_ keep l' with
          | Thrown e => Thrown e
          | Returned kept => Returned (if b then a :: kept else kept)
          end
      end
  end.

(** [JSON.parse(JSON.stringify(x))] of a collection: a structurally equal
    object that shares nothing with [x]; it is placed at a location that the
    store does not use yet. *)
Definition deep_copy {A} (h : gmap loc A) (x : A) : loc * gmap loc A :=
  let l := fresh (dom h) in (l, <[l := x]> h).

(** [filteredData.features = filteredData.features.filter(keep)], an update
    of the object at [l]; [filter] on missing [features] throws, and so does
    a predicate that throws. *)
Definition filter_in_place {F} (keep : F → Outcome bool) (l : loc)
    (h : gmap loc (Collection F)) : Outcome (gmap loc (Collection F)) :=
  match h !! l ≫= features with
  | Some fs =>
      match filter_ keep fs with
      | Returned kept => Returned (<[l := {| features := Some kept |}]> h)
      | Thrown e => Thrown e
      end
  | None => Thrown "TypeError"
  end.

(** [getFilteredRoadData(filters)]: the returned reference ([None] for
    [null]) and the store after the call. *)
Definition getFilteredRoadData (filters : Filters) (σ : Store)
  : Outcome (option loc) * Store :=
  match road_object σ with
  | None => (Returned None, σ)
  | Some data =>
      let '(l, h) := deep_copy (roads σ) data in
      match filter_in_place (keepRoadItem filters) l h with
      | Returned h' =>
          (Returned (Some l),
           {| ds := ds σ; roads := h'; counters := counters σ; draws := draws σ |})
      | Thrown e =>
          (Thrown e,
           {| ds := ds σ; roads := h; counters := counters σ; draws := draws σ |})
      end
  end.

(** [getFilteredCounterData(filters)] *)
Definition getFilteredCounterData (filters : Filters) (σ : Store)
  : Outcome (option loc) * Store :=
  match counter_object σ with
  | None => (Returned None, σ)
  | Some data =>
      let '(l, h) := deep_copy (counters σ) data in
      match filter_in_place (fun f => Returned (keepCounter filters f)) l h with
      | Returned h' =>
          (Returned (Some l),
           {| ds := ds σ; roads := roads σ; counters := h'; draws := draws σ |})
      | Thrown e =>
          (Thrown e,
           {| ds := ds σ; roads := roads σ; counters := h; draws := draws σ |})
      end
  end.

(** [getTemporalPredictionsForSegment(geoid)]: the table stored under
    [String(geoid)], the inherited member of that name, or [null]
    ([Obj.Missing]). *)
Definition getTemporalPredictionsForSegment (d : DataState) (geoid : Cell)
  : Obj.Slot DayTable :=
  let key := String_ geoid in
  Obj.read (temporalPredictions d) key.

(** [exportToCSV(filters)] *)
Definition exportToCSV (filters : Filters) : string := "Sample CSV data".

(** ** Built-in default datasets *)

(** A position written with decimal literals. *)
Definition position (lng lat : Q) : Coord := CArr [CNum (double lng); CNum (double lat)].

Definition defaultRoadNetworkData : Collection Road.Item :=
  let props key ft nb len obs pred :=
    {| Road.SUBBLOCKKEY := Some key; Road.SUBBLOK := None;
       Road.NEIGHBORHOOD := Some nb; Road.BIKE_FT := Some ft;
       Road.bike_facility_type := None; Road.SEG_LEN := Some len;
       Road.segment_length := None; Road.degree_max := None;
       Road.betweenness_max := None; Road.closeness_max := None;
       Road.populationE := None; Road.median_incomeE := None;
       Road.commute_bicycleE := None; Road.edu_bachelors_plusE := None;
       Road.rent_percentE := None; Road.median_ageE := None;
       Road.predicted := Some pred; Road.predicted_alt := None;
       Road.OBSERVED_COUNT := obs; Road.COUNTER_TYPE := None;
       Road.GEOID := None; Road.POPULATION := None; Road.MEDIAN_INCOME := None;
       Road.COMMUTE_TIME := None; Road.BIKE_COMMUTE := None;
       Road.EDUCATION := None; Road.WHITE_PERCENTAGE := None;
       Road.RENT_PRICE := None; Road.MEDIAN_AGE := None; Road.DEGREE := None;
       Road.BETWEEN := None; Road.CLOSENESS := None; Road.residual := None;
       Road.percent_error := None; Road.traffic_level := None;
       Road.lat := None; Road.lng := None |} in
  let line a b :=
    Some {| Road.type := "LineString"; Road.coordinates := Some (CArr [a; b]) |} in
  {| features := Some
       [ WithProps
           {| Road.properties :=
                props "sample_road_1" "Protected" "Downtown" (double (1 # 4))
                  (Some 75) (double (157 # 2));
              Road.geometry :=
                line (position (-(7702 # 100)) (389 # 10))
                     (position (-(7703 # 100)) (389 # 10)) |};
         WithProps
           {| Road.properties :=
                props "sample_road_2" "Unprotected" "Capitol Hill" (double (15 # 100))
                  None (double (226 # 5));
              Road.geometry :=
                line (position (-(7699 # 100)) (389 # 10))
                     (position (-(7698 # 100)) (389 # 10)) |} ] |}.

(** The names of the default counters. *)
Definition key (name : string) (own_name : Obj.inherited name = false) : Obj.Key :=
  {| Obj.name := name; Obj.own_name := own_name |}.

Definition defaultCounterData : Collection Counter.Feature :=
  let feature key site ty count pos :=
    {| Counter.properties :=
         {| Counter.SUBBLOCKKEY := Some key; Counter.Site_Nm := Some site;
            Counter.NEIGHBORHOOD := None; Counter.COUNTER_TYPE := None;
            Counter.cntr_ty := Some ty; Counter.COUNT := Some count;
            Counter.OBSERVED_COUNT := None |};
       Counter.geometry := Some pos |} in
  {| features := Some
       [ feature (key "sample_road_1" eq_refl) (key "Counter 1" eq_refl) "AUTO" 75
           [double (-(77025 # 1000)); double (389 # 10)];
         feature (key "sample_road_2" eq_refl) (key "Counter 2" eq_refl) "MANUAL" 45
           [double (-(76985 # 1000)); double (389 # 10)] ] |}.

Definition defaultNeighborhoodData : Collection Hood.Feature :=
  let feature name ring :=
    {| Hood.properties :=
         Some {| Hood.DC_HPN_NAME := Some name; Hood.NAME := None;
                 Hood.NEIGHBORHOOD := None |};
       Hood.geometry := Some [map (map double) ring] |} in
  {| features := Some
       [ feature "Downtown"
           [[-(7704 # 100); 3889 # 100]; [-(7702 # 100); 3889 # 100];
            [-(7702 # 100); 3891 # 100]; [-(7704 # 100); 3891 # 100];
            [-(7704 # 100); 3889 # 100]];
         feature "Capitol Hill"
           [[-77; 3888 # 100]; [-(7698 # 100); 3888 # 100];
            [-(7698 # 100); 389 # 10]; [-77; 389 # 10]; [-77; 3888 # 100]] ] |}.

Definition defaultCensusData : Collection Census.Item :=
  {| features := Some
       [ WithProps
           {| Census.properties :=
                {| Census.SUBBLOC := Some "sample_road_1";
                   Census.GEOID := Some "11001000100";
                   Census.popltnE := Some 5000; Census.mdn_ncE := Some 85000;
                   Census.cmmt__E := Some 22; Census.cmmt_bE := Some 5;
                   Census.ed_bc_E := Some 75; Census.pct_white := None;
                   Census.rnt_prE := Some 2200; Census.medn_gE := Some 32 |};
              Census.geometry := Some
                [map (map double)
                   [[-(7704 # 100); 3889 # 100]; [-(7702 # 100); 3889 # 100];
                    [-(7702 # 100); 3891 # 100]; [-(7704 # 100); 3891 # 100];
                    [-(7704 # 100); 3889 # 100]]] |} ] |}.

Definition defaultPredictionsData : list Pred.Row :=
  let row key p p1 :=
    {| Pred.SUBBLOCKKEY := Text key; Pred.observed := Undefined;
       Pred.OBSERVED_COUNT := Undefined; Pred.pred := Number (double p);
       Pred.pred_1 := Number (double p1);
       Pred.predicted := Undefined; Pred.predicted_alt := Undefined |} in
  [ row "sample_road_1" (157 # 2) (401 # 5); row "sample_road_2" (226 # 5) (239 # 5) ].

(** ** Source loaders *)

(** A settled promise. *)
Inductive Promise (A : Type) :=
| Resolved (value : A)
| Rejected (reason : string).
Arguments Resolved {A} _.
Arguments Rejected {A} _.

(** [p.then(f)]: [f] returns, throws, or returns a promise. *)
Definition then_ {A B} (p : Promise A) (f : A → Promise B) : Promise B :=
  match p with
  | Resolved a => f a
  | Rejected e => Rejected e
  end.

(** [p.catch(h)] *)
Definition catch_ {A} (p : Promise A) (h : string → Promise A) : Promise A :=
  match p with
  | Resolved a => Resolved a
  | Rejected e => h e
  end.

(** [Promise.all([p, q])] *)
Definition all2 {A B} (p : Promise A) (q : Promise B) : Promise (A * B) :=
  match p, q with
  | Resolved a, Resolved b => Resolved (a, b)
  | Rejected e, _ => Rejected e
  | _, Rejected e => Rejected e
  end.

(** A fetch response.  [body] is the outcome of reading it: [response.json()],
    or [response.text()] followed by the CSV parser (which does not throw);
    it is rejected when the content cannot be read or parsed. *)
Record Response (A : Type) := {
  ok : bool;
  statusText : string;
  body : Promise A
}.
Arguments ok {A} _.
Arguments statusText {A} _.
Arguments body {A} _.

(** A parsed JSON document: [None] is a value without properties ([null]). *)
Definition Json (F : Type) := option (Collection F).

(** What the environment answers to each [fetch], and what [Math.random]
    returns. *)
Record Env := {
  fetch_segments : Promise (Response (Json Road.Item));
  fetch_network_backup : Promise (Response (Json Road.Item));
  fetch_counters : Promise (Response (Json Counter.Item));
  fetch_neighborhoods : Promise (Response (Json Hood.Feature));
  fetch_census : Promise (Response (Json Census.Item));
  fetch_spatial_predictions : Promise (Response (list Pred.Row));
  fetch_time_predictions : Promise (Response (list Temporal.Row));
  random : nat → Q
}.

(** [if (!response.ok) throw new Error(msg); return response.json();] *)
Definition read_if_ok {A} (msg : string) (response : Response A) : Promise A :=
  if negb (ok response) then Rejected msg else body response.

(** [data.features.length]: throws unless [data.features] exists. *)
Definition features_of {F} (data : Json F) : Promise (list F) :=
  match data ≫= features with
  | Some fs => Resolved fs
  | None => Rejected "TypeError"
  end.

(** The geometry of a parsed feature. *)
Definition geometry_of {F G} (geometry : F → option G) (item : Parsed F G) : option G :=
  match item with
  | WithProps feature => geometry feature
  | NoProps g => g
  end.

(** A logged sample that dereferences the geometry of the first feature. *)
Definition sample_geometry {F G} (geometry : F → option G) (fs : list F)
  : Promise unit :=
  match fs with
  | f :: _ => if geometry f is Some _ then Resolved tt else Rejected "TypeError"
  | [] => Resolved tt
  end.

(** The sample [data.features[0].geometry.coordinates[0]] of the road
    loader: it throws without a geometry and without coordinates. *)
Definition sample_coordinate (items : list Road.Item) : Promise unit :=
  match items with
  | item :: _ =>
      match geometry_of Road.geometry item ≫= Road.coordinates with
      | Some _ => Resolved tt
      | None => Rejected "TypeError"
      end
  | [] => Resolved tt
  end.

(** [loadRoadNetworkData()] *)
Definition loadRoadNetworkData (env : Env) : Promise (Json Road.Item) :=
  catch_
    (then_ (then_ (fetch_segments env)
       (fun response =>
          read_if_ok ("Failed to load road network data: " +:+ statusText response) response))
       (fun data =>
          then_ (features_of data) (fun items =>
          then_ (sample_coordinate items) (fun _ =>
          Resolved data))))
    (fun error =>
       catch_
         (then_ (fetch_network_backup env)
            (fun response =>
               read_if_ok "Failed to load backup road network data" response))
         (fun fallbackError => Resolved (Some defaultRoadNetworkData))).

(** The body of the [forEach] of [loadCounterPointsData]:
    [if (!COUNT && !OBSERVED_COUNT) COUNT = 0]. *)
Definition zero_missing_count (feature : Counter.Feature) : Counter.Feature :=
  let props := Counter.properties feature in
  if negb (truthy (Counter.COUNT props)) && negb (truthy (Counter.OBSERVED_COUNT props))
  then Counter.with_props feature (Counter.set_COUNT (Some 0) props)
  else feature.

(** [loadCounterPointsData()]: the [forEach] reads the properties of every
    feature, so a feature without properties makes the handler throw and the
    loader fall back; the collection it returns has them all. *)
Definition loadCounterPointsData (env : Env) : Promise (Json Counter.Feature) :=
  catch_
    (then_ (then_ (fetch_counters env)
       (fun response =>
          read_if_ok ("Failed to load counter points data: " +:+ statusText response) response))
       (fun data =>
          then_ (features_of data) (fun items =>
          match with_properties items with
          | None => Rejected "TypeError"
          | Some fs =>
              let fs' := map zero_missing_count fs in
              then_ (sample_geometry Counter.geometry fs') (fun _ =>
              Resolved (Some {| features := Some fs' |}))
          end)))
    (fun error => Resolved (Some defaultCounterData)).

(** The guarded sample of [loadNeighborhoodBoundaries]: with a geometry
    present, [coordinates[0][0]] throws on an empty coordinate array. *)
Definition sample_ring (fs : list Hood.Feature) : Promise unit :=
  match fs with
  | f :: _ =>
      match Hood.geometry f with
      | Some [] => Rejected "TypeError"
      | _ => Resolved tt
      end
  | [] => Resolved tt
  end.

(** [loadNeighborhoodBoundaries()] *)
Definition loadNeighborhoodBoundaries (env : Env) : Promise (Json Hood.Feature) :=
  catch_
    (then_ (then_ (fetch_neighborhoods env)
       (fun response =>
          read_if_ok ("Failed to load neighborhood boundaries: " +:+ statusText response) response))
       (fun data =>
          then_ (features_of data) (fun fs =>
          then_ (sample_ring fs) (fun _ =>
          Resolved data))))
    (fun error => Resolved (Some defaultNeighborhoodData)).

(** [loadCensusData()] *)
Definition loadCensusData (env : Env) : Promise (Json Census.Item) :=
  catch_
    (then_ (then_ (fetch_census env)
       (fun response =>
          read_if_ok ("Failed to load census data: " +:+ statusText response) response))
       (fun data =>
          then_ (features_of data) (fun items =>
          then_ (sample_geometry (geometry_of Census.geometry) items) (fun _ =>
          Resolved data))))
    (fun error => Resolved (Some defaultCensusData)).

(** [loadPredictionsData()] *)
Definition loadPredictionsData (env : Env) : Promise (list Pred.Row) :=
  catch_
    (then_ (fetch_spatial_predictions env)
       (fun response =>
          read_if_ok ("Failed to load predictions data: " +:+ statusText response) response))
    (fun error => Resolved defaultPredictionsData).

(** [a[i] = v] on the elements of an array: an index past the end extends
    the array. *)
Definition array_set {A} (i : nat) (v : A) (a : list (option A)) : list (option A) :=
  if (i <? length a)%nat then <[i := Some v]> a
  else a ++ replicate (i - length a) None ++ [Some v].

(** [a[k] = v] on an array: an element when [k] is an array index, a
    property of the array object otherwise. *)
Definition series_set (k : string) (v : Cell) (a : Series) : Series :=
  match Obj.array_index k with
  | Some i => {| elements := array_set (N.to_nat i) v (elements a); named := named a |}
  | None => {| elements := elements a; named := <[k := v]> (named a) |}
  end.

(** [Array(24).fill(0)] *)
Definition zero_series : Series :=
  {| elements := replicate 24 (Some (Number 0)); named := ∅ |}.

(** The test that skips a row: an empty key, or a cell that is
    [undefined]. *)
Definition skipped (row : Temporal.Row) : bool :=
  negb (truthy (String_ (Temporal.GEOID row)))
  || is_undefined (cell_of (Temporal.dotw row))
  || is_undefined (cell_of (Temporal.hour row))
  || is_undefined (Temporal.hr_pred row).

(** The body of [parsed.forEach] in [loadTemporalPredictions].  Under the
    name of an inherited member the read finds a built-in function; the day
    is then stored in that function and the table stays as it is. *)
Definition addTemporalRow (table : gmap string DayTable) (row : Temporal.Row)
  : gmap string DayTable :=
  let geoid := String_ (Temporal.GEOID row) in
  let day := String_ (cell_of (Temporal.dotw row)) in
  let hour := String_ (cell_of (Temporal.hour row)) in
  let value := Temporal.hr_pred row in
  if skipped row then table
  else
    match Obj.read table geoid with
    | Obj.Member _ | Obj.Field _ => table
    | found =>
        let days : DayTable := default ∅ (Obj.stored found) in
        let series := default zero_series (days !! day) in
        <[geoid := <[day := series_set hour value series]> days]> table
    end.

(** [dataState.temporalPredictions = t] *)
Definition set_temporalPredictions (t : gmap string DayTable) (d : DataState)
  : DataState :=
  {| isInitialized := isInitialized d; roadNetworkData := roadNetworkData d;
     counterPointsData := counterPointsData d;
     neighborhoodBoundaries := neighborhoodBoundaries d;
     predictionsData := predictionsData d; censusData := censusData d;
     temporalPredictions := t; statistics := statistics d;
     neighborhoodsList := neighborhoodsList d |}.

(** [loadTemporalPredictions()]: the promise always resolves with
    [undefined]; the table is replaced on both paths. *)
Definition loadTemporalPredictions (env : Env) (d : DataState)
  : Promise unit * DataState :=
  match then_ (fetch_time_predictions env)
          (fun res => read_if_ok "Failed to load temporal predictions" res) with
  | Resolved parsed =>
      (Resolved tt, set_temporalPredictions (fold_left addTemporalRow parsed ∅) d)
  | Rejected error =>
      (Resolved tt, set_temporalPredictions ∅ d)
  end.

(** ** Initialisation *)

(** [Array.from(set).sort()] on names: insertion into a sorted list without
    duplicates. *)
Fixpoint sorted_insert (x : string) (l : list string) : list string :=
  match l with
  | [] => [x]
  | y :: l' =>
      if String.eqb x y then l
      else if String.ltb x y then x :: l
      else y :: sorted_insert x l'
  end.

(** [extractNeighborhoodsList(neighborhoodData)] *)
Definition extractNeighborhoodsList (neighborhoodData : Json Hood.Feature)
  : list string :=
  fold_left (fun neighborhoods feature =>
    match Hood.properties feature with
    | Some props =>
        let name :=
          Hood.DC_HPN_NAME props ||| Hood.NAME props ||| Hood.NEIGHBORHOOD props
          ||: "Unknown" in
        sorted_insert name neighborhoods
    | None => neighborhoods
    end) (default [] (neighborhoodData ≫= features)) [].

(** Storing a freshly loaded object: it gets a location of its own. *)
Definition store_object {A} (x : option A) (h : gmap loc A) : option loc * gmap loc A :=
  match x with
  | Some o => let l := fresh (dom h) in (Some l, <[l := o]> h)
  | None => (None, h)
  end.

(** [dataState.isInitialized = true] *)
Definition set_initialized (d : DataState) : DataState :=
  {| isInitialized := true; roadNetworkData := roadNetworkData d;
     counterPointsData := counterPointsData d;
     neighborhoodBoundaries := neighborhoodBoundaries d;
     predictionsData := predictionsData d; censusData := censusData d;
     temporalPredictions := temporalPredictions d; statistics := statistics d;
     neighborhoodsList := neighborhoodsList d |}.

(** [dataState.neighborhoodsList = l] *)
Definition set_neighborhoodsList (l : list string) (d : DataState) : DataState :=
  {| isInitialized := isInitialized d; roadNetworkData := roadNetworkData d;
     counterPointsData := counterPointsData d;
     neighborhoodBoundaries := neighborhoodBoundaries d;
     predictionsData := predictionsData d; censusData := censusData d;
     temporalPredictions := temporalPredictions d; statistics := statistics d;
     neighborhoodsList := l |}.

(** The store with another [dataState]. *)
Definition with_ds (d : DataState) (σ : Store) : Store :=
  {| ds := d; roads := roads σ; counters := counters σ; draws := draws σ |}.

(** The handler of [Promise.all(...).then(...)] in [initData]: how it ends
    and the store it leaves.  An exception of [processData] or of
    [calculateStatistics] ends it at once. *)
Definition onLoaded (env : Env) (σ : Store)
    (roadData : Json Road.Item) (counterData : Json Counter.Feature)
    (neighborhoodData : Json Hood.Feature) (censusData_ : Json Census.Item)
    (predictionsData_ : list Pred.Row) : Outcome unit * Store :=
  let '(r, rh) := store_object roadData (roads σ) in
  let '(c, ch) := store_object counterData (counters σ) in
  let d := ds σ in
  let stored :=
    {| ds := {| isInitialized := isInitialized d; roadNetworkData := r;
                counterPointsData := c; neighborhoodBoundaries := neighborhoodData;
                predictionsData := Some predictionsData_; censusData := censusData_;
                temporalPredictions := temporalPredictions d;
                statistics := statistics d;
                neighborhoodsList := neighborhoodsList d |};
       roads := rh; counters := ch; draws := draws σ |} in
  match processData (random env) stored with
  | (Thrown e, σ1) => (Thrown e, σ1)
  | (Returned _, processed) =>
      let listed :=
        if neighborhoodData ≫= features is Some _
        then with_ds (set_neighborhoodsList (extractNeighborhoodsList neighborhoodData)
                        (ds processed)) processed
        else processed in
      match calculateStatistics listed with
      | (Thrown e, σ2) => (Thrown e, σ2)
      | (Returned _, counted) => (Returned tt, with_ds (set_initialized (ds counted)) counted)
      end
  end.

(** [initData()]: the settled promise and the store once it has settled.
    The final [catch] rethrows, so an exception of the handler rejects the
    promise. *)
Definition initData (env : Env) (σ : Store) : Promise DataState * Store :=
  if isInitialized (ds σ) then (Resolved (ds σ), σ)
  else
    let '(temporal, d) := loadTemporalPredictions env (ds σ) in
    let σ' := {| ds := d; roads := roads σ; counters := counters σ; draws := draws σ |} in
    let loaded :=
      all2 (loadRoadNetworkData env)
        (all2 (loadCounterPointsData env)
           (all2 (loadNeighborhoodBoundaries env)
              (all2 (loadCensusData env)
                 (all2 (loadPredictionsData env) temporal)))) in
    match loaded with
    | Resolved (roadData, (counterData, (neighborhoodData, (censusData_, (predictionsData_, _))))) =>
        match onLoaded env σ' roadData counterData neighborhoodData
                censusData_ predictionsData_ with
        | (Returned _, σ'') => (Resolved (ds σ''), σ'')
        | (Thrown e, σ'') => (Rejected e, σ'')
        end
    | Rejected error => (Rejected error, σ')
    end.

(** ** Map module: helpers that read the joined data *)

(** [getCountColor(count)] *)
Definition getCountColor (count : Q) : string :=
  if ge count 80 then "#2E003E"
  else if ge count 50 then "#6A0DAD"
  else if ge count 30 then "#B100E8"
  else if ge count 10 then "#E86BE8"
  else "#FAD6FA".

(** The Leaflet style object built by [getFeatureStyle]. *)
Record Style := {
  color : string;
  weight : Z;
  opacity : Q;
  dashArray : option string
}.

(** [getFeatureStyle(feature, filters)] *)
Definition getFeatureStyle (feature : Road.Feature) (filters : Filters) : Style :=
  let props := Road.properties feature in
  let count := Road.predicted props ||: 0 in
  let count :=
    if truthy (Road.OBSERVED_COUNT props)
    then default 0 (Road.OBSERVED_COUNT props) else count in
  let isObserved :=
    match Road.OBSERVED_COUNT props with Some o => gt o 0 | None => false end in
  let bike :=
    match Road.BIKE_FT props with
    | Some ft => truthy ft && negb (String.eqb ft "None") && negb (String.eqb ft "NA")
    | None => false
    end in
  {| color := getCountColor count;
     weight := if bike then 6 else 5;
     opacity := 1;
     dashArray := if negb isObserved then Some "5, 5" else None |}.

(** [updateVolumeFilter()]: the new [mapState.currentFilters], given the
    legend checkboxes (their [data-volume] attribute and whether they are
    checked) in document order.  The redraw that follows reads the filters. *)
Definition updateVolumeFilter (checkboxes : list (string * bool)) (filters : Filters)
  : Filters :=
  let checkedVolumes :=
    fold_left (fun (acc : list string) (checkbox : string * bool) =>
                 if checkbox.2 then acc ++ [checkbox.1] else acc)
      checkboxes [] in
  {| neighborhood := neighborhood filters;
     counterType := counterType filters;
     volumeFilter :=
       if (length checkedVolumes =? 0)%nat then VFStr "all"
       else if (length checkedVolumes =? 5)%nat then VFStr "all"
       else VFArr checkedVolumes;
     viewType := viewType filters |}.

(** [compareWithAverage(segmentProps)] of the data module. *)
Module Comparison.

Record Item := {
  value : Q;
  average : Q;
  percentDiff : Z;
  status : string
}.

Record t := {
  bikeCount : Item;
  income : Item;
  bikeCommute : Item;
  population : Item
}.

End Comparison.

(** The body of the [forEach] over the four items: percent difference and
    status of an item that starts at 0 and "normal". *)
Definition compareItem (value average : Q) : Comparison.Item :=
  if negb (Qeq_bool average 0) then
    let percentDiff := Math_round ((value ⊖ average) ⊘ average ⊗ 100) in
    {| Comparison.value := value; Comparison.average := average;
       Comparison.percentDiff := percentDiff;
       Comparison.status :=
         if (50 <? percentDiff)%Z then "very-high"
         else if (20 <? percentDiff)%Z then "high"
         else if (percentDiff <? -50)%Z then "very-low"
         else if (percentDiff <? -20)%Z then "low"
         else "normal" |}
  else
    {| Comparison.value := value; Comparison.average := average;
       Comparison.percentDiff := 0; Comparison.status := "normal" |}.

Definition compareWithAverage (d : DataState) (segmentProps : Road.Props)
  : Comparison.t :=
  let s := statistics d in
  {| Comparison.bikeCount :=
       compareItem (Road.predicted segmentProps ||: 0) (averagePredicted s);
     Comparison.income :=
       compareItem
         (Road.MEDIAN_INCOME segmentProps ||| Road.median_incomeE segmentProps ||: 0)
         (inject_Z (averageIncome s));
     Comparison.bikeCommute :=
       compareItem
         (Road.BIKE_COMMUTE segmentProps ||| Road.commute_bicycleE segmentProps ||: 0)
         (inject_Z (averageBikeCommute s));
     Comparison.population :=
       compareItem
         (Road.POPULATION segmentProps ||| Road.populationE segmentProps ||: 0)
         (inject_Z (averagePopulation s)) |}.

(** [getComparisonColor(status)] *)
Definition getComparisonColor (status : string) : string :=
  if String.eqb status "very-high" then "#4caf50"
  else if String.eqb status "high" then "#8bc34a"
  else if String.eqb status "normal" then "#2196f3"
  else if String.eqb status "low" then "#ff9800"
  else if String.eqb status "very-low" then "#f44336"
  else "#9e9e9e".

(** ** Vocabulary of the statements *)

(** A number that is a double. *)
Definition is_double (q : Q) : Prop := double q == q.

(** A property that is present with a non-zero value, and one that is absent
    or zero. *)
Definition nonzero (x : option Q) (v : Q) : Prop := x = Some v ∧ ¬ v == 0.
Definition absent_or_zero (x : option Q) : Prop := ∀ v, x = Some v → v == 0.

(** A segment whose key resolves: [SUBBLOCKKEY || SUBBLOK] is truthy. *)
Definition resolvable (props : Road.Props) : Prop :=
  is_Some (key_of (Road.SUBBLOCKKEY props ||| Road.SUBBLOK props)).

(** A parsed feature that has properties. *)
Definition has_properties {F G} (item : Parsed F G) : Prop :=
  ∃ feature, item = WithProps feature.

(** The join reaches the road feature at position [i]: every census
    feature has properties, so that the census lookup is built, and so has
    every road feature before position [i]. *)
Definition join_reaches (censusData : option (Collection Census.Item))
    (items : list Road.Item) (i : nat) : Prop :=
  Forall has_properties (default [] (censusData ≫= features)) ∧
  Forall has_properties (take i items).

(** The features of the stored road network ([[]] when there are none), and
    the same when all of them have properties. *)
Definition road_items (σ : Store) : list Road.Item :=
  default [] (road_object σ ≫= features).

Definition road_features (σ : Store) : option (list Road.Feature) :=
  with_properties (road_items σ).

(** The combined-view count in the words of the specification: observed if
    present, else predicted, else 0. *)
Definition spec_combined_count (props : Road.Props) : Q :=
  match Road.OBSERVED_COUNT props with
  | Some o => o
  | None => default 0 (Road.predicted props)
  end.

(** Sum of a list of numbers, in the order of the list and in the
    arithmetic of the code. *)
Definition sum_of (l : list Q) : Q := fold_left add l 0.

(** The values that count towards a sum or a mean: those that are present
    and truthy. *)
Definition contributing (vs : list (option Q)) : list Q :=
  omap (fun v : option Q => if truthy v then v else None) vs.

(** An attribute of every feature, in order. *)
Definition column (attr : Road.Props → option Q) (fs : list Road.Feature)
  : list (option Q) :=
  map (fun f => attr (Road.properties f)) fs.

(** The length of a segment, under either of its two names. *)
Definition length_of (props : Road.Props) : option Q :=
  Road.SEG_LEN props ||| Road.segment_length props.

(** Coverage as a formula: the share of road length whose facility type is
    neither empty nor one of [excluded], in percent, rounded; 0 for a total
    length of 0. *)
Definition has_facility (excluded : list string) (feature : Road.Feature) : bool :=
  let facility :=
    Road.BIKE_FT (Road.properties feature)
    ||| Road.bike_facility_type (Road.properties feature) ||: "" in
  negb (String.eqb facility "") && negb (existsb (String.eqb facility) excluded).

Definition coverage_formula (excluded : list string) (fs : list Road.Feature) : Z :=
  let total := sum_of (contributing (column length_of fs)) in
  let bike :=
    sum_of (contributing (column length_of (List.filter (has_facility excluded) fs))) in
  if Qeq_bool total 0 then 0%Z else Math_round ((bike ⊘ total) ⊗ 100).

(** The rounded mean of the contributing values, 0 when there are none. *)
Definition mean_of_contributing (vs : list (option Q)) : Z :=
  let xs := contributing vs in
  match xs with
  | [] => 0%Z
  | _ :: _ => Math_round (sum_of xs ⊘ of_count (length xs))
  end.

(** A scan that tallies one attribute: the running total and count. *)
Definition scan (attr : Road.Props → option Q) (fs : list Road.Feature)
    (acc : Q * nat) : Q * nat :=
  fold_left (fun acc f =>
    tally (truthy (attr (Road.properties f))) (attr (Road.properties f) ||: 0) acc)
    fs acc.

(** A draw of [Math.random] is a double in the interval from 0 (included)
    to 1 (excluded). *)
Definition unit_draws (rand : nat → Q) : Prop :=
  ∀ n, is_double (rand n) ∧ 0 <= rand n ∧ rand n < 1.

(** What the counter-update step leaves in a counter feature: [COUNT] and
    [OBSERVED_COUNT] hold the same non-zero value, and where neither a
    matched observed count nor a non-zero [COUNT] was there before, that value
    is an integer from 20 to 99. *)
Definition counter_updated (obs : gmap string Q)
    (before after : Counter.Feature) : Prop :=
  ∃ v,
    Counter.COUNT (Counter.properties after) = Some v ∧
    Counter.OBSERVED_COUNT (Counter.properties after) = Some v ∧
    ¬ v == 0 ∧
    (absent_or_zero (matched_count obs (Counter.properties before)) →
     absent_or_zero (Counter.COUNT (Counter.properties before)) →
     ∃ z : Z, (20 ≤ z ≤ 99)%Z ∧ v == inject_Z z).

(** What a call of [getFilteredRoadData] may do to the store: [dataState] and
    every object that was in the store are as before (so both canonical
    collections are), and a returned reference points to a new object, at a
    location the store did not use, that holds the filtered copy. *)
Definition road_view_ok (filters : Filters) (σ : Store)
    (r : Outcome (option loc) * Store) : Prop :=
  ds r.2 = ds σ ∧
  counters r.2 = counters σ ∧
  (∀ l, is_Some (roads σ !! l) → roads r.2 !! l = roads σ !! l) ∧
  road_object r.2 = road_object σ ∧
  counter_object r.2 = counter_object σ ∧
  (∀ l, r.1 = Returned (Some l) →
     roads σ !! l = None ∧
     ∃ data fs kept, road_object σ = Some data ∧ features data = Some fs ∧
       filter_ (keepRoadItem filters) fs = Returned kept ∧
       roads r.2 !! l = Some {| features := Some kept |}).

(** The same for [getFilteredCounterData]. *)
Definition counter_view_ok (filters : Filters) (σ : Store)
    (r : Outcome (option loc) * Store) : Prop :=
  ds r.2 = ds σ ∧
  roads r.2 = roads σ ∧
  (∀ l, is_Some (counters σ !! l) → counters r.2 !! l = counters σ !! l) ∧
  road_object r.2 = road_object σ ∧
  counter_object r.2 = counter_object σ ∧
  (∀ l, r.1 = Returned (Some l) →
     counters σ !! l = None ∧
     ∃ data fs, counter_object σ = Some data ∧ features data = Some fs ∧
       counters r.2 !! l = Some {| features := Some (List.filter (keepCounter filters) fs) |}).


(** A promise that resolves. *)
Definition resolves {A} (p : Promise A) : Prop := ∃ v, p = Resolved v.



(** The five named volume categories, the category a count falls in and
    the legend colour of a category. *)
Definition volume_categories : list string :=
  ["high"; "medium-high"; "medium"; "medium-low"; "low"].

Definition volume_category (count : Q) : string :=
  if ge count 80 then "high"
  else if ge count 50 then "medium-high"
  else if ge count 30 then "medium"
  else if ge count 10 then "medium-low"
  else "low".

Definition category_color (category : string) : string :=
  if String.eqb category "high" then "#2E003E"
  else if String.eqb category "medium-high" then "#6A0DAD"
  else if String.eqb category "medium" then "#B100E8"
  else if String.eqb category "medium-low" then "#E86BE8"
  else "#FAD6FA".

(** The filters with another volume filter. *)
Definition with_volume (vf : VolumeFilter) (filters : Filters) : Filters :=
  {| neighborhood := neighborhood filters; counterType := counterType filters;
     volumeFilter := vf; viewType := viewType filters |}.

(** The combined view: a view type other than "observed" and "predicted". *)
Definition combined (filters : Filters) : Prop :=
  view_is filters "observed" = false ∧ view_is filters "predicted" = false.

(** The collection a call of [getFilteredRoadData] hands out: the content of
    the returned object, [None] when the call returns [null] or throws. *)
Definition road_view (filters : Filters) (σ : Store) : option (Collection Road.Item) :=
  let r := getFilteredRoadData filters σ in
  match r.1 with
  | Returned (Some l) => roads r.2 !! l
  | _ => None
  end.

(** The last element of a list that is indexed under the key [k]. *)
Definition last_with {A} (key : A → option string) (k : string) (l : list A)
  : option A :=
  List.find (fun a => bool_decide (key a = Some k)) (rev l).

(** One step of building a dictionary of objects: store [val a] under
    [key a], if any. *)
Definition index_step {A B} (key : A → option string) (val : A → B)
    (m : Obj.t B) (a : A) : Obj.t B :=
  match key a with Some k => Obj.set k (val a) m | None => m end.

(** What a read finds under a name that the dictionary does not store, when
    [installed] is the object installed as prototype, if any. *)
Definition unstored {V} `{Obj.Fields V} (installed : option V) (k : string)
  : Obj.Slot V :=
  match installed ≫= fun v => Obj.field v k with
  | Some b => Obj.Field b
  | None => if Obj.inherited k then Obj.Member k else Obj.Missing
  end.

(** The key [createPredictedLookup] stores a row under and the entry it
    stores. *)
Definition row_key (item : Pred.Row) : option string :=
  cell_key (Pred.SUBBLOCKKEY item).

Definition predicted_entry (item : Pred.Row) : Lookup.PredictedEntry :=
  {| Lookup.predicted :=
       num_or (parseFloat (Pred.pred item))
         (num_or (parseFloat (Pred.predicted item)) 0);
     Lookup.predicted_alt :=
       num_or (parseFloat (Pred.pred_1 item))
         (num_or (parseFloat (Pred.predicted_alt item)) 0) |}.

(** The key [createCounterLookup] stores a counter under (the segment key,
    else the site name) and the entry it stores. *)
Definition counter_index_key (feature : Counter.Feature) : option string :=
  match key_of (Obj.name <$> Counter.SUBBLOCKKEY (Counter.properties feature)) with
  | Some k => Some k
  | None => key_of (Obj.name <$> Counter.Site_Nm (Counter.properties feature))
  end.

Definition counter_entry (feature : Counter.Feature) : Lookup.CounterEntry :=
  let props := Counter.properties feature in
  {| Lookup.OBSERVED_COUNT :=
       Counter.COUNT props ||| Counter.OBSERVED_COUNT props ||: 0;
     Lookup.COUNTER_TYPE :=
       Counter.COUNTER_TYPE props ||| Counter.cntr_ty props ||: "UNKNOWN" |}.

(** The resolved key of a segment. *)
Definition segment_key (props : Road.Props) : option string :=
  key_of (Road.SUBBLOCKKEY props ||| Road.SUBBLOK props).

(** The four items of a comparison, and the relative difference of an item
    to the city average, in percent, as the code computes it before
    rounding. *)
Definition comparison_items (c : Comparison.t) : list Comparison.Item :=
  [Comparison.bikeCount c; Comparison.income c; Comparison.bikeCommute c;
   Comparison.population c].

Definition relative_difference (item : Comparison.Item) : Q :=
  (Comparison.value item ⊖ Comparison.average item) ⊘ Comparison.average item ⊗ 100.

(** The name [extractNeighborhoodsList] gives a neighborhood feature. *)
Definition neighborhood_name (props : Hood.Props) : string :=
  Hood.DC_HPN_NAME props ||| Hood.NAME props ||| Hood.NEIGHBORHOOD props ||: "Unknown".

(** An environment whose temporal table is served from the given rows. *)
Definition serving_temporal (rows : list Temporal.Row) (env : Env) : Prop :=
  ∃ response, fetch_time_predictions env = Resolved response ∧
    ok response = true ∧ body response = Resolved rows.



(** The hour of a row as an array index, if it is one. *)
Definition hour_index (row : Temporal.Row) : option N :=
  Obj.array_index (String_ (cell_of (Temporal.hour row))).

(** The environment in which the primary road-network request is rejected. *)
Definition without_primary (env : Env) : Env :=
  {| fetch_segments := Rejected "NetworkError";
     fetch_network_backup := fetch_network_backup env;
     fetch_counters := fetch_counters env;
     fetch_neighborhoods := fetch_neighborhoods env;
     fetch_census := fetch_census env;
     fetch_spatial_predictions := fetch_spatial_predictions env;
     fetch_time_predictions := fetch_time_predictions env;
     random := random env |}.

(** A primary road-network response that is read and parsed. *)
Definition primary_parsed (env : Env) (data : Json Road.Item) : Prop :=
  ∃ response, fetch_segments env = Resolved response ∧
    ok response = true ∧ body response = Resolved data.

(** The key [updateCounterPointsWithObservedData] stores a row under: the
    row's key when its cell is truthy; an assignment to [__proto__] stores
    nothing. *)
Definition observed_key (item : Pred.Row) : option string :=
  if truthy (observed_cell item) then
    match row_key item with
    | Some k => if String.eqb k "__proto__" then None else Some k
    | None => None
    end
  else None.

(** The volume a segment adds to the tally of its neighborhood, and the
    total volume of a neighborhood. *)
Definition volume_of (feature : Road.Feature) : Q :=
  Road.OBSERVED_COUNT (Road.properties feature)
  ||| Road.predicted (Road.properties feature) ||: 0.

Definition area_of (feature : Road.Feature) : option string :=
  key_of (Road.NEIGHBORHOOD (Road.properties feature)).

Definition area_volume (area : string) (fs : list Road.Feature) : Q :=
  sum_of (map volume_of (List.filter (fun f => bool_decide (area_of f = Some area)) fs)).

(** ** Sample records used in the examples *)

Definition segment (key : option string) (obs pred : option Q)
    (len : option Q) (facility : option string) (income : option Q) : Road.Feature :=
  let p := Road.no_props in
  {| Road.properties :=
       {| Road.SUBBLOCKKEY := key; Road.SUBBLOK := Road.SUBBLOK p;
          Road.NEIGHBORHOOD := Road.NEIGHBORHOOD p; Road.BIKE_FT := facility;
          Road.bike_facility_type := Road.bike_facility_type p;
          Road.SEG_LEN := len; Road.segment_length := Road.segment_length p;
          Road.degree_max := Road.degree_max p;
          Road.betweenness_max := Road.betweenness_max p;
          Road.closeness_max := Road.closeness_max p;
          Road.populationE := Road.populationE p;
          Road.median_incomeE := Road.median_incomeE p;
          Road.commute_bicycleE := Road.commute_bicycleE p;
          Road.edu_bachelors_plusE := Road.edu_bachelors_plusE p;
          Road.rent_percentE := Road.rent_percentE p;
          Road.median_ageE := Road.median_ageE p;
          Road.predicted := pred; Road.predicted_alt := Road.predicted_alt p;
          Road.OBSERVED_COUNT := obs; Road.COUNTER_TYPE := Road.COUNTER_TYPE p;
          Road.GEOID := Road.GEOID p; Road.POPULATION := Road.POPULATION p;
          Road.MEDIAN_INCOME := income; Road.COMMUTE_TIME := Road.COMMUTE_TIME p;
          Road.BIKE_COMMUTE := Road.BIKE_COMMUTE p; Road.EDUCATION := Road.EDUCATION p;
          Road.WHITE_PERCENTAGE := Road.WHITE_PERCENTAGE p;
          Road.RENT_PRICE := Road.RENT_PRICE p; Road.MEDIAN_AGE := Road.MEDIAN_AGE p;
          Road.DEGREE := Road.DEGREE p; Road.BETWEEN := Road.BETWEEN p;
          Road.CLOSENESS := Road.CLOSENESS p; Road.residual := Road.residual p;
          Road.percent_error := Road.percent_error p;
          Road.traffic_level := Road.traffic_level p;
          Road.lat := Road.lat p; Road.lng := Road.lng p |};
     Road.geometry := None |}.

(** A segment placed in a neighborhood. *)
Definition in_area (area : string) (feature : Road.Feature) : Road.Feature :=
  let p := Road.properties feature in
  {| Road.properties :=
       {| Road.SUBBLOCKKEY := Road.SUBBLOCKKEY p; Road.SUBBLOK := Road.SUBBLOK p;
          Road.NEIGHBORHOOD := Some area; Road.BIKE_FT := Road.BIKE_FT p;
          Road.bike_facility_type := Road.bike_facility_type p;
          Road.SEG_LEN := Road.SEG_LEN p; Road.segment_length := Road.segment_length p;
          Road.degree_max := Road.degree_max p;
          Road.betweenness_max := Road.betweenness_max p;
          Road.closeness_max := Road.closeness_max p;
          Road.populationE := Road.populationE p;
          Road.median_incomeE := Road.median_incomeE p;
          Road.commute_bicycleE := Road.commute_bicycleE p;
          Road.edu_bachelors_plusE := Road.edu_bachelors_plusE p;
          Road.rent_percentE := Road.rent_percentE p;
          Road.median_ageE := Road.median_ageE p;
          Road.predicted := Road.predicted p; Road.predicted_alt := Road.predicted_alt p;
          Road.OBSERVED_COUNT := Road.OBSERVED_COUNT p;
          Road.COUNTER_TYPE := Road.COUNTER_TYPE p;
          Road.GEOID := Road.GEOID p; Road.POPULATION := Road.POPULATION p;
          Road.MEDIAN_INCOME := Road.MEDIAN_INCOME p;
          Road.COMMUTE_TIME := Road.COMMUTE_TIME p;
          Road.BIKE_COMMUTE := Road.BIKE_COMMUTE p; Road.EDUCATION := Road.EDUCATION p;
          Road.WHITE_PERCENTAGE := Road.WHITE_PERCENTAGE p;
          Road.RENT_PRICE := Road.RENT_PRICE p; Road.MEDIAN_AGE := Road.MEDIAN_AGE p;
          Road.DEGREE := Road.DEGREE p; Road.BETWEEN := Road.BETWEEN p;
          Road.CLOSENESS := Road.CLOSENESS p; Road.residual := Road.residual p;
          Road.percent_error := Road.percent_error p;
          Road.traffic_level := Road.traffic_level p;
          Road.lat := Road.lat p; Road.lng := Road.lng p |};
     Road.geometry := Road.geometry feature |}.

Definition prediction (key : string) (pred : Cell) : Pred.Row :=
  {| Pred.SUBBLOCKKEY := Text key; Pred.observed := Undefined;
     Pred.OBSERVED_COUNT := Undefined; Pred.pred := pred; Pred.pred_1 := Undefined;
     Pred.predicted := Undefined; Pred.predicted_alt := Undefined |}.

(** The counter without segment key and count that heads [sample_counters]. *)
Definition unkeyed_counter : Counter.Feature :=
  {| Counter.properties :=
       {| Counter.SUBBLOCKKEY := None; Counter.Site_Nm := Some (key "Counter 0" eq_refl);
          Counter.NEIGHBORHOOD := None; Counter.COUNTER_TYPE := None;
          Counter.cntr_ty := None; Counter.COUNT := None;
          Counter.OBSERVED_COUNT := None |};
     Counter.geometry := None |}.

(** A counter without any count, in front of the default counters. *)
Definition sample_counters : list Counter.Feature :=
  unkeyed_counter :: default [] (features defaultCounterData).

(** The features of the default road collection, and the one at a position. *)
Definition default_roads : list Road.Feature :=
  default [] (with_properties (default [] (features defaultRoadNetworkData))).

Definition default_road (i : nat) : Road.Feature :=
  default {| Road.properties := Road.no_props; Road.geometry := None |}
    (default_roads !! i).

(** A store holding the default datasets before they are processed. *)
Definition sample_store : Store :=
  {| ds :=
       {| isInitialized := false;
          roadNetworkData := Some 1%positive;
          counterPointsData := Some 1%positive;
          neighborhoodBoundaries := Some defaultNeighborhoodData;
          predictionsData := Some defaultPredictionsData;
          censusData := Some defaultCensusData;
          temporalPredictions := ∅;
          statistics := statistics dataState0;
          neighborhoodsList := [] |};
     roads := {[ 1%positive := defaultRoadNetworkData ]};
     counters := {[ 1%positive := {| features := Some sample_counters |} ]};
     draws := 0 |}.

(** A store whose road network is the collection of the given features. *)
Definition store_of_roads (fs : list Road.Feature) : Store :=
  {| ds :=
       {| isInitialized := true;
          roadNetworkData := Some 1%positive;
          counterPointsData := None;
          neighborhoodBoundaries := None;
          predictionsData := None;
          censusData := None;
          temporalPredictions := ∅;
          statistics := statistics dataState0;
          neighborhoodsList := [] |};
     roads := {[ 1%positive := {| features := Some (map WithProps fs) |} ]};
     counters := ∅;
     draws := 0 |}.

(** An environment in which every request is rejected. *)
Definition offline : Env :=
  {| fetch_segments := Rejected "NetworkError";
     fetch_network_backup := Rejected "NetworkError";
     fetch_counters := Rejected "NetworkError";
     fetch_neighborhoods := Rejected "NetworkError";
     fetch_census := Rejected "NetworkError";
     fetch_spatial_predictions := Rejected "NetworkError";
     fetch_time_predictions := Rejected "NetworkError";
     random := fun _ => 1 # 2 |}.

(** A row of the temporal table. *)
Definition temporal_row (geoid : Cell) (ok : String.eqb (String_ geoid) "__proto__" = false)
    (day hour : Numeric) (value : Cell) : Temporal.Row :=
  {| Temporal.GEOID := geoid; Temporal.dotw := day; Temporal.hour := hour;
     Temporal.hr_pred := value; Temporal.GEOID_ok := ok |}.

(** Two rows of the temporal table for the same segment and day. *)
Definition sample_temporal_rows : list Temporal.Row :=
  [ temporal_row (Number 11001) eq_refl (NNumber 1) (NNumber 8) (Number (25 # 2));
    temporal_row (Number 11001) eq_refl (NNumber 1) (NNumber 17) (Number 20) ].

(** The offline environment, except that the temporal table is served. *)
Definition temporal_only (rows : list Temporal.Row) : Env :=
  {| fetch_segments := fetch_segments offline;
     fetch_network_backup := fetch_network_backup offline;
     fetch_counters := fetch_counters offline;
     fetch_neighborhoods := fetch_neighborhoods offline;
     fetch_census := fetch_census offline;
     fetch_spatial_predictions := fetch_spatial_predictions offline;
     fetch_time_predictions :=
       Resolved {| ok := true; statusText := "OK"; body := Resolved rows |};
     random := random offline |}.

(** The offline environment, except that the primary road network is
    served. *)
Definition roads_only (data : Json Road.Item) : Env :=
  {| fetch_segments :=
       Resolved {| ok := true; statusText := "OK"; body := Resolved data |};
     fetch_network_backup := fetch_network_backup offline;
     fetch_counters := fetch_counters offline;
     fetch_neighborhoods := fetch_neighborhoods offline;
     fetch_census := fetch_census offline;
     fetch_spatial_predictions := fetch_spatial_predictions offline;
     fetch_time_predictions := fetch_time_predictions offline;
     random := random offline |}.

(** The offline environment, except that the secondary road-network file is
    served. *)
Definition backup_only (data : Json Road.Item) : Env :=
  {| fetch_segments := fetch_segments offline;
     fetch_network_backup :=
       Resolved {| ok := true; statusText := "OK"; body := Resolved data |};
     fetch_counters := fetch_counters offline;
     fetch_neighborhoods := fetch_neighborhoods offline;
     fetch_census := fetch_census offline;
     fetch_spatial_predictions := fetch_spatial_predictions offline;
     fetch_time_predictions := fetch_time_predictions offline;
     random := random offline |}.

Definition combined_view : Filters :=
  {| neighborhood := "all"; counterType := "all"; volumeFilter := VFStr "all";
     viewType := Some "combined" |}.

(** * Properties *)

(** ** Double-precision rounding *)
Lemma pow2_pos e : 0 < pow2 e.
Proof. apply Qpower_0_lt. reflexivity. Qed.

Lemma pow2_add a b : pow2 (a + b) == pow2 a * pow2 b.
Proof. apply Qpower_plus. discriminate. Qed.

Lemma pow2_le a b : (a <= b)%Z → pow2 a <= pow2 b.
Proof. intros. apply Qpower_le_compat_l; [assumption | discriminate]. Qed.

Lemma pow2_lt a b : (a < b)%Z → pow2 a < pow2 b.
Proof. intros. apply Qpower_lt_compat_l; [assumption | reflexivity]. Qed.

Lemma pow2_Z e : (0 <= e)%Z → pow2 e == inject_Z (2 ^ e).
Proof. intros. unfold pow2. rewrite Zpower_Qpower by assumption. reflexivity. Qed.

Lemma pow2_lt_inv a b : pow2 a < pow2 b → (a < b)%Z.
Proof.
  intros H. destruct (Z_lt_le_dec a b) as [|L]; [assumption|].
  apply pow2_le in L. lra.
Qed.

Lemma log2_bounds (n : Z) :
  (0 < n)%Z → pow2 (Z.log2 n) <= inject_Z n ∧ inject_Z n < pow2 (Z.log2 n + 1).
Proof.
  intros Hn. pose proof (Z.log2_spec n Hn) as [L U].
  pose proof (Z.log2_nonneg n).
  rewrite !pow2_Z by lia. rewrite <- Zle_Qle, <- Zlt_Qlt.
  unfold Z.succ in U. split; assumption.
Qed.

Lemma ilog2_spec (q : Q) : 0 < q → pow2 (ilog2 q) <= q ∧ q < pow2 (ilog2 q + 1).
Proof.
  intros Hq. unfold ilog2.
  set (n := Qnum q). set (d := Z.pos (Qden q)).
  assert (Hn : (0 < n)%Z) by (unfold Qlt in Hq; simpl in Hq; subst n; lia).
  assert (Hd : (0 < d)%Z) by (subst d; lia).
  destruct (log2_bounds n Hn) as [Ln Un]. destruct (log2_bounds d Hd) as [Ld Ud].
  set (ln := Z.log2 n) in *. set (ld := Z.log2 d) in *.
  assert (Hqd : q * inject_Z d == inject_Z n).
  { subst n d. destruct q as [a b]. unfold Qeq. simpl. lia. }
  assert (Hdpos : 0 < inject_Z d) by (rewrite Zlt_Qlt in Hd; exact Hd).
  assert (Up : q < pow2 (ln - ld + 1)).
  { apply (Qmult_lt_l _ _ (inject_Z d) Hdpos).
    rewrite (Qmult_comm _ q), Hqd.
    apply Qlt_le_trans with (1 := Un).
    replace (ln + 1)%Z with (ld + (ln - ld + 1))%Z by lia. rewrite pow2_add.
    apply Qmult_le_compat_r; [assumption | apply Qlt_le_weak, pow2_pos]. }
  assert (Lo : pow2 (ln - ld - 1) <= q).
  { apply (Qmult_le_l _ _ (inject_Z d) Hdpos).
    rewrite (Qmult_comm _ q), Hqd.
    apply Qle_trans with (2 := Ln).
    replace ln with ((ld + 1) + (ln - ld - 1))%Z at 2 by lia. rewrite pow2_add.
    apply Qmult_le_compat_r; [apply Qlt_le_weak; assumption | apply Qlt_le_weak, pow2_pos]. }
  destruct (Qle_bool (pow2 (ln - ld)) q) eqn:E.
  - apply Qle_bool_iff in E. split; assumption.
  - assert (q < pow2 (ln - ld)).
    { apply Qnot_le_lt. intros C. apply Qle_bool_iff in C. congruence. }
    replace (ln - ld - 1 + 1)%Z with (ln - ld)%Z by lia. split; assumption.
Qed.

Lemma ilog2_unique (q : Q) (e : Z) : pow2 e <= q → q < pow2 (e + 1) → ilog2 q = e.
Proof.
  intros L U.
  assert (Hq : 0 < q) by (pose proof (pow2_pos e); lra).
  destruct (ilog2_spec q Hq) as [L' U'].
  assert (pow2 e < pow2 (ilog2 q + 1)) by lra.
  assert (pow2 (ilog2 q) < pow2 (e + 1)) by lra.
  apply pow2_lt_inv in H. apply pow2_lt_inv in H0. lia.
Qed.

Lemma ilog2_comp (p q : Q) : 0 < p → p == q → ilog2 p = ilog2 q.
Proof.
  intros Hp E. destruct (ilog2_spec q) as [? ?]; [lra|]. apply ilog2_unique; lra.
Qed.

Lemma ilog2_mono (p q : Q) : 0 < p → p <= q → (ilog2 p <= ilog2 q)%Z.
Proof.
  intros Hp L. destruct (ilog2_spec p Hp). destruct (ilog2_spec q) as [? ?]; [lra|].
  assert (pow2 (ilog2 p) < pow2 (ilog2 q + 1)) by lra.
  apply pow2_lt_inv in H3. lia.
Qed.

(** Rounding to the nearest integer. *)
Lemma nearest_even_cases (q : Q) :
  let f := Qfloor q in
  (nearest_even q = f ∧ q - inject_Z f <= 1 # 2 ∧ (q - inject_Z f == 1 # 2 → Z.even f = true))
  ∨ (nearest_even q = (f + 1)%Z ∧ 1 # 2 <= q - inject_Z f
     ∧ (q - inject_Z f == 1 # 2 → Z.even f = false)).
Proof.
  intros f. unfold nearest_even. fold f.
  destruct (Qcompare_spec (q - inject_Z f) (1 # 2)) as [E|L|G].
  - destruct (Z.even f) eqn:Ev.
    + left. split; [reflexivity | split; [lra | auto]].
    + right. split; [reflexivity | split; [lra | auto]].
  - left. split; [reflexivity | split; [lra | intros; lra]].
  - right. split; [reflexivity | split; [lra | intros; lra]].
Qed.

Lemma nearest_even_comp (p q : Q) : p == q → nearest_even p = nearest_even q.
Proof.
  intros E. unfold nearest_even. rewrite (Qfloor_comp _ _ E).
  rewrite (Qcompare_comp (p - inject_Z (Qfloor q)) (q - inject_Z (Qfloor q))
             ltac:(rewrite E; reflexivity) (1 # 2) (1 # 2) ltac:(reflexivity)).
  reflexivity.
Qed.

Lemma nearest_even_Z (z : Z) : nearest_even (inject_Z z) = z.
Proof.
  unfold nearest_even. rewrite Qfloor_Z.
  destruct (Qcompare_spec (inject_Z z - inject_Z z) (1 # 2)); try lra. reflexivity.
Qed.

Lemma nearest_even_mono (p q : Q) : p <= q → (nearest_even p <= nearest_even q)%Z.
Proof.
  intros L. pose proof (Qfloor_resp_le _ _ L) as F.
  pose proof (Qfloor_le p). pose proof (Qlt_floor p).
  pose proof (Qfloor_le q). pose proof (Qlt_floor q).
  destruct (nearest_even_cases p) as [(-> & ? & ?)|(-> & ? & ?)];
  destruct (nearest_even_cases q) as [(-> & ? & ?)|(-> & ? & ?)]; try lia.
  destruct (Z.eq_dec (Qfloor p) (Qfloor q)) as [E|]; [|lia].
  exfalso. rewrite E in *.
  assert (Ep : p - inject_Z (Qfloor q) == 1 # 2) by lra.
  assert (Eq : q - inject_Z (Qfloor q) == 1 # 2) by lra.
  match goal with
  | A : _ == _ → Z.even _ = false, B : _ == _ → Z.even _ = true |- _ =>
      specialize (A Ep); specialize (B Eq); congruence
  end.
Qed.

Lemma nearest_even_le (q : Q) (n : Z) : q <= inject_Z n → (nearest_even q <= n)%Z.
Proof. intros L. rewrite <- (nearest_even_Z n). apply nearest_even_mono, L. Qed.

Lemma nearest_even_ge (q : Q) (n : Z) : inject_Z n <= q → (n <= nearest_even q)%Z.
Proof. intros L. rewrite <- (nearest_even_Z n) at 1. apply nearest_even_mono, L. Qed.

(** Rounding to double precision. *)
Lemma Qabs_nonzero (q : Q) : ¬ q == 0 → 0 < Qabs q.
Proof.
  intros N. apply Qabs_case; intros H.
  - destruct (Qlt_le_dec 0 q); [assumption|]. exfalso. apply N. lra.
  - destruct (Qlt_le_dec q 0); [lra|]. exfalso. apply N. lra.
Qed.

Lemma Qabs_comp' (p q : Q) : p == q → Qabs p == Qabs q.
Proof. intros E. apply Qabs_case; intros; apply Qabs_case; intros; lra. Qed.

Lemma ulp_exponent_comp (p q : Q) : ¬ p == 0 → p == q → ulp_exponent p = ulp_exponent q.
Proof.
  intros N E. unfold ulp_exponent. f_equal. f_equal.
  apply ilog2_comp; [apply Qabs_nonzero, N | apply Qabs_comp', E].
Qed.

Lemma double_comp (p q : Q) : p == q → double p = double q.
Proof.
  intros E. unfold double.
  destruct (Qeq_bool p 0) eqn:Zp.
  - apply Qeq_bool_iff in Zp.
    assert (Zq : Qeq_bool q 0 = true) by (apply Qeq_bool_iff; lra).
    rewrite Zq. reflexivity.
  - assert (N : ¬ p == 0) by (intros C; apply Qeq_bool_iff in C; congruence).
    assert (Zq : Qeq_bool q 0 = false).
    { destruct (Qeq_bool q 0) eqn:C; [|reflexivity].
      apply Qeq_bool_iff in C. exfalso. apply N. lra. }
    rewrite Zq. cbv zeta. rewrite (ulp_exponent_comp p q N E).
    apply Qred_complete.
    rewrite (nearest_even_comp (p / pow2 (ulp_exponent q)) (q / pow2 (ulp_exponent q))).
    + reflexivity.
    + pose proof (pow2_pos (ulp_exponent q)).
      unfold Qdiv. apply Qmult_comp; [exact E | reflexivity].
Qed.

(** The value of [double q] for [q] other than 0. *)
Lemma double_nonzero (q : Q) :
  ¬ q == 0 →
  double q == inject_Z (nearest_even (q / pow2 (ulp_exponent q))) * pow2 (ulp_exponent q).
Proof.
  intros N. unfold double.
  destruct (Qeq_bool q 0) eqn:Zq.
  - apply Qeq_bool_iff in Zq. contradiction.
  - cbv zeta. apply Qred_correct.
Qed.

Lemma double_0 (q : Q) : q == 0 → double q = 0.
Proof. intros E. unfold double. apply Qeq_bool_iff in E. rewrite E. reflexivity. Qed.

(** [double q] does not cross a multiple of the unit in the last place. *)
Lemma double_le_multiple (q : Q) (n : Z) :
  ¬ q == 0 → q <= inject_Z n * pow2 (ulp_exponent q) →
  double q <= inject_Z n * pow2 (ulp_exponent q).
Proof.
  intros N L. rewrite (double_nonzero q N).
  pose proof (pow2_pos (ulp_exponent q)) as P.
  apply Qmult_le_compat_r; [|lra].
  rewrite <- Zle_Qle. apply nearest_even_le.
  apply Qle_shift_div_r; assumption.
Qed.

Lemma double_ge_multiple (q : Q) (n : Z) :
  ¬ q == 0 → inject_Z n * pow2 (ulp_exponent q) <= q →
  inject_Z n * pow2 (ulp_exponent q) <= double q.
Proof.
  intros N L. rewrite (double_nonzero q N).
  pose proof (pow2_pos (ulp_exponent q)) as P.
  apply Qmult_le_compat_r; [|lra].
  rewrite <- Zle_Qle. apply nearest_even_ge.
  apply Qle_shift_div_l; assumption.
Qed.

Lemma double_nonneg (q : Q) : 0 <= q → 0 <= double q.
Proof.
  intros L. destruct (Qeq_dec q 0) as [Z|N].
  - rewrite (double_0 q Z). lra.
  - pose proof (double_ge_multiple q 0 N) as H.
    assert (E : inject_Z 0 * pow2 (ulp_exponent q) == 0) by (change (inject_Z 0) with 0; lra).
    lra.
Qed.

Lemma double_nonpos (q : Q) : q <= 0 → double q <= 0.
Proof.
  intros L. destruct (Qeq_dec q 0) as [Z|N].
  - rewrite (double_0 q Z). lra.
  - pose proof (double_le_multiple q 0 N) as H.
    assert (E : inject_Z 0 * pow2 (ulp_exponent q) == 0) by (change (inject_Z 0) with 0; lra).
    lra.
Qed.

Lemma ulp_exponent_pos (q : Q) : 0 < q → ulp_exponent q = Z.max (ilog2 q - 52) (-1074).
Proof.
  intros H. unfold ulp_exponent. f_equal. f_equal.
  apply ilog2_comp; [apply Qabs_nonzero; lra | apply Qabs_pos; lra].
Qed.

Lemma double_mono_pos (p q : Q) : 0 < p → p <= q → double p <= double q.
Proof.
  intros Hp L.
  assert (Hq : 0 < q) by lra.
  assert (Np : ¬ p == 0) by lra. assert (Nq : ¬ q == 0) by lra.
  pose proof (ilog2_mono p q Hp L) as M.
  destruct (ilog2_spec p Hp) as [Lp Up]. destruct (ilog2_spec q Hq) as [Lq Uq].
  pose proof (ulp_exponent_pos p Hp) as Xp. pose proof (ulp_exponent_pos q Hq) as Xq.
  destruct (Z.eq_dec (ulp_exponent p) (ulp_exponent q)) as [E|NE].
  - rewrite (double_nonzero p Np), (double_nonzero q Nq), E.
    pose proof (pow2_pos (ulp_exponent q)) as P.
    apply Qmult_le_compat_r; [|lra].
    rewrite <- Zle_Qle. apply nearest_even_mono.
    unfold Qdiv. apply Qmult_le_compat_r; [assumption|].
    apply Qlt_le_weak, Qinv_lt_0_compat, P.
  - assert (Xlt : (ulp_exponent p < ulp_exponent q)%Z) by lia.
    assert (Eq' : ulp_exponent q = (ilog2 q - 52)%Z) by lia.
    assert (Elt : (ilog2 p < ilog2 q)%Z) by lia.
    assert (B1 : inject_Z (2 ^ (ilog2 q - ulp_exponent p)) * pow2 (ulp_exponent p)
                 == pow2 (ilog2 q)).
    { rewrite <- pow2_Z by lia. rewrite <- pow2_add.
      replace (ilog2 q - ulp_exponent p + ulp_exponent p)%Z with (ilog2 q) by lia.
      reflexivity. }
    assert (B2 : inject_Z (2 ^ 52) * pow2 (ulp_exponent q) == pow2 (ilog2 q)).
    { rewrite <- pow2_Z by lia. rewrite <- pow2_add.
      replace (52 + ulp_exponent q)%Z with (ilog2 q) by lia.
      reflexivity. }
    assert (pow2 (ilog2 p + 1) <= pow2 (ilog2 q)) by (apply pow2_le; lia).
    pose proof (double_le_multiple p (2 ^ (ilog2 q - ulp_exponent p)) Np) as A.
    pose proof (double_ge_multiple q (2 ^ 52) Nq) as B.
    lra.
Qed.

Lemma Qfloor_unique (q : Q) (z : Z) :
  inject_Z z <= q → q < inject_Z (z + 1) → Qfloor q = z.
Proof.
  intros L U. pose proof (Qfloor_le q) as A. pose proof (Qlt_floor q) as B.
  assert (C : inject_Z z < inject_Z (Qfloor q + 1)) by lra.
  assert (D : inject_Z (Qfloor q) < inject_Z (z + 1)) by lra.
  rewrite <- Zlt_Qlt in C, D. lia.
Qed.

Lemma nearest_even_opp (q : Q) : nearest_even (- q) = (- nearest_even q)%Z.
Proof.
  pose proof (Qfloor_le q) as A. pose proof (Qlt_floor q) as B.
  rewrite inject_Z_plus in B. change (inject_Z 1) with 1 in B.
  destruct (Qeq_dec q (inject_Z (Qfloor q))) as [E|N].
  - rewrite (nearest_even_comp q _ E), nearest_even_Z.
    rewrite (nearest_even_comp (- q) (inject_Z (- Qfloor q))).
    + apply nearest_even_Z.
    + rewrite inject_Z_opp. lra.
  - assert (F : Qfloor (- q) = (- Qfloor q - 1)%Z).
    { apply Qfloor_unique.
      - unfold Z.sub. rewrite inject_Z_plus, !inject_Z_opp. change (inject_Z 1) with 1. lra.
      - replace (- Qfloor q - 1 + 1)%Z with (- Qfloor q)%Z by lia.
        rewrite inject_Z_opp.
        destruct (Qlt_le_dec (inject_Z (Qfloor q)) q); [lra|]. exfalso. apply N. lra. }
    unfold nearest_even. rewrite F.
    assert (Ev : Z.even (- Qfloor q - 1) = negb (Z.even (Qfloor q))).
    { rewrite Z.even_sub, Z.even_opp. simpl. destruct (Z.even (Qfloor q)); reflexivity. }
    rewrite Ev.
    assert (R : - q - inject_Z (- Qfloor q - 1) == 1 - (q - inject_Z (Qfloor q))).
    { unfold Z.sub. rewrite inject_Z_plus, !inject_Z_opp. change (inject_Z 1) with 1. lra. }
    destruct (Qcompare_spec (q - inject_Z (Qfloor q)) (1 # 2)) as [C|C|C];
    destruct (Qcompare_spec (- q - inject_Z (- Qfloor q - 1)) (1 # 2)) as [C'|C'|C'];
      try (exfalso; lra); try lia.
    destruct (Z.even (Qfloor q)); simpl; lia.
Qed.

Lemma double_opp (q : Q) : double (- q) == - double q.
Proof.
  destruct (Qeq_dec q 0) as [Z|N].
  - rewrite (double_0 q Z), (double_0 (- q)) by lra. reflexivity.
  - assert (N' : ¬ - q == 0) by lra.
    rewrite (double_nonzero q N), (double_nonzero (- q) N').
    assert (X : ulp_exponent (- q) = ulp_exponent q).
    { unfold ulp_exponent. f_equal. f_equal.
      apply ilog2_comp; [apply Qabs_nonzero, N' | apply Qabs_opp]. }
    rewrite X.
    rewrite (nearest_even_comp (- q / pow2 (ulp_exponent q)) (- (q / pow2 (ulp_exponent q)))).
    + rewrite nearest_even_opp, inject_Z_opp. lra.
    + pose proof (pow2_pos (ulp_exponent q)). field. lra.
Qed.

(** Rounding is monotone. *)
Lemma double_mono (p q : Q) : p <= q → double p <= double q.
Proof.
  intros L.
  destruct (Qlt_le_dec 0 p) as [Hp|Hp].
  - apply double_mono_pos; assumption.
  - destruct (Qlt_le_dec q 0) as [Hq|Hq].
    + assert (A : double (- q) <= double (- p)) by (apply double_mono_pos; lra).
      rewrite !double_opp in A. lra.
    + pose proof (double_nonpos p Hp). pose proof (double_nonneg q Hq). lra.
Qed.

Lemma double_100 : double 100 = 100.
Proof. vm_compute. reflexivity. Qed.

Lemma pow2_neg53 : pow2 (-53) == 1 # 9007199254740992.
Proof. reflexivity. Qed.

(** The largest double below 1 is [1 - 2^-53]. *)
Lemma double_below_one (r : Q) :
  is_double r → r < 1 → r <= 1 - (1 # 9007199254740992).
Proof.
  intros D U. destruct (Qlt_le_dec (1 # 2) r) as [L|L]; [|lra].
  assert (N : ¬ r == 0) by lra.
  assert (E : ilog2 r = (-1)%Z).
  { apply ilog2_unique.
    - apply Qle_trans with (1 # 2); [vm_compute; discriminate | lra].
    - apply Qlt_le_trans with 1; [lra | vm_compute; discriminate]. }
  assert (X : ulp_exponent r = (-53)%Z).
  { rewrite ulp_exponent_pos by lra. rewrite E. reflexivity. }
  unfold is_double in D. rewrite (double_nonzero r N), X in D.
  set (m := nearest_even (r / pow2 (-53))) in *. clearbody m.
  change (pow2 (-53)) with (1 # 9007199254740992) in D.
  assert (M : (m < 9007199254740992)%Z).
  { rewrite Zlt_Qlt. change (inject_Z 9007199254740992) with 9007199254740992.
    assert (inject_Z m == r * 9007199254740992) by (rewrite <- D; field).
    lra. }
  assert (M' : inject_Z m <= 9007199254740991).
  { change 9007199254740991 with (inject_Z 9007199254740991).
    rewrite <- Zle_Qle. lia. }
  rewrite <- D. lra.
Qed.

(** ** Primitives *)

Lemma truthy_num_spec (q : Q) : truthy q = true ↔ ¬ q == 0.
Proof.
  unfold truthy, truthy_num. rewrite negb_true_iff. split.
  - intros H E. apply Qeq_bool_iff in E. congruence.
  - intros H. destruct (Qeq_bool q 0) eqn:E; [|reflexivity].
    apply Qeq_bool_iff in E. contradiction.
Qed.

Lemma truthy_num_false (q : Q) : truthy q = false ↔ q == 0.
Proof.
  unfold truthy, truthy_num. rewrite negb_false_iff. apply Qeq_bool_iff.
Qed.

Lemma truthy_opt_spec (x : option Q) : truthy x = true ↔ ∃ v, nonzero x v.
Proof.
  unfold nonzero. destruct x as [q|]; simpl.
  - change (truthy (Some q)) with (truthy q). rewrite truthy_num_spec.
    split; [eauto|]. intros (v & [= ->] & H). exact H.
  - split; [discriminate|]. intros (v & [=] & _).
Qed.

Lemma truthy_opt_false (x : option Q) : truthy x = false ↔ absent_or_zero x.
Proof.
  unfold absent_or_zero. destruct x as [q|].
  - change (truthy (Some q)) with (truthy q). rewrite truthy_num_false.
    split; [intros H v [= <-]; exact H | eauto].
  - split; [intros _ v [=] | reflexivity].
Qed.

Lemma ge_spec (a b : Q) : ge a b = true ↔ b <= a.
Proof. unfold ge. apply Qle_bool_iff. Qed.

Lemma lt_spec (a b : Q) : lt a b = true ↔ a < b.
Proof.
  unfold lt. rewrite negb_true_iff. split.
  - intros H. apply Qnot_le_lt. intros L. apply Qle_bool_iff in L. congruence.
  - intros H. destruct (Qle_bool b a) eqn:E; [|reflexivity].
    apply Qle_bool_iff in E. exfalso. exact (Qlt_not_le _ _ H E).
Qed.

(** ** Volume buckets and the count they are applied to *)

Lemma jor_lit_nonzero (x : option Q) (v d : Q) : nonzero x v → x ||: d = v.
Proof.
  intros [-> H]. unfold jor_lit. apply truthy_num_spec in H. by rewrite H.
Qed.

Lemma jor_lit_absent (x : option Q) (d : Q) : absent_or_zero x → x ||: d = d.
Proof.
  intros H. destruct x as [q|]; [|reflexivity].
  unfold jor_lit. specialize (H q eq_refl). apply truthy_num_false in H.
  by rewrite H.
Qed.

Lemma jor_nonzero (x y : option Q) (v : Q) : nonzero x v → x ||| y = x.
Proof.
  intros H. unfold jor.
  assert (truthy x = true) as -> by (apply truthy_opt_spec; eauto). done.
Qed.

Lemma jor_absent (x y : option Q) : absent_or_zero x → x ||| y = y.
Proof.
  intros H. unfold jor. apply truthy_opt_false in H. by rewrite H.
Qed.

(** The combined fallback [OBSERVED_COUNT || predicted || 0]. *)
Lemma combined_fallback (obs pred : option Q) :
  (∀ o, nonzero obs o → obs ||| pred ||: 0 = o) ∧
  (∀ p, absent_or_zero obs → nonzero pred p → obs ||| pred ||: 0 = p) ∧
  (absent_or_zero obs → absent_or_zero pred → obs ||| pred ||: 0 = 0).
Proof.
  repeat split.
  - intros o H. rewrite (jor_nonzero _ _ _ H). by apply jor_lit_nonzero.
  - intros p Ho Hp. rewrite (jor_absent _ _ Ho). by apply jor_lit_nonzero.
  - intros Ho Hp. rewrite (jor_absent _ _ Ho). by apply jor_lit_absent.
Qed.

(** C5, as amended.  For every count the membership test of
    [isInVolumeCategory] is: high iff count >= 80, medium-high iff
    50 <= count < 80, medium iff 30 <= count < 50, medium-low iff
    10 <= count < 30, low iff count < 10; so 80 is high, 50 medium-high,
    30 medium, 10 medium-low and 9 low.  In the combined view (a view type
    other than "observed" and "predicted") the count of a segment is its
    observed count if that is present and non-zero, else its predicted value
    if that is present and non-zero, else 0. *)
Theorem volume_buckets_and_combined_count
    (count : Q) (feature : Road.Feature) (filters : Filters) :
  (isInVolumeCategory count "high" = true ↔ 80 <= count) ∧
  (isInVolumeCategory count "medium-high" = true ↔ 50 <= count ∧ count < 80) ∧
  (isInVolumeCategory count "medium" = true ↔ 30 <= count ∧ count < 50) ∧
  (isInVolumeCategory count "medium-low" = true ↔ 10 <= count ∧ count < 30) ∧
  (isInVolumeCategory count "low" = true ↔ count < 10) ∧
  isInVolumeCategory 80 "high" = true ∧
  isInVolumeCategory 50 "medium-high" = true ∧
  isInVolumeCategory 30 "medium" = true ∧
  isInVolumeCategory 10 "medium-low" = true ∧
  isInVolumeCategory 9 "low" = true ∧
  (view_is filters "observed" = false → view_is filters "predicted" = false →
   let props := Road.properties feature in
   let c := getCountForFeature feature filters in
   (∀ o, nonzero (Road.OBSERVED_COUNT props) o → c = o) ∧
   (∀ p, absent_or_zero (Road.OBSERVED_COUNT props) →
         nonzero (Road.predicted props) p → c = p) ∧
   (absent_or_zero (Road.OBSERVED_COUNT props) →
    absent_or_zero (Road.predicted props) → c = 0)).
Proof.
  repeat match goal with |- _ ∧ _ => split end;
    try (vm_compute; reflexivity).
  - apply ge_spec.
  - change (isInVolumeCategory count "medium-high") with (ge count 50 && lt count 80).
    by rewrite andb_true_iff, ge_spec, lt_spec.
  - change (isInVolumeCategory count "medium") with (ge count 30 && lt count 50).
    by rewrite andb_true_iff, ge_spec, lt_spec.
  - change (isInVolumeCategory count "medium-low") with (ge count 10 && lt count 30).
    by rewrite andb_true_iff, ge_spec, lt_spec.
  - apply lt_spec.
  - intros Ho Hp props c. subst c. unfold getCountForFeature.
    rewrite Ho, Hp. simpl. apply combined_fallback.
Qed.

(** C5, the statement as written fails: with an observed count of 0 that is
    present and a prediction of 50, the combined-view count is 50 (bucket
    medium-high), not the observed 0 (bucket low). *)
Lemma combined_count_observed_zero :
  let feature := segment (Some "A") (Some 0) (Some 50) None None None in
  ¬ getCountForFeature feature combined_view
      == spec_combined_count (Road.properties feature)
  ∧ isInVolumeCategory (getCountForFeature feature combined_view) "medium-high" = true
  ∧ isInVolumeCategory (spec_combined_count (Road.properties feature)) "low" = true.
Proof. vm_compute. repeat split; discriminate. Qed.

(** ** Join engine: residual, percent error and traffic level *)

(** Case analysis on hypotheses about present and absent properties. *)
Ltac settle_options :=
  repeat match goal with
  | H : _ ∧ _ |- _ => destruct H
  | H : ∃ _, _ |- _ => destruct H
  | H : _ ∨ _ |- _ => destruct H
  | H : is_Some None |- _ => destruct H as [? [=]]
  | H : None = Some _ |- _ => discriminate H
  | H : Some _ = Some _ |- _ => injection H as H; subst
  | H : ∀ v, Some ?x = Some v → _ |- _ => specialize (H x eq_refl)
  end;
  try contradiction; try done; eauto 6.

(** Parsed features that all have properties. *)
Lemma with_properties_Some {F G} (items : list (Parsed F G)) :
  Forall has_properties items ↔ ∃ fs, with_properties items = Some fs.
Proof.
  unfold with_properties. induction items as [|item items IH]; simpl.
  - split; [eauto | constructor].
  - split.
    + intros H. inversion H as [|? ? [f ->] Hrest]; subst.
      apply IH in Hrest as [fs ->]. simpl. eauto.
    + intros [fs H]. destruct item as [f|g]; simpl in H; [|discriminate].
      destruct (mapM _ items) as [fs'|] eqn:E; simpl in H; [|discriminate].
      constructor; [by exists f | apply IH; eauto].
Qed.


(** A loop that has not thrown before position [i] has updated the element
    there. *)
Lemma forEach_lookup {A} (body : A → Outcome A) (l : list A) (i : nat) (a a' : A) :
  Forall (fun x => ∃ x', body x = Returned x') (take i l) →
  l !! i = Some a → body a = Returned a' →
  (forEach body l).2 !! i = Some a'.
Proof.
  revert i. induction l as [|x l IH]; intros [|i] Hpre Hi Ha; simpl in *; try discriminate.
  - injection Hi as ->. rewrite Ha. destruct (forEach body l). reflexivity.
  - inversion Hpre as [|? ? [x' Hx] Hrest]; subst. rewrite Hx.
    specialize (IH i Hrest Hi Ha). destruct (forEach body l). exact IH.
Qed.

(** Every feature that the join reaches has its joined counterpart at the
    same position of the output. *)
Lemma processRoadNetworkData_lookup roadData counterData predictedData censusData
    (items : list Road.Item) (i : nat) (feature : Road.Feature) :
  features roadData = Some items → items !! i = Some (WithProps feature) →
  join_reaches censusData items i →
  ∃ censusLookup,
    createCensusLookup censusData = Returned censusLookup ∧
    features (processRoadNetworkData roadData counterData predictedData censusData).2
      ≫= (fun fs' => fs' !! i)
    = Some (WithProps (joinFeature (createPredictedLookup predictedData)
                         (createCounterLookup counterData) censusLookup feature)).
Proof.
  intros Hfs Hi [Hcensus Hroads]. unfold processRoadNetworkData. rewrite Hfs.
  assert (Hc : ∃ censusLookup, createCensusLookup censusData = Returned censusLookup).
  { unfold createCensusLookup. destruct censusData as [census|]; simpl in *; [|eauto].
    destruct (features census) as [cs|]; simpl in *; [|eauto]. destruct (proj1 (with_properties_Some cs) Hcensus) as [fs E].
    rewrite E. eauto. }
  destruct Hc as [censusLookup Hc]. exists censusLookup. split; [exact Hc|].
  rewrite Hc.
  pose proof (forEach_lookup
    (joinItem (createPredictedLookup predictedData) (createCounterLookup counterData)
       censusLookup) items i _ _
    ltac:(eapply Forall_impl; [exact Hroads|]; intros ? [f ->]; simpl; eauto)
    Hi eq_refl) as H.
  destruct (forEach _ items) as [o items']. exact H.
Qed.

(** What the two guarded blocks of the join leave in the derived fields. *)
Lemma joinFeature_derived pl cl sl (feature : Road.Feature) :
  resolvable (Road.properties feature) →
  let old := Road.properties feature in
  let props := Road.properties (joinFeature pl cl sl feature) in
  (Road.residual props, Road.percent_error props)
  = match Road.OBSERVED_COUNT props, Road.predicted props with
    | Some o, Some p =>
        if truthy o && truthy p
        then (Some (o ⊖ p), Some (((o ⊖ p) ⊘ o) ⊗ 100))
        else (Road.residual old, Road.percent_error old)
    | _, _ => (Road.residual old, Road.percent_error old)
    end
  ∧ Road.traffic_level props
    = match Road.predicted props with
      | Some p => if truthy p then Some (traffic_bucket p) else Road.traffic_level old
      | None => Road.traffic_level old
      end.
Proof.
  intros [k Hk]. unfold joinFeature. rewrite Hk. cbn [Road.properties Road.residual
    Road.percent_error Road.OBSERVED_COUNT Road.predicted Road.traffic_level].
  split; [|reflexivity].
  match goal with |- context [match ?x with Some _ => _ | None => _ end] =>
    destruct x as [o|]; [|reflexivity] end.
  match goal with |- context [match ?x with Some _ => _ | None => _ end] =>
    destruct x as [p|]; [|reflexivity] end.
  destruct (truthy o && truthy p); reflexivity.
Qed.

(** C1, as amended.  For every road segment with a resolvable key that the
    join reaches (and carrying no residual or percent error of its own in the
    source file), residual is defined if and only if both the observed count
    and the predicted value are defined and non-zero; then
    residual = observed - predicted and
    percent_error = (residual / observed) * 100, in the arithmetic of the
    code.  When either of the two is absent or zero, neither residual nor
    percent error is attached. *)
Theorem join_residual roadData counterData predictedData censusData
    (items : list Road.Item) (i : nat) (feature : Road.Feature) :
  features roadData = Some items →
  items !! i = Some (WithProps feature) →
  join_reaches censusData items i →
  resolvable (Road.properties feature) →
  Road.residual (Road.properties feature) = None →
  Road.percent_error (Road.properties feature) = None →
  ∃ joined,
    features (processRoadNetworkData roadData counterData predictedData censusData).2
      ≫= (fun fs' => fs' !! i) = Some (WithProps joined) ∧
    let props := Road.properties joined in
    (is_Some (Road.residual props) ↔
       ∃ o p, nonzero (Road.OBSERVED_COUNT props) o ∧ nonzero (Road.predicted props) p) ∧
    (∀ o p, nonzero (Road.OBSERVED_COUNT props) o → nonzero (Road.predicted props) p →
       Road.residual props = Some (o ⊖ p) ∧
       Road.percent_error props = Some (((o ⊖ p) ⊘ o) ⊗ 100)) ∧
    (absent_or_zero (Road.OBSERVED_COUNT props) ∨ absent_or_zero (Road.predicted props) →
       Road.residual props = None ∧ Road.percent_error props = None).
Proof.
  intros Hfs Hi Hreach Hkey Hres Hpct.
  destruct (processRoadNetworkData_lookup roadData counterData predictedData censusData
              items i feature Hfs Hi Hreach) as (sl & _ & Hjoined).
  eexists. split; [exact Hjoined|].
  destruct (joinFeature_derived (createPredictedLookup predictedData)
              (createCounterLookup counterData) sl feature Hkey) as [Hd _].
  cbv zeta in Hd. rewrite Hres, Hpct in Hd.
  set (props := Road.properties (joinFeature _ _ _ feature)) in *. cbv zeta.
  destruct (Road.OBSERVED_COUNT props) as [o|] eqn:Ho;
    [destruct (Road.predicted props) as [p|] eqn:Hp|];
    [destruct (truthy o) eqn:To; [destruct (truthy p) eqn:Tp|]|..];
    simpl in Hd; injection Hd as Hr He; rewrite Hr, He.
  all: try apply truthy_num_spec in To; try apply truthy_num_false in To;
    try apply truthy_num_spec in Tp; try apply truthy_num_false in Tp;
    unfold nonzero, absent_or_zero;
    (split; [split; intros Hs|split; [intros ? ? ? ?|intros ?]]).
  all: settle_options.
Qed.

(** C1 at a concrete input: the default road collection joined with the
    default counters, predictions and census (observed 75, predicted 78.5 for
    the first segment). *)
Lemma join_residual_default_data :
  ∃ joined,
    features (processRoadNetworkData defaultRoadNetworkData (Some defaultCounterData)
                defaultPredictionsData (Some defaultCensusData)).2
      ≫= (fun fs' => fs' !! 0%nat) = Some (WithProps joined) ∧
    let props := Road.properties joined in
    (is_Some (Road.residual props) ↔
       ∃ o p, nonzero (Road.OBSERVED_COUNT props) o ∧ nonzero (Road.predicted props) p) ∧
    (∀ o p, nonzero (Road.OBSERVED_COUNT props) o → nonzero (Road.predicted props) p →
       Road.residual props = Some (o ⊖ p) ∧
       Road.percent_error props = Some (((o ⊖ p) ⊘ o) ⊗ 100)) ∧
    (absent_or_zero (Road.OBSERVED_COUNT props) ∨ absent_or_zero (Road.predicted props) →
       Road.residual props = None ∧ Road.percent_error props = None).
Proof.
  refine (join_residual defaultRoadNetworkData (Some defaultCounterData)
            defaultPredictionsData (Some defaultCensusData) _ 0 (default_road 0)
            _ _ _ _ _ _).
  - reflexivity.
  - reflexivity.
  - split; [repeat constructor; eexists; reflexivity | constructor].
  - vm_compute. eexists. reflexivity.
  - reflexivity.
  - reflexivity.
Defined.

(** C1, the statement as written fails: a segment whose own observed count
    is 0 and whose key has a prediction of 50 has both inputs defined after
    the join, yet no residual is attached. *)
Lemma residual_missing_for_zero_observed :
  let roadData :=
    {| features := Some [WithProps (segment (Some "A") (Some 0) None None None None)] |} in
  let out :=
    (processRoadNetworkData roadData None [prediction "A" (Number 50)] None).2 in
  ∃ joined,
    features out = Some [WithProps joined] ∧
    resolvable (Road.properties joined) ∧
    Road.OBSERVED_COUNT (Road.properties joined) = Some 0 ∧
    Road.predicted (Road.properties joined) = Some 50 ∧
    Road.residual (Road.properties joined) = None ∧
    ¬ (is_Some (Road.residual (Road.properties joined)) ↔
       is_Some (Road.OBSERVED_COUNT (Road.properties joined)) ∧
       is_Some (Road.predicted (Road.properties joined))).
Proof.
  eexists. split; [vm_compute; reflexivity|].
  split; [vm_compute; eexists; reflexivity|].
  repeat (split; [reflexivity|]).
  intros [_ H]. destruct H as [? [=]]. split; eexists; reflexivity.
Qed.

Lemma traffic_bucket_spec (p : Q) :
  (80 <= p → traffic_bucket p = "high") ∧
  (40 <= p → p < 80 → traffic_bucket p = "medium") ∧
  (p < 40 → traffic_bucket p = "low").
Proof.
  unfold traffic_bucket. repeat split.
  - intros H. apply ge_spec in H. by rewrite H.
  - intros H1 H2. apply ge_spec in H1. apply lt_spec in H2.
    unfold lt in H2. apply negb_true_iff in H2. unfold ge in *. by rewrite H2, H1.
  - intros H. assert (p < 80) as H' by (eapply Qlt_trans; [exact H|reflexivity]).
    apply lt_spec in H, H'. unfold lt in H, H'. apply negb_true_iff in H, H'.
    unfold ge. by rewrite H', H.
Qed.

(** C2, as amended.  For every road segment with a resolvable key that the
    join reaches (carrying no traffic level of its own in the source file),
    traffic_level is defined if and only if predicted is defined and
    non-zero; it is then "high" if predicted >= 80, "medium" if
    40 <= predicted < 80, and "low" otherwise. *)
Theorem join_traffic_level roadData counterData predictedData censusData
    (items : list Road.Item) (i : nat) (feature : Road.Feature) :
  features roadData = Some items →
  items !! i = Some (WithProps feature) →
  join_reaches censusData items i →
  resolvable (Road.properties feature) →
  Road.traffic_level (Road.properties feature) = None →
  ∃ joined,
    features (processRoadNetworkData roadData counterData predictedData censusData).2
      ≫= (fun fs' => fs' !! i) = Some (WithProps joined) ∧
    let props := Road.properties joined in
    (is_Some (Road.traffic_level props) ↔ ∃ p, nonzero (Road.predicted props) p) ∧
    (∀ p, nonzero (Road.predicted props) p →
       (80 <= p → Road.traffic_level props = Some "high") ∧
       (40 <= p → p < 80 → Road.traffic_level props = Some "medium") ∧
       (p < 40 → Road.traffic_level props = Some "low")).
Proof.
  intros Hfs Hi Hreach Hkey Hold.
  destruct (processRoadNetworkData_lookup roadData counterData predictedData censusData
              items i feature Hfs Hi Hreach) as (sl & _ & Hjoined).
  eexists. split; [exact Hjoined|].
  destruct (joinFeature_derived (createPredictedLookup predictedData)
              (createCounterLookup counterData) sl feature Hkey) as [_ Ht].
  cbv zeta in Ht. rewrite Hold in Ht.
  set (props := Road.properties (joinFeature _ _ _ feature)) in *. cbv zeta.
  rewrite Ht. clear Ht.
  destruct (Road.predicted props) as [p|]; [destruct (truthy p) eqn:Tp|].
  - apply truthy_num_spec in Tp. split.
    + split; [intros _; exists p; by split | intros _; eexists; reflexivity].
    + intros p' [[= <-] _].
      destruct (traffic_bucket_spec p) as (H1 & H2 & H3).
      repeat split; intros; f_equal; auto.
  - apply truthy_num_false in Tp. unfold nonzero. split; [split|]; intros; settle_options.
  - unfold nonzero. split; [split|]; intros; settle_options.
Qed.

(** C2 at a concrete input: the second segment of the default road
    collection (predicted 45.2, no observed count). *)
Lemma join_traffic_level_default_data :
  ∃ joined,
    features (processRoadNetworkData defaultRoadNetworkData (Some defaultCounterData)
                defaultPredictionsData (Some defaultCensusData)).2
      ≫= (fun fs' => fs' !! 1%nat) = Some (WithProps joined) ∧
    let props := Road.properties joined in
    (is_Some (Road.traffic_level props) ↔ ∃ p, nonzero (Road.predicted props) p) ∧
    (∀ p, nonzero (Road.predicted props) p →
       (80 <= p → Road.traffic_level props = Some "high") ∧
       (40 <= p → p < 80 → Road.traffic_level props = Some "medium") ∧
       (p < 40 → Road.traffic_level props = Some "low")).
Proof.
  refine (join_traffic_level defaultRoadNetworkData (Some defaultCounterData)
            defaultPredictionsData (Some defaultCensusData) _ 1 (default_road 1)
            _ _ _ _ _).
  - reflexivity.
  - reflexivity.
  - split; repeat constructor; eexists; reflexivity.
  - vm_compute. eexists. reflexivity.
  - reflexivity.
Defined.

(** C2, the statement as written fails: a segment whose prediction row has
    no parsable value gets predicted = 0 from the lookup, which is defined,
    but no traffic level (the statement asks for "low"). *)
Lemma traffic_level_missing_for_zero_predicted :
  let roadData :=
    {| features := Some [WithProps (segment (Some "A") None None None None None)] |} in
  let out := (processRoadNetworkData roadData None [prediction "A" Undefined] None).2 in
  ∃ joined,
    features out = Some [WithProps joined] ∧
    resolvable (Road.properties joined) ∧
    Road.predicted (Road.properties joined) = Some 0 ∧
    Road.traffic_level (Road.properties joined) = None ∧
    ¬ (is_Some (Road.traffic_level (Road.properties joined)) ↔
       is_Some (Road.predicted (Road.properties joined))).
Proof.
  eexists. split; [vm_compute; reflexivity|].
  split; [vm_compute; eexists; reflexivity|].
  repeat (split; [reflexivity|]).
  intros [_ H]. destruct H as [? [=]]. eexists; reflexivity.
Qed.

(** ** The counter-update step of [processData] *)

(** The integers from 20 to 99 are doubles. *)
Lemma double_filler_values (z : Z) :
  (0 ≤ z < 80)%Z → double (inject_Z z + 20) == inject_Z (z + 20).
Proof.
  intros Hz.
  assert (H : forallb (fun n => Qeq_bool (double (inject_Z (Z.of_nat n) + 20))
                                  (inject_Z (Z.of_nat n + 20))) (seq 0 80) = true)
    by (vm_compute; reflexivity).
  rewrite forallb_forall in H. specialize (H (Z.to_nat z)).
  rewrite Z2Nat.id in H by lia. apply Qeq_bool_iff, H, in_seq. lia.
Qed.

(** The largest double below 1, times 80, rounds below 80. *)
Lemma filler_range (r : Q) :
  is_double r → 0 <= r → r < 1 → ∃ z : Z, (20 ≤ z ≤ 99)%Z ∧ filler r == inject_Z z.
Proof.
  intros D H0 H1. unfold filler, Math_floor, add, mul.
  pose proof (double_below_one r D H1) as Hr.
  assert (0 <= double (r * 80)) as Hlo by (apply double_nonneg; lra).
  assert (double (r * 80) < 80) as Hhi.
  { eapply Qle_lt_trans.
    - apply (double_mono _ ((1 - (1 # 9007199254740992)) * 80)). lra.
    - vm_compute. reflexivity. }
  assert (0 <= Qfloor (double (r * 80)))%Z as Flo.
  { change 0%Z with (Qfloor 0). by apply Qfloor_resp_le. }
  assert (Qfloor (double (r * 80)) < 80)%Z as Fhi.
  { rewrite Zlt_Qlt. eapply Qle_lt_trans; [apply Qfloor_le | exact Hhi]. }
  exists (Qfloor (double (r * 80)) + 20)%Z. split; [lia|].
  apply double_filler_values. lia.
Qed.

Lemma integer_nonzero (v : Q) (z : Z) : (20 ≤ z ≤ 99)%Z → v == inject_Z z → ¬ v == 0.
Proof.
  intros Hz E H. rewrite E in H. unfold Qeq in H. simpl in H. lia.
Qed.

Lemma updateCounterFeature_updated obs rand n (feature : Counter.Feature) :
  unit_draws rand →
  counter_updated obs feature (updateCounterFeature obs rand n feature).1.
Proof.
  intros Hr. unfold updateCounterFeature, counter_updated.
  set (props := Counter.properties feature).
  destruct (truthy (matched_count obs props)) eqn:Hm.
  - apply truthy_opt_spec in Hm as (v & Hv & Hnz). exists v. simpl.
    repeat split; try done.
    intros Ha. specialize (Ha _ Hv). contradiction.
  - destruct (truthy (Counter.COUNT props)) eqn:Hc.
    + apply truthy_opt_spec in Hc as (v & Hv & Hnz). exists v. simpl.
      repeat split; try done.
      intros _ Ha. specialize (Ha _ Hv). contradiction.
    + destruct (filler_range (rand n)) as (z & Hz & E); [apply Hr..|].
      exists (filler (rand n)). simpl. repeat split.
      * eapply integer_nonzero; eassumption.
      * intros _ _. eauto.
Qed.

Lemma updateCounterFeatures_updated obs rand (fs : list Counter.Feature) :
  unit_draws rand →
  ∀ n, Forall2 (counter_updated obs) fs (updateCounterFeatures obs rand n fs).1.
Proof.
  intros Hr. induction fs as [|f fs IH]; intros n; simpl; [constructor|].
  pose proof (updateCounterFeature_updated obs rand n f Hr) as Hf.
  destruct (updateCounterFeature obs rand n f) as [f' n'].
  specialize (IH n').
  destruct (updateCounterFeatures obs rand n' fs) as [fs' n''].
  simpl in *. by constructor.
Qed.

Lemma lookup_write {A} (l : loc) (v : A) (h : gmap loc A) :
  write (Some l) v h !! l = Some v.
Proof. unfold write. apply lookup_insert_eq. Qed.

(** [processData] on the counter collection of the store. *)
Lemma processData_counters rand σ cs preds :
  counter_object σ = Some cs → predictionsData (ds σ) = Some preds →
  counter_object (processData rand σ).2
  = Some (updateCounterPointsWithObservedData preds rand (draws σ) cs).1.
Proof.
  intros Hcs Hp. unfold processData. rewrite Hcs, Hp.
  destruct (updateCounterPointsWithObservedData preds rand (draws σ) cs) as [cs' n'].
  set (σ1 := {| ds := ds σ; roads := roads σ; counters := _; draws := n' |}).
  assert (counter_object σ1 = Some cs') as H1.
  { unfold counter_object in *. simpl.
    destruct (counterPointsData (ds σ)) as [l|]; [|discriminate]. simpl.
    apply lookup_write. }
  rewrite H1.
  destruct (road_object σ1), (predictionsData (ds σ1)), (censusData (ds σ1));
    try exact H1.
  destruct (processRoadNetworkData _ _ _ _). exact H1.
Qed.

(** C10.  After the counter-update step of [processData] has run (counter
    collection with features and predictions both present), every feature of
    the counter collection has COUNT and OBSERVED_COUNT defined and equal,
    and the value is not 0; where no observed count was matched by segment
    key or site name and the feature had no non-zero COUNT before, the value
    is the filler, an integer from 20 to 99.  The draws of [Math.random] are
    arbitrary doubles from 0 (included) to 1 (excluded), and the counters are
    as stated also when the join that follows throws. *)
Theorem counters_after_update rand σ cs fs preds :
  unit_draws rand →
  counter_object σ = Some cs →
  features cs = Some fs →
  predictionsData (ds σ) = Some preds →
  ∃ fs',
    counter_object (processData rand σ).2 ≫= features = Some fs' ∧
    Forall2 (counter_updated (observedCountMap preds)) fs fs'.
Proof.
  intros Hr Hcs Hfs Hp. rewrite (processData_counters _ _ _ _ Hcs Hp).
  unfold updateCounterPointsWithObservedData. rewrite Hfs.
  pose proof (updateCounterFeatures_updated (observedCountMap preds) rand fs Hr (draws σ)) as H.
  destruct (updateCounterFeatures _ rand (draws σ) fs) as [fs' n']. simpl in *.
  eauto.
Qed.

(** C10 at a concrete input: the sample store, every draw being 1/2. *)
Lemma counters_after_update_sample :
  ∃ fs',
    counter_object (processData (fun _ => 1 # 2) sample_store).2 ≫= features = Some fs' ∧
    Forall2 (counter_updated (observedCountMap defaultPredictionsData))
      sample_counters fs'.
Proof.
  refine (counters_after_update (fun _ => 1 # 2) sample_store _ _ _ _ _ _ _).
  - intros n. split; [vm_compute; reflexivity | split; [discriminate | reflexivity]].
  - vm_compute. reflexivity.
  - reflexivity.
  - reflexivity.
Defined.

(** ** Aggregator: averages over the truthy fields *)

Lemma truthy_value (x : option Q) :
  truthy x = true → ∃ v, x = Some v ∧ x ||: 0 = v.
Proof.
  intros H. apply truthy_opt_spec in H as (v & Hv). exists v.
  split; [apply Hv | by apply jor_lit_nonzero].
Qed.

(** A whole scan adds up the contributing values, in order, and counts
    them. *)
Lemma scan_contributing (attr : Road.Props → option Q) (fs : list Road.Feature) :
  ∀ t c,
    scan attr fs (t, c)
    = (fold_left add (contributing (column attr fs)) t,
       (c + length (contributing (column attr fs)))%nat).
Proof.
  unfold scan. induction fs as [|f fs IH]; intros t c; simpl.
  - by rewrite Nat.add_0_r.
  - unfold tally at 2. destruct (truthy (attr (Road.properties f))) eqn:T.
    + destruct (truthy_value _ T) as (v & Hv & ->). rewrite Hv in *.
      simpl. rewrite IH. simpl. f_equal. lia.
    + rewrite IH. reflexivity.
Qed.

(** The four pairs of census counters of [calculateStatistics] evolve by
    [tally], independently of the other counters. *)
Lemma accumulate_census (fs : list Road.Feature) :
  ∀ a,
    let a' := fold_left accumulate fs a in
    (Acc.totalIncome a', Acc.incomeCount a')
      = scan income_of fs (Acc.totalIncome a, Acc.incomeCount a) ∧
    (Acc.totalPopulation a', Acc.populationCount a')
      = scan population_of fs (Acc.totalPopulation a, Acc.populationCount a) ∧
    (Acc.totalBikeCommute a', Acc.bikeCommuteCount a')
      = scan bikeCommute_of fs (Acc.totalBikeCommute a, Acc.bikeCommuteCount a) ∧
    (Acc.totalEducation a', Acc.educationCount a')
      = scan education_of fs (Acc.totalEducation a, Acc.educationCount a).
Proof.
  induction fs as [|f fs IH]; intros a; simpl.
  - done.
  - destruct (IH (accumulate a f)) as (H1 & H2 & H3 & H4).
    cbv zeta in *. rewrite H1, H2, H3, H4. unfold scan. simpl.
    repeat split; f_equal; unfold accumulate; simpl; symmetry; apply surjective_pairing.
Qed.

Lemma rounded_mean_contributing (vs : list (option Q)) :
  rounded_mean (fold_left add (contributing vs) 0) (0 + length (contributing vs))
  = mean_of_contributing vs.
Proof.
  unfold rounded_mean, mean_of_contributing, sum_of.
  destruct (contributing vs); reflexivity.
Qed.

Lemma contributing_skip (vs1 vs2 : list (option Q)) (v : option Q) :
  absent_or_zero v → contributing (vs1 ++ v :: vs2) = contributing (vs1 ++ vs2).
Proof.
  intros H. apply truthy_opt_false in H. unfold contributing.
  rewrite !omap_app. simpl. by rewrite H.
Qed.

Lemma column_app attr (fs1 fs2 : list Road.Feature) :
  column attr (fs1 ++ fs2) = column attr fs1 ++ column attr fs2.
Proof. unfold column. apply map_app. Qed.

Lemma jor_both_absent (x y : option Q) :
  absent_or_zero x → absent_or_zero y → absent_or_zero (x ||| y).
Proof. intros Hx Hy. by rewrite (jor_absent _ _ Hx). Qed.

Lemma census_averages (fs : list Road.Feature) :
  let s := computeStatistics fs in
  averageIncome s
    = mean_of_contributing
        (column (fun p => Road.MEDIAN_INCOME p ||| Road.median_incomeE p) fs) ∧
  averagePopulation s
    = mean_of_contributing
        (column (fun p => Road.POPULATION p ||| Road.populationE p) fs) ∧
  averageBikeCommute s
    = mean_of_contributing
        (column (fun p => Road.BIKE_COMMUTE p ||| Road.commute_bicycleE p) fs) ∧
  averageEducation s
    = mean_of_contributing
        (column (fun p => Road.EDUCATION p ||| Road.edu_bachelors_plusE p) fs).
Proof.
  destruct (accumulate_census fs Acc.init) as (H1 & H2 & H3 & H4).
  cbv zeta in *. rewrite scan_contributing in H1, H2, H3, H4.
  injection H1 as H1 H1'. injection H2 as H2 H2'.
  injection H3 as H3 H3'. injection H4 as H4 H4'.
  unfold computeStatistics. simpl.
  rewrite H1, H1', H2, H2', H3, H3', H4, H4'.
  repeat split; apply rounded_mean_contributing.
Qed.

Lemma calculateStatistics_statistics (σ : Store) (fs : list Road.Feature) :
  road_features σ = Some fs →
  calculateStatistics σ
  = (Returned tt,
     {| ds := set_statistics (computeStatistics fs) (ds σ);
        roads := roads σ; counters := counters σ; draws := draws σ |}).
Proof.
  unfold road_features, road_items, calculateStatistics. by intros ->.
Qed.

(** C8.  In the statistics computation averageIncome, averagePopulation,
    averageBikeCommute and averageEducation are the rounded means, in the
    arithmetic of the code, of the values that are present and truthy, the
    field being read under its two names ([MEDIAN_INCOME || median_incomeE],
    [POPULATION || populationE], [BIKE_COMMUTE || commute_bicycleE],
    [EDUCATION || edu_bachelors_plusE]), and 0 when there is no such value.
    A segment whose field is 0 or absent under both names contributes to
    neither the sum nor the denominator: the average over a collection that
    contains such a segment [f] equals the average over the collection
    without it. *)
Theorem averages_over_truthy_fields (σ : Store) (fs before after : list Road.Feature)
    (f : Road.Feature) :
  road_features σ = Some fs →
  let s := statistics (ds (calculateStatistics σ).2) in
  let props := Road.properties f in
  let without := computeStatistics (before ++ after) in
  let with_f := computeStatistics (before ++ f :: after) in
  (calculateStatistics σ).1 = Returned tt ∧
  (averageIncome s
     = mean_of_contributing
         (column (fun p => Road.MEDIAN_INCOME p ||| Road.median_incomeE p) fs) ∧
   averagePopulation s
     = mean_of_contributing
         (column (fun p => Road.POPULATION p ||| Road.populationE p) fs) ∧
   averageBikeCommute s
     = mean_of_contributing
         (column (fun p => Road.BIKE_COMMUTE p ||| Road.commute_bicycleE p) fs) ∧
   averageEducation s
     = mean_of_contributing
         (column (fun p => Road.EDUCATION p ||| Road.edu_bachelors_plusE p) fs)) ∧
  (absent_or_zero (Road.MEDIAN_INCOME props) → absent_or_zero (Road.median_incomeE props) →
     averageIncome with_f = averageIncome without) ∧
  (absent_or_zero (Road.POPULATION props) → absent_or_zero (Road.populationE props) →
     averagePopulation with_f = averagePopulation without) ∧
  (absent_or_zero (Road.BIKE_COMMUTE props) → absent_or_zero (Road.commute_bicycleE props) →
     averageBikeCommute with_f = averageBikeCommute without) ∧
  (absent_or_zero (Road.EDUCATION props) → absent_or_zero (Road.edu_bachelors_plusE props) →
     averageEducation with_f = averageEducation without).
Proof.
  intros Hfs. cbv zeta. rewrite (calculateStatistics_statistics σ fs Hfs).
  split; [reflexivity|]. split; [apply census_averages|].
  destruct (census_averages (before ++ f :: after)) as (H1 & H2 & H3 & H4).
  destruct (census_averages (before ++ after)) as (G1 & G2 & G3 & G4).
  cbv zeta in *. rewrite H1, H2, H3, H4, G1, G2, G3, G4.
  unfold mean_of_contributing. rewrite !column_app. simpl.
  repeat split; intros Hx Hy;
    by rewrite (contributing_skip _ _ _ (jor_both_absent _ _ Hx Hy)).
Qed.

(** C8 at a concrete input: a segment with income 0 between two segments
    with incomes 80000 and 40000. *)
Lemma averages_over_truthy_fields_sample :
  let fs :=
    [ segment (Some "A") None None None None (Some 80000);
      segment (Some "B") None None None None (Some 0);
      segment (Some "C") None None None None (Some 40000) ] in
  let σ := store_of_roads fs in
  let f := segment (Some "B") None None None None (Some 0) in
  let before := [segment (Some "A") None None None None (Some 80000)] in
  let after := [segment (Some "C") None None None None (Some 40000)] in
  let s := statistics (ds (calculateStatistics σ).2) in
  let props := Road.properties f in
  let without := computeStatistics (before ++ after) in
  let with_f := computeStatistics (before ++ f :: after) in
  (calculateStatistics σ).1 = Returned tt ∧
  (averageIncome s
     = mean_of_contributing
         (column (fun p => Road.MEDIAN_INCOME p ||| Road.median_incomeE p) fs) ∧
   averagePopulation s
     = mean_of_contributing
         (column (fun p => Road.POPULATION p ||| Road.populationE p) fs) ∧
   averageBikeCommute s
     = mean_of_contributing
         (column (fun p => Road.BIKE_COMMUTE p ||| Road.commute_bicycleE p) fs) ∧
   averageEducation s
     = mean_of_contributing
         (column (fun p => Road.EDUCATION p ||| Road.edu_bachelors_plusE p) fs)) ∧
  (absent_or_zero (Road.MEDIAN_INCOME props) → absent_or_zero (Road.median_incomeE props) →
     averageIncome with_f = averageIncome without) ∧
  (absent_or_zero (Road.POPULATION props) → absent_or_zero (Road.populationE props) →
     averagePopulation with_f = averagePopulation without) ∧
  (absent_or_zero (Road.BIKE_COMMUTE props) → absent_or_zero (Road.commute_bicycleE props) →
     averageBikeCommute with_f = averageBikeCommute without) ∧
  (absent_or_zero (Road.EDUCATION props) → absent_or_zero (Road.edu_bachelors_plusE props) →
     averageEducation with_f = averageEducation without).
Proof.
  apply (averages_over_truthy_fields
           (store_of_roads
              [ segment (Some "A") None None None None (Some 80000);
                segment (Some "B") None None None None (Some 0);
                segment (Some "C") None None None None (Some 40000) ])).
  reflexivity.
Defined.

(** A segment with income 0 between two segments with incomes 80000 and
    40000: the average is 60000, the mean of two values.  The mean is that
    of the sum as the code rounds it: 48.8, 11.8 and 57.9 average to 40. *)
Example average_income_skips_zero :
  averageIncome (computeStatistics
    [ segment (Some "A") None None None None (Some 80000);
      segment (Some "B") None None None None (Some 0);
      segment (Some "C") None None None None (Some 40000) ]) = 60000%Z
  ∧ averageIncome (computeStatistics
      [ segment (Some "A") None None None None (Some (double (488 # 10)));
        segment (Some "B") None None None None (Some (double (118 # 10)));
        segment (Some "C") None None None None (Some (double (579 # 10))) ]) = 40%Z.
Proof. vm_compute. split; reflexivity. Qed.

(** ** Aggregator: bike-lane coverage *)

Lemma has_bike_lane_facility (feature : Road.Feature) :
  has_bike_lane (Road.properties feature) = has_facility ["None"; "NA"] feature.
Proof.
  unfold has_bike_lane, has_facility, truthy, truthy_str. simpl.
  destruct (String.eqb _ ""), (String.eqb _ "None"), (String.eqb _ "NA"); reflexivity.
Qed.

(** The two length counters of [calculateStatistics] against the sums of the
    formula. *)
Lemma accumulate_lengths (fs : list Road.Feature) :
  ∀ a,
    let a' := fold_left accumulate fs a in
    Acc.totalRoadLength a'
      = fold_left add (contributing (column length_of fs)) (Acc.totalRoadLength a) ∧
    Acc.bikePathLength a'
      = fold_left add
          (contributing (column length_of (List.filter (has_facility ["None"; "NA"]) fs)))
          (Acc.bikePathLength a).
Proof.
  induction fs as [|f fs IH]; intros a; simpl.
  - done.
  - destruct (IH (accumulate a f)) as [Ht Hb]. cbv zeta in *.
    rewrite Ht, Hb. clear Ht Hb IH.
    rewrite <- has_bike_lane_facility.
    unfold accumulate. simpl. unfold length_of at 1 3. fold (segLength (Road.properties f)).
    destruct (truthy (segLength (Road.properties f))) eqn:T; simpl.
    + destruct (truthy_value _ T) as (v & Hv & ->).
      destruct (has_bike_lane (Road.properties f)); simpl;
        unfold length_of; fold (segLength (Road.properties f)); rewrite ?T, Hv; done.
    + destruct (has_bike_lane (Road.properties f)); simpl;
        unfold length_of; fold (segLength (Road.properties f)); rewrite ?T; done.
Qed.

(** C4, as amended.  The statistics computation sets bike-lane coverage to
    round((sum of the lengths of the segments whose bike-facility type is
    not in {None, NA, empty}) / (total segment length) * 100), computed in
    the arithmetic of the code (each sum, the quotient and the product
    rounded to a double, the sums taken in the order of the collection), and
    to 0 when the total segment length is 0.  The length of a segment is
    [SEG_LEN || segment_length] and counts when it is non-zero; the facility
    type is [BIKE_FT || bike_facility_type]. *)
Theorem coverage_is_rounded_share (σ : Store) (fs : list Road.Feature) :
  road_features σ = Some fs →
  bikeLaneCoverage (statistics (ds (calculateStatistics σ).2))
  = coverage_formula ["None"; "NA"] fs.
Proof.
  intros Hfs. rewrite (calculateStatistics_statistics σ fs Hfs). simpl.
  unfold coverage_formula, sum_of.
  destruct (accumulate_lengths fs Acc.init) as [Ht Hb]. cbv zeta in *.
  simpl in Ht, Hb. rewrite <- Ht, <- Hb.
  unfold truthy, truthy_num. by destruct (Qeq_bool _ 0).
Qed.

(** C4 at a concrete input: a lane of length 16.2 and a segment without
    facility of length 23.8 give a coverage of 41. *)
Lemma coverage_is_rounded_share_sample :
  let fs :=
    [ segment (Some "A") None None (Some (double (162 # 10))) (Some "Protected") None;
      segment (Some "B") None None (Some (double (238 # 10))) (Some "None") None ] in
  bikeLaneCoverage (statistics (ds (calculateStatistics (store_of_roads fs)).2))
  = coverage_formula ["None"; "NA"] fs
  ∧ coverage_formula ["None"; "NA"] fs = 41%Z.
Proof.
  split.
  - apply (coverage_is_rounded_share (store_of_roads _)). reflexivity.
  - vm_compute. reflexivity.
Defined.

(** C4, the statement as written fails: a single segment of length 1 whose
    facility type is "Unknown" counts as a bike lane (coverage 100), where
    the formula that excludes None, Unknown and empty gives 0. *)
Lemma coverage_counts_unknown_facility :
  let fs := [segment (Some "A") None None (Some 1) (Some "Unknown") None] in
  bikeLaneCoverage (statistics (ds (calculateStatistics (store_of_roads fs)).2)) = 100%Z ∧
  coverage_formula ["None"; "Unknown"] fs = 0%Z ∧
  bikeLaneCoverage (statistics (ds (calculateStatistics (store_of_roads fs)).2))
  ≠ coverage_formula ["None"; "Unknown"] fs.
Proof. vm_compute. repeat split; discriminate. Qed.

(** The default road collection: both facility types ("Protected" and
    "Unprotected") count, so the coverage is 100. *)
Example coverage_default_data :
  bikeLaneCoverage
    (statistics (ds (calculateStatistics (store_of_roads default_roads)).2)) = 100%Z.
Proof. vm_compute. reflexivity. Qed.

(** ** Filtered views: the stored collections are left alone *)

(** The copy is placed where the store holds nothing. *)
Lemma deep_copy_fresh {A} (h : gmap loc A) (x : A) :
  h !! (deep_copy h x).1 = None ∧
  (deep_copy h x).2 !! (deep_copy h x).1 = Some x ∧
  (∀ l, is_Some (h !! l) → (deep_copy h x).2 !! l = h !! l).
Proof.
  unfold deep_copy. simpl.
  assert (h !! fresh (dom h) = None) as Hf.
  { apply not_elem_of_dom. apply is_fresh. }
  repeat split; [exact Hf | apply lookup_insert_eq |].
  intros l [v Hv]. apply lookup_insert_ne. intros <-. congruence.
Qed.

(** Copying and then filtering the copy in place changes no object that
    was in the store; the object at the new location holds the filtered
    features. *)
Lemma copy_then_filter {F} (keep : F → Outcome bool) (h : gmap loc (Collection F))
    (data : Collection F) :
  let l := (deep_copy h data).1 in
  h !! l = None ∧
  match filter_in_place keep l (deep_copy h data).2 with
  | Returned h' =>
      (∀ l0, is_Some (h !! l0) → h' !! l0 = h !! l0) ∧
      ∃ fs kept, features data = Some fs ∧ filter_ keep fs = Returned kept ∧
                 h' !! l = Some {| features := Some kept |}
  | Thrown _ => True
  end.
Proof.
  destruct (deep_copy_fresh h data) as (Hf & Hl & Hold). cbv zeta.
  unfold deep_copy in *. simpl in *.
  split; [exact Hf|]. unfold filter_in_place. rewrite Hl. simpl.
  destruct (features data) as [fs|]; [|exact I].
  destruct (filter_ keep fs) as [kept|e] eqn:Hk; [|exact I]. split.
  - intros l0 Hl0. rewrite lookup_insert_ne; [by apply Hold|].
    intros <-. destruct Hl0 as [v Hv]. congruence.
  - exists fs, kept. split; [reflexivity|]. split; [exact Hk|]. apply lookup_insert_eq.
Qed.

(** A predicate that never throws filters as [List.filter] does. *)
Lemma filter_total {A} (keep : A → bool) (l : list A) :
  filter_ (fun a => Returned (keep a)) l = Returned (List.filter keep l).
Proof.
  induction l as [|a l IH]; simpl; [reflexivity|]. rewrite IH. by destruct (keep a).
Qed.

Lemma getFilteredRoadData_frame filters σ :
  road_view_ok filters σ (getFilteredRoadData filters σ).
Proof.
  unfold road_view_ok, getFilteredRoadData.
  destruct (road_object σ) as [data|] eqn:Hobj.
  - pose proof (copy_then_filter (keepRoadItem filters) (roads σ) data) as H.
    cbv zeta in H. destruct (deep_copy (roads σ) data) as [l h] eqn:Hc.
    simpl in H. destruct H as [Hf H].
    assert (∀ l0, is_Some (roads σ !! l0) → h !! l0 = roads σ !! l0) as Hh.
    { intros l0 Hl0. pose proof (deep_copy_fresh (roads σ) data) as (_ & _ & Hk).
      rewrite Hc in Hk. by apply Hk. }
    assert (∀ h' : gmap loc (Collection Road.Item),
              (∀ l0, is_Some (roads σ !! l0) → h' !! l0 = roads σ !! l0) →
              roadNetworkData (ds σ) ≫= (fun l => h' !! l) = Some data) as Hro.
    { intros h' Hh'. unfold road_object in Hobj.
      destruct (roadNetworkData (ds σ)) as [l0|]; [|discriminate]. simpl in *.
      rewrite Hh'; [exact Hobj | by rewrite Hobj]. }
    destruct (filter_in_place (keepRoadItem filters) l h) as [h'|e]; simpl.
    + destruct H as [Hold (fs & kept & Hfs & Hkept & Hnew)].
      repeat split; try done.
      * by apply Hro.
      * injection H as <-. exact Hf.
      * injection H as <-. eauto 8.
    + repeat split; try done. by apply Hro.
  - simpl. rewrite Hobj. repeat split; try done.
Qed.

Lemma getFilteredCounterData_frame filters σ :
  counter_view_ok filters σ (getFilteredCounterData filters σ).
Proof.
  unfold counter_view_ok, getFilteredCounterData.
  destruct (counter_object σ) as [data|] eqn:Hobj.
  - pose proof (copy_then_filter (fun f => Returned (keepCounter filters f))
                  (counters σ) data) as H.
    cbv zeta in H. destruct (deep_copy (counters σ) data) as [l h] eqn:Hc.
    simpl in H. destruct H as [Hf H].
    assert (∀ l0, is_Some (counters σ !! l0) → h !! l0 = counters σ !! l0) as Hh.
    { intros l0 Hl0. pose proof (deep_copy_fresh (counters σ) data) as (_ & _ & Hk).
      rewrite Hc in Hk. by apply Hk. }
    assert (∀ h' : gmap loc (Collection Counter.Feature),
              (∀ l0, is_Some (counters σ !! l0) → h' !! l0 = counters σ !! l0) →
              counterPointsData (ds σ) ≫= (fun l => h' !! l) = Some data) as Hco.
    { intros h' Hh'. unfold counter_object in Hobj.
      destruct (counterPointsData (ds σ)) as [l0|]; [|discriminate]. simpl in *.
      rewrite Hh'; [exact Hobj | by rewrite Hobj]. }
    destruct (filter_in_place _ l h) as [h'|e]; simpl.
    + destruct H as [Hold (fs & kept & Hfs & Hkept & Hnew)].
      rewrite filter_total in Hkept. injection Hkept as <-.
      repeat split; try done.
      * by apply Hco.
      * injection H as <-. exact Hf.
      * injection H as <-. eauto.
    + repeat split; try done. by apply Hco.
  - simpl. rewrite Hobj. repeat split; try done.
Qed.

(** C6.  For every filter argument, [getFilteredRoadData] and
    [getFilteredCounterData] leave the canonical stored collections (the
    loaded road network and counter points) unchanged: [dataState] and every
    object of the store are as before the call, also when the call throws,
    and the collection that is filtered and returned is a copy at a location
    of its own. *)
Theorem filtered_views_leave_store (filters : Filters) (σ : Store) :
  road_view_ok filters σ (getFilteredRoadData filters σ) ∧
  counter_view_ok filters σ (getFilteredCounterData filters σ).
Proof.
  split; [apply getFilteredRoadData_frame | apply getFilteredCounterData_frame].
Qed.

(** Filtering the sample store by neighborhood: the view is a new object
    with one feature, the stored collection still has its two features. *)
Example filtered_view_of_sample_store :
  let filters :=
    {| neighborhood := "Downtown"; counterType := "all";
       volumeFilter := VFStr "all"; viewType := None |} in
  let r := getFilteredRoadData filters sample_store in
  r.1 = Returned (Some 2%positive) ∧
  (roads r.2 !! 2%positive ≫= features)
    = Some (take 1 (default [] (features defaultRoadNetworkData))) ∧
  roads r.2 !! 1%positive = Some defaultRoadNetworkData.
Proof. vm_compute. repeat split. Qed.

(** ** CSV export *)

(** C3 on the code: [exportToCSV] returns the same text for every filter,
    also for two filters whose filtered views of the loaded data differ (the
    view by neighborhood "Downtown" of the sample store has one feature, the
    unfiltered view has two). *)
Theorem exportToCSV_ignores_filters :
  let unfiltered := combined_view in
  let downtown :=
    {| neighborhood := "Downtown"; counterType := "all";
       volumeFilter := VFStr "all"; viewType := Some "combined" |} in
  let view filters :=
    let r := getFilteredRoadData filters sample_store in
    match r.1 with
    | Returned (Some l) => roads r.2 !! l ≫= features
    | _ => None
    end in
  (∀ filters, exportToCSV filters = "Sample CSV data") ∧
  length <$> view unfiltered = Some 2%nat ∧
  length <$> view downtown = Some 1%nat ∧
  exportToCSV unfiltered = exportToCSV downtown.
Proof. repeat split. Qed.

(** ** Temporal lookup *)





Lemma loadTemporalPredictions_served rows env d :
  serving_temporal rows env →
  temporalPredictions (loadTemporalPredictions env d).2 = fold_left addTemporalRow rows ∅.
Proof.
  intros (response & Hf & Hok & Hb). unfold loadTemporalPredictions.
  rewrite Hf. simpl. unfold read_if_ok. rewrite Hok, Hb. reflexivity.
Qed.




(** The table loaded from two rows of segment 11001: the segment is found
    under its number and under its string, with the two hours filled in
    a series of 24 values; another key is not found. *)
Example temporal_lookup_sample :
  let d := (loadTemporalPredictions (temporal_only sample_temporal_rows) dataState0).2 in
  getTemporalPredictionsForSegment d (Text "99") = Obj.Missing ∧
  getTemporalPredictionsForSegment d (Number 11001)
    = getTemporalPredictionsForSegment d (Text "11001") ∧
  elements <$> (Obj.stored (getTemporalPredictionsForSegment d (Number 11001))
                  ≫= (fun days : DayTable => days !! "1"))
    = Some (replicate 8 (Some (Number 0)) ++ [Some (Number (25 # 2))]
            ++ replicate 8 (Some (Number 0))
            ++ [Some (Number 20)] ++ replicate 6 (Some (Number 0))).
Proof. vm_compute. repeat split. Qed.

(** ** Source loaders and initialisation *)



(** A [catch] whose handler returns a value resolves. *)
Lemma catch_resolves {A} (p : Promise A) (h : string → Promise A) :
  (∀ e, resolves (h e)) → resolves (catch_ p h).
Proof.
  intros H. destruct p as [a|e]; simpl; [by exists a | apply H].
Qed.

Lemma loadRoadNetworkData_resolves env : resolves (loadRoadNetworkData env).
Proof.
  unfold loadRoadNetworkData. apply catch_resolves. intros _.
  apply catch_resolves. intros _. by eexists.
Qed.

Lemma loadCounterPointsData_resolves env : resolves (loadCounterPointsData env).
Proof. unfold loadCounterPointsData. apply catch_resolves. intros _. by eexists. Qed.

Lemma loadNeighborhoodBoundaries_resolves env : resolves (loadNeighborhoodBoundaries env).
Proof. unfold loadNeighborhoodBoundaries. apply catch_resolves. intros _. by eexists. Qed.

Lemma loadCensusData_resolves env : resolves (loadCensusData env).
Proof. unfold loadCensusData. apply catch_resolves. intros _. by eexists. Qed.

Lemma loadPredictionsData_resolves env : resolves (loadPredictionsData env).
Proof. unfold loadPredictionsData. apply catch_resolves. intros _. by eexists. Qed.

Lemma loadTemporalPredictions_resolves env d :
  (loadTemporalPredictions env d).1 = Resolved tt.
Proof. unfold loadTemporalPredictions. by destruct (then_ _ _). Qed.











(** With every request rejected, initialisation resolves on the default
    datasets: two joined road segments and the statistics computed from
    them. *)
Example initData_offline :
  let r := initData offline store0 in
  resolves r.1 ∧
  isInitialized (ds r.2) = true ∧
  length <$> (road_object r.2 ≫= features) = Some 2%nat ∧
  neighborhoodsList (ds r.2) = ["Capitol Hill"; "Downtown"] ∧
  averageIncome (statistics (ds r.2)) = 85000%Z ∧
  bikeLaneCoverage (statistics (ds r.2)) = 100%Z.
Proof. vm_compute. repeat split. by eexists. Qed.
(** * Further properties of the data module and of its callers *)


(** ** Volume categories, legend colours and segment styles *)

Lemma ge_false (a b : Q) : ge a b = false ↔ a < b.
Proof.
  unfold ge. split.
  - intros H. apply Qnot_le_lt. intros L. apply Qle_bool_iff in L. congruence.
  - intros H. destruct (Qle_bool b a) eqn:E; [|reflexivity].
    apply Qle_bool_iff in E. lra.
Qed.

(** Case analysis on the threshold tests of a count. *)
Ltac thresholds count :=
  repeat match goal with
  | |- context [lt count ?k] => change (lt count k) with (negb (ge count k))
  end;
  repeat match goal with
  | |- context [ge count ?k] =>
      let E := fresh "E" in
      destruct (ge count k) eqn:E;
      [apply ge_spec in E | apply ge_false in E]
  end; simpl; try reflexivity; try lra.

Lemma in_volume_category (count : Q) (c : string) :
  c ∈ volume_categories →
  (isInVolumeCategory count c = true ↔ c = volume_category count).
Proof.
  unfold volume_categories. rewrite !elem_of_cons, elem_of_nil.
  intros [-> | [-> | [-> | [-> | [-> | []]]]]];
    unfold isInVolumeCategory, volume_category; simpl;
    thresholds count; split; (congruence || (intros; lra)).
Qed.

(** X1.  Every count falls in exactly one of the five named volume categories
    (the one [volume_category] computes), and a category name outside the
    five, such as "all", accepts every count. *)
Theorem volume_categories_partition (count : Q) :
  volume_category count ∈ volume_categories ∧
  (∀ c, c ∈ volume_categories →
     (isInVolumeCategory count c = true ↔ c = volume_category count)) ∧
  (∀ c, c ∉ volume_categories → isInVolumeCategory count c = true).
Proof.
  repeat split.
  - unfold volume_category, volume_categories. thresholds count;
      rewrite !elem_of_cons; tauto.
  - by apply in_volume_category.
  - by apply in_volume_category.
  - intros c Hc. unfold volume_categories in Hc.
    rewrite !elem_of_cons, elem_of_nil in Hc.
    unfold isInVolumeCategory.
    repeat match goal with
    | |- context [String.eqb c ?k] =>
        destruct (String.eqb_spec c k); [subst; tauto|]
    end. reflexivity.
Qed.

Lemma count_color_iff (count : Q) (c : string) :
  c ∈ volume_categories →
  (getCountColor count = category_color c ↔ isInVolumeCategory count c = true).
Proof.
  intros Hc. rewrite (in_volume_category count c Hc).
  unfold volume_categories in Hc. rewrite !elem_of_cons, elem_of_nil in Hc.
  destruct Hc as [-> | [-> | [-> | [-> | [-> | []]]]]];
    unfold getCountColor, volume_category; thresholds count;
    split; intros; (reflexivity || discriminate).
Qed.

(** X2.  The legend colour [getCountColor] gives a count is the colour of
    the volume category the count falls in: the colour is that of a named
    category exactly when [isInVolumeCategory] accepts the count for it. *)
Theorem count_color_matches_category (count : Q) (c : string) :
  getCountColor count = category_color (volume_category count) ∧
  (c ∈ volume_categories →
     (getCountColor count = category_color c ↔ isInVolumeCategory count c = true)).
Proof.
  split; [|apply count_color_iff].
  unfold getCountColor, volume_category. thresholds count.
Qed.

(** The count that picks the colour of a segment is the count of the
    combined view. *)
Lemma style_count_combined (feature : Road.Feature) (filters : Filters) :
  combined filters →
  color (getFeatureStyle feature filters)
  = getCountColor (getCountForFeature feature filters).
Proof.
  intros [Ho Hp]. unfold getFeatureStyle, getCountForFeature. rewrite Ho, Hp. simpl.
  f_equal. unfold jor.
  destruct (truthy (Road.OBSERVED_COUNT (Road.properties feature))) eqn:T; [|reflexivity].
  destruct (Road.OBSERVED_COUNT (Road.properties feature)) as [o|]; [|discriminate].
  simpl. unfold jor_lit. change (truthy (Some o)) with (truthy o) in T. by rewrite T.
Qed.

(** X3.  In the combined view the colour of a segment's style is the colour
    of the count the volume filter tests, so a segment kept by a selection of
    named categories is drawn in the colour of one of the selected
    categories. *)
Theorem kept_segments_have_category_color (feature : Road.Feature) (filters : Filters)
    (categories : list string) :
  combined filters →
  Forall (fun c => c ∈ volume_categories) categories →
  keepRoad (with_volume (VFArr categories) filters) feature = true →
  color (getFeatureStyle feature filters) ∈ map category_color categories.
Proof.
  intros Hv Hcs Hk. rewrite (style_count_combined _ _ Hv).
  unfold keepRoad in Hk. simpl in Hk.
  destruct (rejects _ _); [discriminate|].
  destruct (rejects _ _); [discriminate|].
  apply existsb_exists in Hk as (c & Hin & Hc).
  apply list_elem_of_In in Hin. rewrite Forall_forall in Hcs.
  change (getCountForFeature feature (with_volume (VFArr categories) filters))
    with (getCountForFeature feature filters) in Hc.
  apply (count_color_iff _ c) in Hc; [|by apply Hcs].
  rewrite Hc. apply list_elem_of_In, in_map, list_elem_of_In, Hin.
Qed.

Lemma kept_segments_have_category_color_sample :
  color (getFeatureStyle (segment (Some "A") (Some 85) None None None None) combined_view)
  ∈ map category_color ["high"; "low"].
Proof.
  apply (kept_segments_have_category_color
           (segment (Some "A") (Some 85) None None None None) combined_view
           ["high"; "low"]).
  - split; reflexivity.
  - repeat constructor.
  - reflexivity.
Defined.

(** The checked values, in document order. *)
Lemma checked_volumes (checkboxes : list (string * bool)) :
  ∀ acc,
    fold_left (fun (acc : list string) (checkbox : string * bool) =>
                 if checkbox.2 then acc ++ [checkbox.1] else acc) checkboxes acc
    = acc ++ map fst (List.filter snd checkboxes).
Proof.
  induction checkboxes as [|[v b] cs IH]; intros acc; simpl.
  - by rewrite app_nil_r.
  - rewrite IH. destruct b; simpl; [by rewrite <- app_assoc | reflexivity].
Qed.

(** X4.  [updateVolumeFilter] leaves the neighborhood and counter-type
    filters alone and never stores an empty array: with no box or with five
    boxes checked the volume filter is "all", otherwise it is the array of the
    checked values in document order. *)
Theorem updateVolumeFilter_selection (checkboxes : list (string * bool))
    (filters : Filters) :
  let checked := map fst (List.filter snd checkboxes) in
  let filters' := updateVolumeFilter checkboxes filters in
  neighborhood filters' = neighborhood filters ∧
  counterType filters' = counterType filters ∧
  volumeFilter filters' ≠ VFArr [] ∧
  (length checked = 0%nat ∨ length checked = 5%nat → volumeFilter filters' = VFStr "all") ∧
  (length checked ≠ 0%nat → length checked ≠ 5%nat → volumeFilter filters' = VFArr checked).
Proof.
  cbv zeta. unfold updateVolumeFilter. rewrite checked_volumes. simpl.
  set (checked := map fst (List.filter snd checkboxes)).
  repeat split.
  - destruct (Nat.eqb_spec (length checked) 0); [discriminate|].
    destruct (Nat.eqb_spec (length checked) 5); [discriminate|].
    intros [= H]. rewrite H in *. simpl in *. congruence.
  - intros [H | H]; rewrite H; reflexivity.
  - intros H0 H5.
    destruct (Nat.eqb_spec (length checked) 0); [contradiction|].
    destruct (Nat.eqb_spec (length checked) 5); [contradiction|]. reflexivity.
Qed.

(** X5.  A road segment passes an array volume filter exactly when it
    passes the single-category filter of one of the array's entries; with an
    empty array no segment passes. *)
Theorem volume_array_is_union (feature : Road.Feature) (filters : Filters)
    (categories : list string) :
  keepRoad (with_volume (VFArr categories) filters) feature
  = existsb (fun c => keepRoad (with_volume (VFStr c) filters) feature) categories
  ∧ keepRoad (with_volume (VFArr []) filters) feature = false.
Proof.
  split.
  - unfold keepRoad. simpl.
    change (getCountForFeature feature (with_volume (VFArr categories) filters))
      with (getCountForFeature feature filters).
    destruct (rejects _ _).
    { induction categories; simpl; [reflexivity | assumption]. }
    destruct (rejects _ _).
    { induction categories; simpl; [reflexivity | assumption]. }
    induction categories as [|c cs IH]; simpl; [reflexivity|].
    rewrite IH. f_equal.
    change (getCountForFeature feature (with_volume (VFStr c) filters))
      with (getCountForFeature feature filters).
    destruct (String.eqb_spec c "all") as [-> | _]; reflexivity.
  - unfold keepRoad. simpl. by repeat destruct (rejects _ _).
Qed.

(** ** Filtered views of the road network *)

(** The view handed out is determined by the stored collection: its
    features that pass the predicate, in their order. *)
Lemma road_view_spec (filters : Filters) (σ : Store) :
  road_view filters σ
  = road_object σ ≫= fun data =>
    features data ≫= fun fs =>
    match filter_ (keepRoadItem filters) fs with
    | Returned kept => Some {| features := Some kept |}
    | Thrown _ => None
    end.
Proof.
  unfold road_view, getFilteredRoadData.
  destruct (road_object σ) as [data|] eqn:Hobj; simpl; [|reflexivity].
  unfold deep_copy, filter_in_place. rewrite lookup_insert_eq. simpl.
  destruct (features data) as [fs|]; simpl; [|reflexivity].
  destruct (filter_ (keepRoadItem filters) fs); simpl; [|reflexivity].
  apply lookup_insert_eq.
Qed.

(** X6.  The collection [getFilteredRoadData] hands out for given filters is
    the same after any earlier call of [getFilteredRoadData] or
    [getFilteredCounterData], with the same or other filters: repeated
    filtering gives structurally identical results. *)
Theorem road_view_repeatable (filters earlier : Filters) (σ : Store) :
  road_view filters (getFilteredRoadData earlier σ).2 = road_view filters σ ∧
  road_view filters (getFilteredCounterData earlier σ).2 = road_view filters σ.
Proof.
  rewrite !road_view_spec.
  pose proof (getFilteredRoadData_frame earlier σ) as (_ & _ & _ & -> & _).
  pose proof (getFilteredCounterData_frame earlier σ) as (_ & _ & _ & -> & _).
  done.
Qed.

Lemma filter_all {A} (keep : A → Outcome bool) (l : list A) :
  (∀ x, keep x = Returned true) → filter_ keep l = Returned l.
Proof.
  intros H. induction l as [|x l IH]; simpl; [reflexivity|]. by rewrite H, IH.
Qed.

(** X7.  With the neighborhood, counter-type and volume filters all "all",
    [getFilteredRoadData] hands out a copy holding every stored feature, in
    order. *)
Theorem unfiltered_view_is_whole (filters : Filters) (σ : Store)
    (data : Collection Road.Item) (fs : list Road.Item) :
  neighborhood filters = "all" →
  counterType filters = "all" →
  volumeFilter filters = VFStr "all" →
  road_object σ = Some data →
  features data = Some fs →
  road_view filters σ = Some {| features := Some fs |}.
Proof.
  intros Hn Hc Hv Hobj Hfs. rewrite road_view_spec, Hobj. simpl. rewrite Hfs. simpl.
  rewrite filter_all; [reflexivity|].
  intros [f|g]; unfold keepRoadItem, reads_nothing, keepRoad, rejects;
    by rewrite Hn, Hc, Hv.
Qed.

Lemma unfiltered_view_is_whole_sample :
  road_view combined_view sample_store
  = Some {| features := Some (default [] (features defaultRoadNetworkData)) |}.
Proof.
  apply (unfiltered_view_is_whole combined_view sample_store defaultRoadNetworkData);
    reflexivity.
Defined.

(** What a filter keeps was there, and passed. *)
Lemma filter_kept {A} (keep : A → Outcome bool) (l kept : list A) (a : A) :
  filter_ keep l = Returned kept → a ∈ kept → a ∈ l ∧ keep a = Returned true.
Proof.
  revert kept. induction l as [|x l IH]; intros kept; simpl.
  - intros [= <-] H. by apply elem_of_nil in H.
  - destruct (keep x) as [b|e] eqn:Hx; [|discriminate].
    destruct (filter_ keep l) as [kept'|e]; [|discriminate].
    intros [= <-] Hin. destruct b.
    + apply elem_of_cons in Hin as [-> | Hin]; [split; [left | exact Hx]|].
      destruct (IH kept' eq_refl Hin). split; [by right | done].
    + destruct (IH kept' eq_refl Hin). split; [by right | done].
Qed.

(** X8.  Every feature of a filtered road view is a stored feature; with a
    neighborhood filter other than "all" its NEIGHBORHOOD is exactly the
    filter value, and with a counter-type filter other than "all" its
    COUNTER_TYPE is exactly the filter value (segments without the property
    are left out). *)
Theorem view_matches_filters (filters : Filters) (σ : Store)
    (view : Collection Road.Item) (fs : list Road.Item) (item : Road.Item) :
  road_view filters σ = Some view →
  features view = Some fs →
  item ∈ fs →
  item ∈ road_items σ ∧
  (neighborhood filters ≠ "all" →
     ∃ feature, item = WithProps feature ∧
       Road.NEIGHBORHOOD (Road.properties feature) = Some (neighborhood filters)) ∧
  (counterType filters ≠ "all" →
     ∃ feature, item = WithProps feature ∧
       Road.COUNTER_TYPE (Road.properties feature) = Some (counterType filters)).
Proof.
  rewrite road_view_spec. unfold road_items.
  destruct (road_object σ) as [data|]; simpl; [|discriminate].
  destruct (features data) as [fs0|]; simpl; [|discriminate].
  destruct (filter_ (keepRoadItem filters) fs0) as [kept|e] eqn:Hf; [|discriminate].
  intros [= <-]. simpl. intros [= <-] Hin.
  destruct (filter_kept _ _ _ _ Hf Hin) as [Hin0 Hk].
  split; [exact Hin0|].
  unfold keepRoadItem, reads_nothing, keepRoad, rejects in Hk.
  split; intros Hne.
  - destruct (String.eqb_spec (neighborhood filters) "all") as [|_]; [contradiction|].
    destruct item as [feature|g]; [|discriminate]. exists feature. split; [reflexivity|].
    simpl in Hk.
    destruct (Road.NEIGHBORHOOD (Road.properties feature)) as [nb|]; simpl in Hk; [|discriminate].
    destruct (String.eqb_spec nb (neighborhood filters)); [by subst | discriminate].
  - destruct (String.eqb_spec (counterType filters) "all") as [|_]; [contradiction|].
    destruct item as [feature|g];
      [|rewrite andb_false_r in Hk; simpl in Hk; discriminate].
    exists feature. split; [reflexivity|].
    destruct (negb (neighborhood filters =? "all")%string
              && negb match Road.NEIGHBORHOOD (Road.properties feature) with
                      | Some s => (s =? neighborhood filters)%string
                      | None => false
                      end); [discriminate|].
    simpl in Hk.
    destruct (Road.COUNTER_TYPE (Road.properties feature)) as [ct|]; simpl in Hk; [|discriminate].
    destruct (String.eqb_spec ct (counterType filters)); [by subst | discriminate].
Qed.

Lemma view_matches_filters_sample :
  let filters :=
    {| neighborhood := "Downtown"; counterType := "all";
       volumeFilter := VFStr "all"; viewType := None |} in
  let item := WithProps (default_road 0) in
  item ∈ road_items sample_store ∧
  (neighborhood filters ≠ "all" →
     ∃ feature, item = WithProps feature ∧
       Road.NEIGHBORHOOD (Road.properties feature) = Some (neighborhood filters)) ∧
  (counterType filters ≠ "all" →
     ∃ feature, item = WithProps feature ∧
       Road.COUNTER_TYPE (Road.properties feature) = Some (counterType filters)).
Proof.
  refine (view_matches_filters _ sample_store _ _ _ _ _ _).
  - vm_compute. reflexivity.
  - reflexivity.
  - simpl. apply list_elem_of_here.
Defined.

(** ** Lookup builders: the last record under a key wins *)

Lemma last_with_snoc {A} (key : A → option string) (k : string) (l : list A) (a : A) :
  last_with key k (l ++ [a])
  = if bool_decide (key a = Some k) then Some a else last_with key k l.
Proof. unfold last_with. by rewrite rev_unit. Qed.

(** The own properties and the installed prototype of a dictionary built
    record by record. *)
Lemma index_fold_props {A B} (key : A → option string) (val : A → B)
    (l : list A) (k : string) :
  let o := fold_left (index_step key val) l Obj.empty in
  Obj.props o !! k
  = (if String.eqb k "__proto__" then None else val <$> last_with key k l)
  ∧ Obj.proto o = val <$> last_with key "__proto__" l.
Proof.
  cbv zeta. induction l as [|a l [IH1 IH2]] using rev_ind.
  - simpl. rewrite lookup_empty. by destruct (String.eqb k "__proto__").
  - rewrite fold_left_app, !last_with_snoc. simpl. unfold index_step at 1 3.
    destruct (key a) as [k'|] eqn:Hk.
    + unfold Obj.set. destruct (String.eqb_spec k' "__proto__") as [-> | Hne]; simpl.
      * split; [|by rewrite ?bool_decide_eq_true_2].
        rewrite IH1. destruct (String.eqb_spec k "__proto__") as [|Hk']; [reflexivity|].
        rewrite bool_decide_eq_false_2; [reflexivity | congruence].
      * split.
        -- destruct (String.eqb_spec k "__proto__") as [Hk' | Hk'].
           ++ rewrite lookup_insert_ne by congruence. rewrite IH1. reflexivity.
           ++ case_bool_decide as Hd.
              ** injection Hd as ->. by rewrite lookup_insert_eq.
              ** rewrite lookup_insert_ne by congruence. rewrite IH1.
                 destruct (String.eqb_spec k "__proto__"); [contradiction | reflexivity].
        -- rewrite bool_decide_eq_false_2 by congruence. exact IH2.
    + rewrite !bool_decide_eq_false_2 by discriminate. by split.
Qed.

(** What a read of such a dictionary finds. *)
Lemma index_fold_get {A B} `{Obj.Fields B} (key : A → option string) (val : A → B)
    (l : list A) (k : string) :
  (∀ b, Obj.field b "__proto__" = None) →
  Obj.get (fold_left (index_step key val) l Obj.empty) k
  = match last_with key k l with
    | Some a => Obj.Own (val a)
    | None => unstored (val <$> last_with key "__proto__" l) k
    end.
Proof.
  intros Hfield. destruct (index_fold_props key val l k) as [Hp Hq]. cbv zeta in *.
  unfold Obj.get. rewrite Hp, Hq. unfold unstored.
  destruct (String.eqb_spec k "__proto__") as [-> | Hne].
  - destruct (last_with key "__proto__" l) as [a|]; simpl; [reflexivity|].
    reflexivity.
  - destruct (last_with key k l) as [a|]; reflexivity.
Qed.

Lemma fold_left_ext {A B} (f g : A → B → A) (l : list B) (a : A) :
  (∀ x y, f x y = g x y) → fold_left f l a = fold_left g l a.
Proof.
  intros Hfg. revert a. induction l as [|y l IH]; intros a; simpl; [reflexivity|].
  by rewrite Hfg, IH.
Qed.

Lemma last_with_Some {A} (key : A → option string) (k : string) (l : list A) (a : A) :
  last_with key k l = Some a → a ∈ l ∧ key a = Some k.
Proof.
  unfold last_with. intros H. apply find_some in H as [Hin Hd].
  apply bool_decide_eq_true in Hd. split; [|exact Hd].
  apply list_elem_of_In. by apply in_rev.
Qed.

Lemma last_with_None {A} (key : A → option string) (k : string) (l : list A) :
  last_with key k l = None ↔ ∀ a, a ∈ l → key a ≠ Some k.
Proof.
  unfold last_with. split.
  - intros H a Hin Hk. apply list_elem_of_In, in_rev in Hin.
    pose proof (find_none _ _ H a Hin) as Hd. simpl in Hd.
    apply bool_decide_eq_false in Hd. contradiction.
  - intros H. destruct (find _ _) as [a|] eqn:E; [|reflexivity].
    apply find_some in E as [Hin Hd]. apply bool_decide_eq_true in Hd.
    exfalso. eapply H; [|exact Hd]. apply list_elem_of_In. by apply in_rev.
Qed.

Lemma createPredictedLookup_get (predictedData : list Pred.Row) (k : string) :
  Obj.get (createPredictedLookup predictedData) k
  = match last_with row_key k predictedData with
    | Some item => Obj.Own (predicted_entry item)
    | None =>
        unstored (predicted_entry <$> last_with row_key "__proto__" predictedData) k
    end.
Proof.
  unfold createPredictedLookup.
  change (fold_left _ predictedData Obj.empty)
    with (fold_left (index_step row_key predicted_entry) predictedData Obj.empty).
  by apply index_fold_get.
Qed.

(** X9.  A read of the dictionary [createPredictedLookup] builds finds, for
    a key that some row carries (as the string of its truthy SUBBLOCKKEY), the
    entry built from the last such row, with values that do not parse replaced
    by 0; it finds a stored entry exactly when some row has the key.  For a
    key that no row carries it finds what a plain object holds under a name
    it does not store: a member inherited from [Object.prototype]
    ([constructor], [toString], ...), a property of the entry that a row keyed
    [__proto__] has installed as prototype, or else nothing. *)
Theorem predicted_lookup_last_wins (predictedData : list Pred.Row) (k : string) :
  Obj.get (createPredictedLookup predictedData) k
  = match last_with row_key k predictedData with
    | Some item => Obj.Own (predicted_entry item)
    | None =>
        unstored (predicted_entry <$> last_with row_key "__proto__" predictedData) k
    end
  ∧ (is_Some (Obj.stored (Obj.get (createPredictedLookup predictedData) k)) ↔
     ∃ item, item ∈ predictedData ∧ row_key item = Some k)
  ∧ ((∀ item, item ∈ predictedData → row_key item ≠ Some k) →
     (∀ item, item ∈ predictedData → row_key item ≠ Some "__proto__") →
     Obj.get (createPredictedLookup predictedData) k
     = if Obj.inherited k then Obj.Member k else Obj.Missing).
Proof.
  split; [apply createPredictedLookup_get|]. rewrite createPredictedLookup_get. split.
  - split.
    + intros [e He]. destruct (last_with row_key k _) as [item|] eqn:E.
      * exists item. by apply last_with_Some in E.
      * unfold unstored in He.
        destruct (_ ≫= _); [discriminate|]. by destruct (Obj.inherited k).
    + intros (item & Hin & Hk).
      destruct (last_with row_key k _) as [item'|] eqn:E; [by eexists|].
      exfalso. eapply last_with_None in E; [|exact Hin]. contradiction.
  - intros Hk Hp. apply last_with_None in Hk, Hp. by rewrite Hk, Hp.
Qed.

(** No counter is stored under [__proto__]: a key is no inherited name. *)
Lemma counter_index_key_own (feature : Counter.Feature) (k : string) :
  counter_index_key feature = Some k → Obj.inherited k = false.
Proof.
  unfold counter_index_key, key_of.
  destruct (Counter.SUBBLOCKKEY _) as [[n Hn]|]; simpl.
  - destruct (truthy n); [by intros [= <-]|].
    destruct (Counter.Site_Nm _) as [[n' Hn']|]; simpl; [|discriminate].
    destruct (truthy n'); [by intros [= <-] | discriminate].
  - destruct (Counter.Site_Nm _) as [[n' Hn']|]; simpl; [|discriminate].
    destruct (truthy n'); [by intros [= <-] | discriminate].
Qed.

Lemma createCounterLookup_get (counterData : Collection Counter.Feature)
    (fs : list Counter.Feature) (k : string) :
  features counterData = Some fs →
  Obj.get (createCounterLookup (Some counterData)) k
  = match last_with counter_index_key k fs with
    | Some counter => Obj.Own (counter_entry counter)
    | None => if Obj.inherited k then Obj.Member k else Obj.Missing
    end.
Proof.
  intros Hfs. unfold createCounterLookup. simpl. rewrite Hfs.
  rewrite (fold_left_ext _ (index_step counter_index_key counter_entry)).
  - rewrite index_fold_get by done.
    assert (last_with counter_index_key "__proto__" fs = None) as ->; [|done].
    apply last_with_None. intros f _ Hk. by apply counter_index_key_own in Hk.
  - intros m f. unfold index_step, counter_index_key, counter_entry.
    destruct (key_of (Obj.name <$> Counter.SUBBLOCKKEY _)); [reflexivity|].
    destruct (key_of (Obj.name <$> Counter.Site_Nm _)); reflexivity.
Qed.

(** X10.  [createCounterLookup] stores every counter under its segment
    key, or under its site name when it has no segment key; a read finds for
    a key the entry of the last counter stored under it, and when no counter
    is, the member every object inherits under that name ([constructor],
    [toString], ...), if any, and nothing otherwise. *)
Theorem counter_lookup_last_wins (counterData : Collection Counter.Feature)
    (fs : list Counter.Feature) (k : string) :
  features counterData = Some fs →
  Obj.get (createCounterLookup (Some counterData)) k
  = match last_with counter_index_key k fs with
    | Some counter => Obj.Own (counter_entry counter)
    | None => if Obj.inherited k then Obj.Member k else Obj.Missing
    end.
Proof. apply createCounterLookup_get. Qed.

Lemma counter_lookup_last_wins_default :
  Obj.get (createCounterLookup (Some defaultCounterData)) "sample_road_2"
  = match last_with counter_index_key "sample_road_2"
            (default [] (features defaultCounterData)) with
    | Some counter => Obj.Own (counter_entry counter)
    | None => if Obj.inherited "sample_road_2" then Obj.Member "sample_road_2"
              else Obj.Missing
    end.
Proof.
  apply (counter_lookup_last_wins defaultCounterData). reflexivity.
Defined.

(** A key that no counter carries and that names a built-in member: the
    read finds the member. *)
Example counter_lookup_inherited_name :
  Obj.get (createCounterLookup (Some defaultCounterData)) "constructor"
  = Obj.Member "constructor"
  ∧ Obj.get (createPredictedLookup defaultPredictionsData) "toString"
    = Obj.Member "toString"
  ∧ Obj.get (createPredictedLookup [prediction "__proto__" (Number 7)]) "predicted"
    = Obj.Field true.
Proof. vm_compute. repeat split. Qed.

(** X11.  A counter without segment key but with a site name is found in
    the counter lookup under its site name, with its count and type, provided
    no later counter is stored under the same name. *)
Theorem counter_lookup_site_name (counterData : Collection Counter.Feature)
    (before after : list Counter.Feature) (feature : Counter.Feature) (name : string) :
  features counterData = Some (before ++ feature :: after) →
  key_of (Obj.name <$> Counter.SUBBLOCKKEY (Counter.properties feature)) = None →
  key_of (Obj.name <$> Counter.Site_Nm (Counter.properties feature)) = Some name →
  (∀ f, f ∈ after → counter_index_key f ≠ Some name) →
  Obj.get (createCounterLookup (Some counterData)) name = Obj.Own (counter_entry feature).
Proof.
  intros Hfs Hk Hs Hafter.
  rewrite (createCounterLookup_get _ _ _ Hfs).
  assert (last_with counter_index_key name (before ++ feature :: after) = Some feature) as ->;
    [|reflexivity].
  unfold last_with. rewrite rev_app_distr. simpl. rewrite <- app_assoc. simpl.
  assert (find (fun a => bool_decide (counter_index_key a = Some name)) (rev after) = None) as Hn.
  { apply (last_with_None counter_index_key name after). exact Hafter. }
  induction (rev after) as [|x xs IH]; simpl in *.
  - rewrite bool_decide_eq_true_2; [reflexivity|].
    unfold counter_index_key. by rewrite Hk.
  - destruct (bool_decide _); [discriminate|]. by apply IH.
Qed.

Lemma counter_lookup_site_name_sample :
  Obj.get (createCounterLookup (Some {| features := Some sample_counters |})) "Counter 0"
  = Obj.Own (counter_entry unkeyed_counter).
Proof.
  refine (counter_lookup_site_name {| features := Some sample_counters |}
            [] (default [] (features defaultCounterData)) unkeyed_counter
            "Counter 0" _ _ _ _).
  - reflexivity.
  - reflexivity.
  - reflexivity.
  - intros f Hf. simpl in Hf.
    rewrite !elem_of_cons, elem_of_nil in Hf.
    destruct Hf as [-> | [-> | []]]; discriminate.
Defined.

(** ** Join engine: what the join keeps and what it attaches *)

Lemma joinFeature_unkeyed pl cl sl (feature : Road.Feature) :
  segment_key (Road.properties feature) = None → joinFeature pl cl sl feature = feature.
Proof. unfold segment_key, joinFeature. by intros ->. Qed.

Lemma joinFeature_keeps pl cl sl (feature : Road.Feature) :
  let joined := joinFeature pl cl sl feature in
  Road.geometry joined = Road.geometry feature ∧
  Road.SUBBLOCKKEY (Road.properties joined) = Road.SUBBLOCKKEY (Road.properties feature) ∧
  Road.SUBBLOK (Road.properties joined) = Road.SUBBLOK (Road.properties feature) ∧
  Road.NEIGHBORHOOD (Road.properties joined) = Road.NEIGHBORHOOD (Road.properties feature) ∧
  Road.BIKE_FT (Road.properties joined) = Road.BIKE_FT (Road.properties feature) ∧
  Road.SEG_LEN (Road.properties joined) = Road.SEG_LEN (Road.properties feature).
Proof.
  cbv zeta. unfold joinFeature.
  destruct (key_of _); simpl; repeat split.
Qed.

(** Whether it returns or throws, a loop leaves at every position the
    element that was there or its update. *)
Lemma forEach_pointwise {A} (body : A → Outcome A) (l : list A) :
  length (forEach body l).2 = length l ∧
  ∀ i a, l !! i = Some a →
    (forEach body l).2 !! i = Some a ∨
    ∃ a', body a = Returned a' ∧ (forEach body l).2 !! i = Some a'.
Proof.
  induction l as [|x l [IH1 IH2]]; simpl; [by split|].
  destruct (body x) as [x'|e] eqn:Hx; [|split; [reflexivity | by left]].
  destruct (forEach body l) as [o l']. simpl in *. split; [by rewrite IH1|].
  intros [|i] a Hi; simpl in *.
  - injection Hi as <-. right. eauto.
  - by apply IH2.
Qed.

(** X12.  The join keeps every feature at its position, with its geometry,
    key and neighborhood; a segment without a resolvable key is passed through
    unchanged, and so is a feature without properties.  This holds also when
    the join throws. *)
Theorem join_never_drops roadData counterData predictedData censusData
    (items : list Road.Item) :
  features roadData = Some items →
  ∃ items',
    features (processRoadNetworkData roadData counterData predictedData censusData).2
      = Some items' ∧
    length items' = length items ∧
    (∀ i feature, items !! i = Some (WithProps feature) →
      ∃ joined, items' !! i = Some (WithProps joined) ∧
        Road.geometry joined = Road.geometry feature ∧
        segment_key (Road.properties joined) = segment_key (Road.properties feature) ∧
        Road.NEIGHBORHOOD (Road.properties joined)
          = Road.NEIGHBORHOOD (Road.properties feature) ∧
        (segment_key (Road.properties feature) = None → joined = feature)) ∧
    (∀ i g, items !! i = Some (NoProps g) → items' !! i = Some (NoProps g)).
Proof.
  intros Hfs. unfold processRoadNetworkData. rewrite Hfs.
  destruct (createCensusLookup censusData) as [sl|e]; simpl.
  - destruct (forEach_pointwise
                (joinItem (createPredictedLookup predictedData)
                   (createCounterLookup counterData) sl) items) as [Hlen Hat].
    destruct (forEach _ items) as [o items']. simpl in *.
    exists items'. split; [reflexivity|]. split; [exact Hlen|]. split.
    + intros i feature Hi. destruct (Hat i _ Hi) as [H | (a' & Ha & H)].
      * exists feature. by repeat split.
      * simpl in Ha. injection Ha as <-. eexists. split; [exact H|].
        destruct (joinFeature_keeps (createPredictedLookup predictedData)
                    (createCounterLookup counterData) sl feature)
          as (Hg & Hk1 & Hk2 & Hn & _).
        cbv zeta in *. unfold segment_key. rewrite Hk1, Hk2.
        repeat split; try done. apply joinFeature_unkeyed.
    + intros i g Hi. destruct (Hat i _ Hi) as [H | (a' & Ha & H)]; [exact H|].
      discriminate.
  - exists items. rewrite Hfs. split; [reflexivity|]. split; [reflexivity|]. split.
    + intros i feature Hi. exists feature. by repeat split.
    + done.
Qed.

Lemma join_never_drops_default :
  ∃ items',
    features (processRoadNetworkData defaultRoadNetworkData (Some defaultCounterData)
                defaultPredictionsData (Some defaultCensusData)).2 = Some items' ∧
    length items' = length (default [] (features defaultRoadNetworkData)) ∧
    (∀ i feature,
      default [] (features defaultRoadNetworkData) !! i = Some (WithProps feature) →
      ∃ joined, items' !! i = Some (WithProps joined) ∧
        Road.geometry joined = Road.geometry feature ∧
        segment_key (Road.properties joined) = segment_key (Road.properties feature) ∧
        Road.NEIGHBORHOOD (Road.properties joined)
          = Road.NEIGHBORHOOD (Road.properties feature) ∧
        (segment_key (Road.properties feature) = None → joined = feature)) ∧
    (∀ i g, default [] (features defaultRoadNetworkData) !! i = Some (NoProps g) →
       items' !! i = Some (NoProps g)).
Proof.
  apply (join_never_drops defaultRoadNetworkData). reflexivity.
Defined.

(** A read that finds no stored entry yields none. *)
Lemma unstored_not_stored {V} `{Obj.Fields V} (installed : option V) (k : string) :
  Obj.stored (unstored installed k) = None.
Proof.
  unfold unstored. destruct (_ ≫= _); [reflexivity|]. by destruct (Obj.inherited k).
Qed.

(** X13.  After the join a keyed segment's predicted value is the one of
    the last prediction row carrying its key.  When no row carries the key,
    the value stays as in the source file (it is not set to 0) if the read of
    the lookup finds nothing; if the key names a member every object inherits
    ([constructor], [toString], ...), or a truthy property of an entry
    installed as prototype, the read finds that and the value is overwritten
    with [undefined]. *)
Theorem join_attaches_last_prediction roadData counterData predictedData censusData
    (items : list Road.Item) (i : nat) (feature : Road.Feature) (k : string) :
  features roadData = Some items →
  items !! i = Some (WithProps feature) →
  join_reaches censusData items i →
  segment_key (Road.properties feature) = Some k →
  ∃ joined,
    features (processRoadNetworkData roadData counterData predictedData censusData).2
      ≫= (fun fs' => fs' !! i) = Some (WithProps joined) ∧
    Road.predicted (Road.properties joined)
    = match last_with row_key k predictedData with
      | Some item => Some (Lookup.predicted (predicted_entry item))
      | None =>
          if truthy (unstored (predicted_entry <$>
                                 last_with row_key "__proto__" predictedData) k)
          then None
          else Road.predicted (Road.properties feature)
      end ∧
    ((∀ item, item ∈ predictedData →
        row_key item ≠ Some k ∧ row_key item ≠ Some "__proto__") →
     Road.predicted (Road.properties joined)
     = if Obj.inherited k then None else Road.predicted (Road.properties feature)).
Proof.
  intros Hfs Hi Hreach Hk.
  destruct (processRoadNetworkData_lookup roadData counterData predictedData censusData
              items i feature Hfs Hi Hreach) as (sl & _ & Hjoined).
  eexists. split; [exact Hjoined|].
  unfold joinFeature. unfold segment_key in Hk. rewrite Hk. simpl.
  rewrite createPredictedLookup_get. split.
  - destruct (last_with row_key k predictedData); [reflexivity|].
    rewrite unstored_not_stored. by destruct (truthy (unstored _ k)).
  - intros Hnone.
    assert (last_with row_key k predictedData = None) as ->.
    { apply last_with_None. intros item Hin. by apply Hnone. }
    assert (last_with row_key "__proto__" predictedData = None) as ->.
    { apply last_with_None. intros item Hin. by apply Hnone. }
    unfold unstored. simpl. by destruct (Obj.inherited k).
Qed.

Lemma join_attaches_last_prediction_default :
  ∃ joined,
    features (processRoadNetworkData defaultRoadNetworkData (Some defaultCounterData)
                defaultPredictionsData (Some defaultCensusData)).2
      ≫= (fun fs' => fs' !! 0%nat) = Some (WithProps joined) ∧
    Road.predicted (Road.properties joined)
    = match last_with row_key "sample_road_1" defaultPredictionsData with
      | Some item => Some (Lookup.predicted (predicted_entry item))
      | None =>
          if truthy (unstored (predicted_entry <$>
                                 last_with row_key "__proto__" defaultPredictionsData)
                       "sample_road_1")
          then None
          else Road.predicted (Road.properties (default_road 0))
      end ∧
    ((∀ item, item ∈ defaultPredictionsData →
        row_key item ≠ Some "sample_road_1" ∧ row_key item ≠ Some "__proto__") →
     Road.predicted (Road.properties joined)
     = if Obj.inherited "sample_road_1" then None
       else Road.predicted (Road.properties (default_road 0))).
Proof.
  refine (join_attaches_last_prediction defaultRoadNetworkData (Some defaultCounterData)
            defaultPredictionsData (Some defaultCensusData) _ 0
            (default_road 0) "sample_road_1" _ _ _ _).
  - reflexivity.
  - reflexivity.
  - split; [repeat constructor; eexists; reflexivity | constructor].
  - reflexivity.
Defined.

(** A segment whose key is [constructor] and whose source file gives a
    prediction of 12: no row carries the key, the read of the lookup finds
    the built-in function, and the prediction is overwritten with
    [undefined]. *)
Example join_overwrites_under_inherited_name :
  let roadData :=
    {| features :=
         Some [WithProps (segment (Some "constructor") (Some 30) (Some 12)
                            None None None)] |} in
  let out :=
    (processRoadNetworkData roadData (Some defaultCounterData)
       defaultPredictionsData None).2 in
  ∃ joined,
    features out = Some [WithProps joined] ∧
    Road.predicted (Road.properties joined) = None ∧
    Road.OBSERVED_COUNT (Road.properties joined) = None.
Proof. eexists. vm_compute. repeat split. Qed.

(** X14.  After the join a keyed segment's observed count and counter type
    are those of the last counter stored under the segment's key (by segment
    key or, for counters without one, by site name).  Without such a counter
    both stay as in the source file, unless the key names a member every
    object inherits: then both are overwritten with [undefined]. *)
Theorem join_attaches_last_counter roadData counterData predictedData censusData
    (items : list Road.Item) (cs : list Counter.Feature) (i : nat)
    (feature : Road.Feature) (k : string) :
  features roadData = Some items →
  features counterData = Some cs →
  items !! i = Some (WithProps feature) →
  join_reaches censusData items i →
  segment_key (Road.properties feature) = Some k →
  ∃ joined,
    features (processRoadNetworkData roadData (Some counterData) predictedData
                censusData).2
      ≫= (fun fs' => fs' !! i) = Some (WithProps joined) ∧
    match last_with counter_index_key k cs with
    | Some counter =>
        Road.OBSERVED_COUNT (Road.properties joined)
          = Some (Lookup.OBSERVED_COUNT (counter_entry counter)) ∧
        Road.COUNTER_TYPE (Road.properties joined)
          = Some (Lookup.COUNTER_TYPE (counter_entry counter))
    | None =>
        if Obj.inherited k then
          Road.OBSERVED_COUNT (Road.properties joined) = None ∧
          Road.COUNTER_TYPE (Road.properties joined) = None
        else
          Road.OBSERVED_COUNT (Road.properties joined)
            = Road.OBSERVED_COUNT (Road.properties feature) ∧
          Road.COUNTER_TYPE (Road.properties joined)
            = Road.COUNTER_TYPE (Road.properties feature)
    end.
Proof.
  intros Hfs Hcs Hi Hreach Hk.
  destruct (processRoadNetworkData_lookup roadData (Some counterData) predictedData
              censusData items i feature Hfs Hi Hreach) as (sl & _ & Hjoined).
  eexists. split; [exact Hjoined|].
  unfold joinFeature. unfold segment_key in Hk. rewrite Hk. simpl.
  rewrite (createCounterLookup_get _ _ _ Hcs).
  destruct (last_with _ _ _); [done|]. by destruct (Obj.inherited k).
Qed.

Lemma join_attaches_last_counter_default :
  ∃ joined,
    features (processRoadNetworkData defaultRoadNetworkData (Some defaultCounterData)
                defaultPredictionsData (Some defaultCensusData)).2
      ≫= (fun fs' => fs' !! 1%nat) = Some (WithProps joined) ∧
    match last_with counter_index_key "sample_road_2"
            (default [] (features defaultCounterData)) with
    | Some counter =>
        Road.OBSERVED_COUNT (Road.properties joined)
          = Some (Lookup.OBSERVED_COUNT (counter_entry counter)) ∧
        Road.COUNTER_TYPE (Road.properties joined)
          = Some (Lookup.COUNTER_TYPE (counter_entry counter))
    | None =>
        if Obj.inherited "sample_road_2" then
          Road.OBSERVED_COUNT (Road.properties joined) = None ∧
          Road.COUNTER_TYPE (Road.properties joined) = None
        else
          Road.OBSERVED_COUNT (Road.properties joined)
            = Road.OBSERVED_COUNT (Road.properties (default_road 1)) ∧
          Road.COUNTER_TYPE (Road.properties joined)
            = Road.COUNTER_TYPE (Road.properties (default_road 1))
    end.
Proof.
  refine (join_attaches_last_counter defaultRoadNetworkData defaultCounterData
            defaultPredictionsData (Some defaultCensusData) _
            (default [] (features defaultCounterData)) 1 (default_road 1)
            "sample_road_2" _ _ _ _ _).
  - reflexivity.
  - reflexivity.
  - reflexivity.
  - split; repeat constructor; eexists; reflexivity.
  - reflexivity.
Defined.

Lemma half_lt (n : nat) : (0 < n → Nat.div n 2 < n)%nat.
Proof. intros H. apply Nat.div_lt; lia. Qed.

(** The point picked for each kind of geometry with an array of
    coordinates. *)
Lemma midPoint_cases (type : string) (elements : list Coord) :
  (type = "LineString" →
     midPoint type (CArr elements) = Returned (elements !! Nat.div (length elements) 2) ∧
     (elements ≠ [] → is_Some (elements !! Nat.div (length elements) 2))) ∧
  (type = "MultiLineString" →
     (∀ line, elements !! Nat.div (length elements) 2 = Some (CArr line) →
        midPoint type (CArr elements) = Returned (line !! Nat.div (length line) 2)) ∧
     (elements = [] → midPoint type (CArr elements) = Thrown "TypeError")) ∧
  (type ≠ "LineString" → type ≠ "MultiLineString" →
     midPoint type (CArr elements) = Returned (elements !! 0%nat)).
Proof.
  unfold midPoint. split; [|split].
  - intros ->. split; [reflexivity|].
    intros Hne. apply lookup_lt_is_Some, half_lt. destruct elements; [done | simpl; lia].
  - intros ->. split.
    + intros line Hl. cbn [String.eqb Ascii.eqb Bool.eqb mid_index at_ mbind option_bind].
      by rewrite Hl.
    + by intros ->.
  - intros H1 H2.
    destruct (String.eqb_spec type "LineString"); [contradiction|].
    destruct (String.eqb_spec type "MultiLineString"); [contradiction|]. reflexivity.
Qed.

(** X15.  The join sets lat and lng of a keyed segment from the
    representative point of its geometry, to the second and first element of
    that point: for a LineString the middle element of the coordinates
    (a non-empty array always has one), for a MultiLineString the middle
    element of the middle line, and for every other geometry type (Point,
    Polygon, ...) the first element of the coordinates.  Where the geometry
    or the coordinates are missing, the point is missing or falsy, or picking
    it throws (a MultiLineString without lines), lat and lng stay as they
    were. *)
Theorem join_representative_point roadData counterData predictedData censusData
    (items : list Road.Item) (i : nat) (feature : Road.Feature) (k : string) :
  features roadData = Some items →
  items !! i = Some (WithProps feature) →
  join_reaches censusData items i →
  segment_key (Road.properties feature) = Some k →
  ∃ joined,
    features (processRoadNetworkData roadData counterData predictedData censusData).2
      ≫= (fun fs' => fs' !! i) = Some (WithProps joined) ∧
    match representative (Road.geometry feature) with
    | Some m =>
        Road.lat (Road.properties joined) = at_ m 1 ∧
        Road.lng (Road.properties joined) = at_ m 0
    | None =>
        Road.lat (Road.properties joined) = Road.lat (Road.properties feature) ∧
        Road.lng (Road.properties joined) = Road.lng (Road.properties feature)
    end ∧
    (Road.geometry feature = None → representative (Road.geometry feature) = None) ∧
    (∀ g, Road.geometry feature = Some g → Road.coordinates g = None →
       representative (Road.geometry feature) = None) ∧
    (∀ g elements,
       Road.geometry feature = Some g →
       Road.coordinates g = Some (CArr elements) →
       representative (Road.geometry feature)
       = match midPoint (Road.type g) (CArr elements) with
         | Returned (Some m) => if truthy m then Some m else None
         | _ => None
         end ∧
       (Road.type g = "LineString" →
          midPoint (Road.type g) (CArr elements)
          = Returned (elements !! Nat.div (length elements) 2) ∧
          (elements ≠ [] → is_Some (elements !! Nat.div (length elements) 2))) ∧
       (Road.type g = "MultiLineString" →
          (∀ line, elements !! Nat.div (length elements) 2 = Some (CArr line) →
             midPoint (Road.type g) (CArr elements)
             = Returned (line !! Nat.div (length line) 2)) ∧
          (elements = [] → midPoint (Road.type g) (CArr elements) = Thrown "TypeError")) ∧
       (Road.type g ≠ "LineString" → Road.type g ≠ "MultiLineString" →
          midPoint (Road.type g) (CArr elements) = Returned (elements !! 0%nat))).
Proof.
  intros Hfs Hi Hreach Hk.
  destruct (processRoadNetworkData_lookup roadData counterData predictedData censusData
              items i feature Hfs Hi Hreach) as (sl & _ & Hjoined).
  eexists. split; [exact Hjoined|].
  unfold joinFeature. unfold segment_key in Hk. rewrite Hk. simpl. split.
  - by destruct (representative (Road.geometry feature)).
  - split; [by intros ->|]. split.
    + intros g -> Hc. simpl. by rewrite Hc.
    + intros g elements -> Hc. split; [simpl; by rewrite Hc|]. apply midPoint_cases.
Qed.

Lemma join_representative_point_default :
  ∃ joined,
    features (processRoadNetworkData defaultRoadNetworkData (Some defaultCounterData)
                defaultPredictionsData (Some defaultCensusData)).2
      ≫= (fun fs' => fs' !! 0%nat) = Some (WithProps joined) ∧
    match representative (Road.geometry (default_road 0)) with
    | Some m =>
        Road.lat (Road.properties joined) = at_ m 1 ∧
        Road.lng (Road.properties joined) = at_ m 0
    | None =>
        Road.lat (Road.properties joined) = Road.lat (Road.properties (default_road 0)) ∧
        Road.lng (Road.properties joined) = Road.lng (Road.properties (default_road 0))
    end ∧
    (Road.geometry (default_road 0) = None →
       representative (Road.geometry (default_road 0)) = None) ∧
    (∀ g, Road.geometry (default_road 0) = Some g → Road.coordinates g = None →
       representative (Road.geometry (default_road 0)) = None) ∧
    (∀ g elements,
       Road.geometry (default_road 0) = Some g →
       Road.coordinates g = Some (CArr elements) →
       representative (Road.geometry (default_road 0))
       = match midPoint (Road.type g) (CArr elements) with
         | Returned (Some m) => if truthy m then Some m else None
         | _ => None
         end ∧
       (Road.type g = "LineString" →
          midPoint (Road.type g) (CArr elements)
          = Returned (elements !! Nat.div (length elements) 2) ∧
          (elements ≠ [] → is_Some (elements !! Nat.div (length elements) 2))) ∧
       (Road.type g = "MultiLineString" →
          (∀ line, elements !! Nat.div (length elements) 2 = Some (CArr line) →
             midPoint (Road.type g) (CArr elements)
             = Returned (line !! Nat.div (length line) 2)) ∧
          (elements = [] → midPoint (Road.type g) (CArr elements) = Thrown "TypeError")) ∧
       (Road.type g ≠ "LineString" → Road.type g ≠ "MultiLineString" →
          midPoint (Road.type g) (CArr elements) = Returned (elements !! 0%nat))).
Proof.
  refine (join_representative_point defaultRoadNetworkData (Some defaultCounterData)
            defaultPredictionsData (Some defaultCensusData) _ 0
            (default_road 0) "sample_road_1" _ _ _ _).
  - reflexivity.
  - reflexivity.
  - split; [repeat constructor; eexists; reflexivity | constructor].
  - reflexivity.
Defined.

(** A point and a polygon take the first element of their coordinates: the
    point gets its two numbers' elements (none: a number has no elements),
    the polygon the first two vertices of its outer ring. *)
Example representative_of_other_geometries :
  let ring := CArr [position 1 2; position 3 4; position 5 6; position 1 2] in
  representative (Some {| Road.type := "Polygon"; Road.coordinates := Some (CArr [ring]) |})
    = Some ring
  ∧ representative (Some {| Road.type := "Point";
                            Road.coordinates := Some (position 7 8) |})
    = Some (CNum 7)
  ∧ representative (Some {| Road.type := "LineString";
                            Road.coordinates :=
                              Some (CArr [position 1 2; position 3 4; position 5 6]) |})
    = Some (position 3 4).
Proof. vm_compute. repeat split. Qed.

(** ** Join engine: joining twice *)

Lemma jor_lit_settled (a b : option Q) :
  a ||| Some (a ||| b ||: 0) ||: 0 = a ||| b ||: 0.
Proof.
  unfold jor. destruct (truthy a) eqn:Ta; [reflexivity|].
  unfold jor_lit at 1. destruct (truthy (b ||: 0)) eqn:Tb; [reflexivity|].
  unfold jor_lit in *. destruct b as [q|]; [|reflexivity].
  destruct (truthy q) eqn:Tq; [congruence | reflexivity].
Qed.

Lemma joinFeature_idempotent pl cl sl (feature : Road.Feature) :
  joinFeature pl cl sl (joinFeature pl cl sl feature) = joinFeature pl cl sl feature.
Proof.
  destruct (segment_key (Road.properties feature)) as [k|] eqn:Hk.
  2:{ by rewrite !(joinFeature_unkeyed _ _ _ _ Hk). }
  unfold segment_key in Hk.
  unfold joinFeature at 1.
  assert (key_of (Road.SUBBLOCKKEY (Road.properties (joinFeature pl cl sl feature))
                  ||| Road.SUBBLOK (Road.properties (joinFeature pl cl sl feature)))
          = Some k) as ->.
  { destruct (joinFeature_keeps pl cl sl feature) as (_ & -> & -> & _). exact Hk. }
  unfold joinFeature. rewrite Hk.
  cbn [Road.properties Road.geometry Road.SUBBLOCKKEY Road.SUBBLOK Road.NEIGHBORHOOD
       Road.BIKE_FT Road.bike_facility_type Road.SEG_LEN Road.segment_length
       Road.degree_max Road.betweenness_max Road.closeness_max Road.populationE
       Road.median_incomeE Road.commute_bicycleE Road.edu_bachelors_plusE
       Road.rent_percentE Road.median_ageE Road.predicted Road.predicted_alt
       Road.OBSERVED_COUNT Road.COUNTER_TYPE Road.GEOID Road.POPULATION
       Road.MEDIAN_INCOME Road.COMMUTE_TIME Road.BIKE_COMMUTE Road.EDUCATION
       Road.WHITE_PERCENTAGE Road.RENT_PRICE Road.MEDIAN_AGE Road.DEGREE Road.BETWEEN
       Road.CLOSENESS Road.residual Road.percent_error Road.traffic_level Road.lat
       Road.lng].
  generalize (Obj.get pl k) as p, (Obj.get cl k) as c,
    (Obj.stored (Obj.get sl k)) as s, (representative (Road.geometry feature)) as mid.
  intros p c s mid.
  destruct (truthy p), (truthy c), s as [se|], mid as [m|];
    cbn [from_option compose fst snd];
    rewrite ?jor_lit_settled;
    repeat match goal with
    | |- context [match ?x with Some _ => _ | None => _ end] =>
        destruct x eqn:?; cbn [fst snd]
    | |- context [if ?b then _ else _] => destruct b eqn:?; cbn [fst snd]
    end; reflexivity.
Qed.

Lemma forEach_again {A} (body : A → Outcome A) (l : list A) :
  (∀ a a', body a = Returned a' → body a' = Returned a') →
  forEach body (forEach body l).2 = forEach body l.
Proof.
  intros Hb. induction l as [|x l IH]; simpl; [reflexivity|].
  destruct (body x) as [x'|e] eqn:Hx.
  - destruct (forEach body l) as [o l'] eqn:Hl. simpl in *.
    rewrite (Hb _ _ Hx), IH. reflexivity.
  - simpl. by rewrite Hx.
Qed.

(** X16.  Joining a road collection a second time with the same counters,
    predictions and census data changes nothing, and ends as the first join
    did. *)
Theorem join_idempotent roadData counterData predictedData censusData :
  let once := processRoadNetworkData roadData counterData predictedData censusData in
  processRoadNetworkData once.2 counterData predictedData censusData = once.
Proof.
  cbv zeta. unfold processRoadNetworkData.
  destruct (features roadData) as [fs|] eqn:Hfs; simpl; [|by rewrite Hfs].
  destruct (createCensusLookup censusData) as [sl|e]; simpl; [|by rewrite Hfs].
  pose proof (forEach_again
    (joinItem (createPredictedLookup predictedData) (createCounterLookup counterData) sl)
    fs) as H.
  destruct (forEach _ fs) as [o fs'] eqn:Hf. simpl in *. rewrite H; [reflexivity|].
  intros [f|g] a' Ha; [|discriminate]. injection Ha as <-.
  unfold joinItem. by rewrite joinFeature_idempotent.
Qed.

(** ** Counter update: running it again *)

Lemma matched_count_set obs (a b : option Q) (props : Counter.Props) :
  matched_count obs (Counter.set_OBSERVED_COUNT a (Counter.set_COUNT b props))
  = matched_count obs props.
Proof. reflexivity. Qed.

(** The value both count properties hold after the update. *)
Lemma updateCounterFeature_value obs rand n (feature : Counter.Feature) :
  let props := Counter.properties feature in
  let v :=
    if truthy (matched_count obs props) then matched_count obs props
    else if truthy (Counter.COUNT props) then Counter.COUNT props
    else Some (filler (rand n)) in
  (updateCounterFeature obs rand n feature).1
  = Counter.with_props feature
      (Counter.set_OBSERVED_COUNT v (Counter.set_COUNT v props)).
Proof.
  cbv zeta. unfold updateCounterFeature.
  destruct (truthy (matched_count obs _)); [reflexivity|].
  destruct (truthy (Counter.COUNT _)); reflexivity.
Qed.

Lemma updateCounterFeature_settled obs rand n m (feature : Counter.Feature) :
  unit_draws rand →
  let updated := (updateCounterFeature obs rand n feature).1 in
  updateCounterFeature obs rand m updated = (updated, m).
Proof.
  intros Hr. cbv zeta. rewrite updateCounterFeature_value.
  set (props := Counter.properties feature).
  unfold updateCounterFeature.
  cbn [Counter.properties Counter.with_props]. rewrite matched_count_set.
  destruct (truthy (matched_count obs props)) eqn:Hm; [reflexivity|].
  cbn [Counter.COUNT Counter.set_OBSERVED_COUNT Counter.set_COUNT].
  destruct (truthy (Counter.COUNT props)) eqn:Hc.
  - rewrite Hc. reflexivity.
  - assert (truthy (Some (filler (rand n))) = true) as ->; [|reflexivity].
    apply truthy_opt_spec. exists (filler (rand n)). split; [reflexivity|].
    destruct (filler_range (rand n)) as (z & Hz & E); [apply Hr..|].
    eapply integer_nonzero; eassumption.
Qed.

Lemma updateCounterFeatures_settled obs rand (fs : list Counter.Feature) :
  unit_draws rand →
  ∀ n m,
    updateCounterFeatures obs rand m (updateCounterFeatures obs rand n fs).1
    = ((updateCounterFeatures obs rand n fs).1, m).
Proof.
  intros Hr. induction fs as [|f fs IH]; intros n m; simpl; [reflexivity|].
  pose proof (updateCounterFeature_settled obs rand n m f Hr) as Hf. cbv zeta in Hf.
  destruct (updateCounterFeature obs rand n f) as [f' n'].
  specialize (IH n' m).
  destruct (updateCounterFeatures obs rand n' fs) as [fs' n''].
  simpl in *. by rewrite Hf, IH.
Qed.

(** X17.  Running the counter update a second time leaves every counter
    as the first run left it and draws no random number (for draws of
    [Math.random] that are doubles in the interval from 0 to 1). *)
Theorem counter_update_idempotent (predictionsData : list Pred.Row) (rand : nat → Q)
    (n m : nat) (counterPointsData : Collection Counter.Feature) :
  unit_draws rand →
  let once := (updateCounterPointsWithObservedData predictionsData rand n counterPointsData).1 in
  updateCounterPointsWithObservedData predictionsData rand m once = (once, m).
Proof.
  intros Hr. cbv zeta. unfold updateCounterPointsWithObservedData.
  destruct (features counterPointsData) as [fs|] eqn:Hfs; simpl.
  - pose proof (updateCounterFeatures_settled (observedCountMap predictionsData) rand fs Hr n m) as H.
    destruct (updateCounterFeatures _ rand n fs) as [fs' n']. simpl in *.
    by rewrite H.
  - by rewrite Hfs.
Qed.

Lemma counter_update_idempotent_sample :
  let once := (updateCounterPointsWithObservedData defaultPredictionsData
                 (fun _ => 1 # 2) 0 {| features := Some sample_counters |}).1 in
  updateCounterPointsWithObservedData defaultPredictionsData (fun _ => 1 # 2) 1 once
  = (once, 1%nat).
Proof.
  apply (counter_update_idempotent defaultPredictionsData (fun _ => 1 # 2) 0 1).
  intros i. split; [vm_compute; reflexivity | split; [discriminate | reflexivity]].
Defined.

(** ** Aggregator: totals, average prediction and model accuracy *)

Lemma tally_default (x : option Q) (acc : Q * nat) :
  tally (truthy x) (default 0 x) acc = tally (truthy x) (x ||: 0) acc.
Proof.
  unfold tally. destruct (truthy x) eqn:T; [|reflexivity].
  destruct (truthy_value _ T) as (v & -> & ->). reflexivity.
Qed.

Lemma accumulate_counts (fs : list Road.Feature) :
  ∀ a,
    let a' := fold_left accumulate fs a in
    (Acc.observedTotal a', Acc.observedSegments a')
      = scan Road.OBSERVED_COUNT fs (Acc.observedTotal a, Acc.observedSegments a) ∧
    (Acc.estimatedTotal a', Acc.estimatedCount a')
      = scan Road.predicted fs (Acc.estimatedTotal a, Acc.estimatedCount a).
Proof.
  induction fs as [|f fs IH]; intros a; simpl; [done|].
  destruct (IH (accumulate a f)) as (H1 & H2).
  cbv zeta in *. rewrite H1, H2. unfold scan. simpl.
  rewrite <- !tally_default.
  split; f_equal; unfold accumulate; simpl; symmetry; apply surjective_pairing.
Qed.

(** X18.  totalObserved and totalEstimated are the sums, in the order of
    the collection and in the arithmetic of the code, of the observed counts
    and predictions that are present and non-zero, observedSegments is the
    number of such observed counts, and averagePredicted is the mean of such
    predictions, 0 when there is none. *)
Theorem totals_over_truthy_counts (σ : Store) (fs : list Road.Feature) :
  road_features σ = Some fs →
  let s := statistics (ds (calculateStatistics σ).2) in
  let observed := contributing (column Road.OBSERVED_COUNT fs) in
  let predicted := contributing (column Road.predicted fs) in
  totalObserved s = sum_of observed ∧
  observedSegments s = Some (length observed) ∧
  totalEstimated s = sum_of predicted ∧
  averagePredicted s
  = match predicted with
    | [] => 0
    | _ :: _ => sum_of predicted ⊘ of_count (length predicted)
    end.
Proof.
  intros Hfs. cbv zeta. rewrite (calculateStatistics_statistics σ fs Hfs). simpl.
  destruct (accumulate_counts fs Acc.init) as (H1 & H2). cbv zeta in *.
  rewrite scan_contributing in H1, H2. simpl in H1, H2.
  injection H1 as H1 H1'. injection H2 as H2 H2'.
  unfold computeStatistics. simpl. rewrite H1, H1', H2, H2'.
  repeat split. unfold sum_of. by destruct (contributing (column Road.predicted fs)).
Qed.

Lemma totals_over_truthy_counts_sample :
  let fs := default_roads in
  let s := statistics (ds (calculateStatistics (store_of_roads default_roads)).2) in
  let observed := contributing (column Road.OBSERVED_COUNT fs) in
  let predicted := contributing (column Road.predicted fs) in
  totalObserved s = sum_of observed ∧
  observedSegments s = Some (length observed) ∧
  totalEstimated s = sum_of predicted ∧
  averagePredicted s
  = match predicted with
    | [] => 0
    | _ :: _ => sum_of predicted ⊘ of_count (length predicted)
    end.
Proof.
  apply (totals_over_truthy_counts (store_of_roads default_roads)). reflexivity.
Defined.

(** The error sum is not negative when no observed count is. *)
Lemma accumulate_error_nonneg (fs : list Road.Feature) :
  Forall (fun f => ∀ o, Road.OBSERVED_COUNT (Road.properties f) = Some o → 0 <= o) fs →
  ∀ acc : Q * nat, 0 <= acc.1 → 0 <= (fold_left accumulate_error fs acc).1.
Proof.
  induction 1 as [|f fs Hf _ IH]; intros acc Hacc; simpl; [exact Hacc|].
  apply IH. unfold accumulate_error.
  destruct (Road.OBSERVED_COUNT (Road.properties f)) as [o|]; [|exact Hacc].
  destruct (Road.predicted (Road.properties f)) as [p|]; [|exact Hacc].
  unfold tally. destruct (truthy o) eqn:To; cbn [andb]; [|exact Hacc].
  destruct (truthy p); cbn [andb fst snd]; [|exact Hacc].
  apply truthy_num_spec in To. specialize (Hf o eq_refl).
  assert (0 < o) as Hpos by (apply Qle_lteq in Hf as [H | H]; [exact H | symmetry in H; contradiction]).
  assert (0 <= Math_abs (o ⊖ p) ⊘ o) as Hq.
  { unfold div. apply double_nonneg.
    unfold Qdiv. apply Qmult_le_0_compat; [apply Qabs_nonneg|].
    apply Qlt_le_weak, Qinv_lt_0_compat, Hpos. }
  unfold add. apply double_nonneg.
  set (q := Math_abs (o ⊖ p) ⊘ o) in *. clearbody q. lra.
Qed.

Lemma Math_round_le (x : Q) (z : Z) : x <= inject_Z z → (Math_round x <= z)%Z.
Proof.
  intros H. unfold Math_round.
  assert (Qfloor (x + (1 # 2)) <= Qfloor (inject_Z z + (1 # 2)))%Z as Hle.
  { apply Qfloor_resp_le. set (t := inject_Z z) in *. clearbody t. lra. }
  assert (Qfloor (inject_Z z + (1 # 2)) = z) as E.
  { apply Z.le_antisymm.
    - apply Z.lt_succ_r. rewrite Zlt_Qlt.
      eapply Qle_lt_trans; [apply Qfloor_le|].
      unfold Z.succ. rewrite inject_Z_plus. change (inject_Z 1) with 1.
      set (t := inject_Z z). clearbody t. lra.
    - rewrite <- (Qfloor_Z z) at 1. apply Qfloor_resp_le.
      set (t := inject_Z z). clearbody t. lra. }
  lia.
Qed.

(** X19.  When no observed count is negative the model accuracy is at
    most 100, and it is 0 when no segment has both a non-zero observed count
    and a non-zero prediction. *)
Theorem model_accuracy_at_most_100 (σ : Store) (fs : list Road.Feature) :
  road_features σ = Some fs →
  Forall (fun f => ∀ o, Road.OBSERVED_COUNT (Road.properties f) = Some o → 0 <= o) fs →
  (modelAccuracy (statistics (ds (calculateStatistics σ).2)) <= 100)%Z ∧
  (Forall (fun f => absent_or_zero (Road.OBSERVED_COUNT (Road.properties f))
                    ∨ absent_or_zero (Road.predicted (Road.properties f))) fs →
   modelAccuracy (statistics (ds (calculateStatistics σ).2)) = 0%Z).
Proof.
  intros Hfs Hobs. rewrite (calculateStatistics_statistics σ fs Hfs). simpl. split.
  - pose proof (accumulate_error_nonneg fs Hobs (0, 0%nat)) as Hs.
    destruct (fold_left accumulate_error fs (0, 0%nat)) as [s n]. simpl in *.
    specialize (Hs ltac:(lra)).
    destruct (Nat.ltb_spec 0 n) as [Hn|Hn]; [|vm_compute; discriminate].
    apply Math_round_le.
    assert (0 < of_count n) as Hc.
    { unfold of_count. change 0 with (inject_Z 0). rewrite <- Zlt_Qlt. lia. }
    assert (0 <= s ⊘ of_count n) as Hq.
    { unfold div. apply double_nonneg.
      unfold Qdiv. apply Qmult_le_0_compat; [exact Hs|].
      apply Qlt_le_weak, Qinv_lt_0_compat, Hc. }
    set (q := s ⊘ of_count n) in *. clearbody q.
    assert (1 ⊖ q <= 1) as H1.
    { unfold sub. change 1 with (double 1) at 2. apply double_mono. lra. }
    set (y := 1 ⊖ q) in *. clearbody y.
    change (inject_Z 100) with 100. rewrite <- double_100 at 2.
    unfold mul. apply double_mono. lra.
  - intros Hnone.
    assert (∀ acc, fold_left accumulate_error fs acc = acc) as ->; [|reflexivity].
    clear Hobs Hfs.
    induction Hnone as [|f fs' Hf _ IH]; intros acc; simpl; [reflexivity|].
    rewrite IH. unfold accumulate_error.
    destruct (Road.OBSERVED_COUNT (Road.properties f)) as [o|]; [|reflexivity].
    destruct (Road.predicted (Road.properties f)) as [p|]; [|reflexivity].
    destruct Hf as [Hf | Hf]; specialize (Hf _ eq_refl); apply truthy_num_false in Hf;
      rewrite Hf; rewrite ?andb_false_r; reflexivity.
Qed.

Lemma model_accuracy_at_most_100_sample :
  (modelAccuracy (statistics (ds (calculateStatistics (store_of_roads default_roads)).2))
   <= 100)%Z ∧
  (Forall (fun f => absent_or_zero (Road.OBSERVED_COUNT (Road.properties f))
                    ∨ absent_or_zero (Road.predicted (Road.properties f))) default_roads →
   modelAccuracy (statistics (ds (calculateStatistics (store_of_roads default_roads)).2))
   = 0%Z).
Proof.
  apply (model_accuracy_at_most_100 (store_of_roads default_roads) default_roads).
  - reflexivity.
  - repeat constructor; intros o [= <-]; discriminate.
Defined.

(** ** Temporal table: what the loader stores *)

Lemma array_set_lookup {A} (i : nat) (v : A) (a : list (option A)) :
  array_set i v a !! i = Some (Some v).
Proof.
  unfold array_set. destruct (Nat.ltb_spec i (length a)) as [H|H].
  - by apply list_lookup_insert_eq.
  - rewrite lookup_app_r by exact H.
    rewrite lookup_app_r by (rewrite length_replicate; lia).
    rewrite length_replicate. by replace (i - length a - (i - length a))%nat with 0%nat by lia.
Qed.

Lemma array_set_length {A} (i : nat) (v : A) (a : list (option A)) :
  length (array_set i v a) = Nat.max (length a) (S i).
Proof.
  unfold array_set. destruct (Nat.ltb_spec i (length a)) as [H|H].
  - rewrite length_insert. lia.
  - rewrite !length_app, length_replicate. simpl. lia.
Qed.

(** A bound on the length of every stored series is kept by a row when it
    holds for 24 and is kept by a write at the row's hour. *)
Lemma addTemporalRow_series (bound : nat → Prop) (table : gmap string DayTable)
    (row : Temporal.Row) :
  bound 24%nat →
  (∀ n h, bound n → hour_index row = Some h → bound (Nat.max n (S (N.to_nat h)))) →
  (∀ k days d series, table !! k = Some days → days !! d = Some series →
     bound (length (elements series))) →
  ∀ k days d series,
    addTemporalRow table row !! k = Some days → days !! d = Some series →
    bound (length (elements series)).
Proof.
  intros H24 Hstep Hinv k days d series. unfold addTemporalRow. unfold DayTable in *.
  destruct (skipped row); [apply Hinv|].
  set (geoid := String_ (Temporal.GEOID row)).
  set (day := String_ (cell_of (Temporal.dotw row))).
  assert (Hnew :
    <[geoid := <[day := series_set (String_ (cell_of (Temporal.hour row)))
                          (Temporal.hr_pred row)
                          (default zero_series (default ∅ (table !! geoid) !! day))]>
                 (default ∅ (table !! geoid))]> table !! k = Some days →
    days !! d = Some series → bound (length (elements series))).
  { destruct (decide (geoid = k)) as [<-|Hne].
    2:{ rewrite lookup_insert_ne by exact Hne. apply Hinv. }
    rewrite lookup_insert_eq. intros [= <-].
    destruct (decide (day = d)) as [<-|Hd].
    2:{ rewrite lookup_insert_ne by exact Hd.
        destruct (table !! geoid) as [days0|] eqn:Ht; simpl.
        - apply (Hinv _ _ _ _ Ht).
        - by rewrite lookup_empty. }
    rewrite lookup_insert_eq. intros [= <-].
    assert (bound (length (elements (default zero_series
                             (default ∅ (table !! geoid) !! day))))) as Hb.
    { destruct (table !! geoid) as [days0|] eqn:Ht; simpl.
      - destruct (days0 !! day) as [s|] eqn:Hs; simpl.
        + apply (Hinv _ _ _ _ Ht Hs).
        + exact H24.
      - rewrite lookup_empty. exact H24. }
    unfold series_set. fold (hour_index row).
    destruct (hour_index row) as [h|] eqn:Hh; simpl; [|exact Hb].
    rewrite array_set_length. by apply Hstep. }
  unfold Obj.read. destruct (table !! geoid) as [days0|] eqn:Ht; simpl in *.
  - exact Hnew.
  - destruct (Obj.inherited geoid); [apply Hinv | exact Hnew].
Qed.

(** X20.  Every hourly series in the table built by
    [loadTemporalPredictions] has at least 24 elements, and exactly 24 when
    the hour of every row is an array index below 24 or no array index at all
    (such as [null], which is stored as a named property of the series).  A
    row is skipped only when its key is empty or one of its cells is
    [undefined]; a [null] cell is stored. *)
Theorem temporal_series_have_24_hours (env : Env) (d : DataState)
    (key : string) (days : DayTable) (day : string) (series : Series) :
  temporalPredictions (loadTemporalPredictions env d).2 !! key = Some days →
  days !! day = Some series →
  (24 <= length (elements series))%nat ∧
  (∀ rows, serving_temporal rows env →
     Forall (fun row => ∀ h, hour_index row = Some h → (h < 24)%N) rows →
     length (elements series) = 24%nat) ∧
  (∀ row, skipped row = true ↔
     String_ (Temporal.GEOID row) = "" ∨ Temporal.dotw row = NUndefined ∨
     Temporal.hour row = NUndefined ∨ Temporal.hr_pred row = Undefined).
Proof.
  unfold loadTemporalPredictions.
  destruct (fetch_time_predictions env) as [response|e] eqn:Hf; simpl.
  2:{ by rewrite lookup_empty. }
  unfold read_if_ok. destruct (ok response) eqn:Hok; simpl.
  2:{ by rewrite lookup_empty. }
  destruct (body response) as [parsed|e] eqn:Hb; simpl.
  2:{ by rewrite lookup_empty. }
  intros Hk Hd. split; [|split].
  - revert key days day series Hk Hd.
    assert (∀ table : gmap string DayTable,
              (∀ k days d s, table !! k = Some days → days !! d = Some s →
                 (24 <= length (elements s))%nat) →
              ∀ k days d s, fold_left addTemporalRow parsed table !! k = Some days →
                days !! d = Some s → (24 <= length (elements s))%nat) as H.
    { clear. induction parsed as [|row rows IH]; intros table Hinv; simpl; [exact Hinv|].
      apply IH. apply (addTemporalRow_series (fun n => 24 <= n)%nat); [lia| |exact Hinv].
      intros n h Hn _. lia. }
    apply H. intros k' days' d' s'. by rewrite lookup_empty.
  - intros rows (response' & Hf' & _ & Hb') Hhours.
    rewrite Hf' in Hf. injection Hf as ->. rewrite Hb' in Hb. injection Hb as ->.
    revert key days day series Hk Hd.
    assert (∀ table : gmap string DayTable,
              (∀ k days d s, table !! k = Some days → days !! d = Some s →
                 length (elements s) = 24%nat) →
              ∀ k days d s, fold_left addTemporalRow parsed table !! k = Some days →
                days !! d = Some s → length (elements s) = 24%nat) as H.
    { clear - Hhours. induction Hhours as [|row rows Hrow _ IH]; intros table Hinv; simpl; [exact Hinv|].
      apply IH. apply (addTemporalRow_series (fun n => n = 24%nat)); [lia| |exact Hinv].
      intros n h -> Hh. specialize (Hrow _ Hh). lia. }
    apply H. intros k' days' d' s'. by rewrite lookup_empty.
  - intros row. unfold skipped, truthy, truthy_str.
    rewrite !orb_true_iff, negb_involutive, String.eqb_eq.
    destruct (Temporal.dotw row), (Temporal.hour row), (Temporal.hr_pred row); simpl;
      intuition (discriminate || auto).
Qed.

Lemma temporal_series_have_24_hours_sample :
  let env := temporal_only sample_temporal_rows in
  let d := (loadTemporalPredictions env dataState0).2 in
  let series :=
    default zero_series
      (temporalPredictions d !! "11001" ≫= fun days : DayTable => days !! "1") in
  (24 <= length (elements series))%nat ∧
  (∀ rows, serving_temporal rows env →
     Forall (fun row => ∀ h, hour_index row = Some h → (h < 24)%N) rows →
     length (elements series) = 24%nat) ∧
  (∀ row, skipped row = true ↔
     String_ (Temporal.GEOID row) = "" ∨ Temporal.dotw row = NUndefined ∨
     Temporal.hour row = NUndefined ∨ Temporal.hr_pred row = Undefined).
Proof.
  refine (temporal_series_have_24_hours (temporal_only sample_temporal_rows) dataState0
            "11001"
            (default ∅ (temporalPredictions
               (loadTemporalPredictions (temporal_only sample_temporal_rows) dataState0).2
               !! "11001")) "1" _ _ _).
  - vm_compute. reflexivity.
  - vm_compute. reflexivity.
Defined.

(** A row whose value is an empty cell is stored, as [null]. *)
Example temporal_null_value_is_stored :
  let rows := [temporal_row (Text "A") eq_refl (NNumber 2) (NNumber 5) Null] in
  let d := (loadTemporalPredictions (temporal_only rows) dataState0).2 in
  (Obj.stored (getTemporalPredictionsForSegment d (Text "A"))
     ≫= (fun days : DayTable => days !! "2"))
    ≫= (fun series => elements series !! 5%nat)
  = Some (Some Null).
Proof. vm_compute. reflexivity. Qed.

(** X21.  After loading, the value of the last row of the temporal file is
    read back by [getTemporalPredictionsForSegment] under the row's GEOID
    (number or string), day and hour, for a row that is not skipped, whose
    key is no inherited name and whose hour is an array index. *)
Theorem temporal_row_round_trip (env : Env) (d : DataState)
    (rows : list Temporal.Row) (row : Temporal.Row) (hour : N) :
  serving_temporal (rows ++ [row]) env →
  skipped row = false →
  Obj.inherited (String_ (Temporal.GEOID row)) = false →
  hour_index row = Some hour →
  (Obj.stored (getTemporalPredictionsForSegment (loadTemporalPredictions env d).2
                 (Temporal.GEOID row))
     ≫= fun days : DayTable => days !! String_ (cell_of (Temporal.dotw row)))
    ≫= (fun series => elements series !! N.to_nat hour)
  = Some (Some (Temporal.hr_pred row)).
Proof.
  intros Hserved Hskip Hown Hhour.
  unfold getTemporalPredictionsForSegment.
  rewrite (loadTemporalPredictions_served _ env d Hserved).
  rewrite fold_left_app. simpl. unfold addTemporalRow at 1. rewrite Hskip.
  set (table := fold_left addTemporalRow rows ∅).
  assert (Hread : ∀ t : gmap string DayTable,
            Obj.read t (String_ (Temporal.GEOID row))
            = match t !! String_ (Temporal.GEOID row) with
              | Some v => Obj.Own v
              | None => Obj.Missing
              end).
  { intros t. unfold Obj.read. by rewrite Hown. }
  rewrite !Hread.
  assert (Hnew : ∀ days0 : DayTable,
    (Obj.stored
       match <[String_ (Temporal.GEOID row) :=
                 <[String_ (cell_of (Temporal.dotw row)) :=
                     series_set (String_ (cell_of (Temporal.hour row)))
                       (Temporal.hr_pred row)
                       (default zero_series
                          (days0 !! String_ (cell_of (Temporal.dotw row))))]> days0]>
               table !! String_ (Temporal.GEOID row) with
       | Some v => Obj.Own v
       | None => Obj.Missing
       end
     ≫= fun days : DayTable => days !! String_ (cell_of (Temporal.dotw row)))
    ≫= (fun series => elements series !! N.to_nat hour)
    = Some (Some (Temporal.hr_pred row))).
  { intros days0. rewrite lookup_insert_eq. simpl.
    unfold DayTable in *. rewrite lookup_insert_eq. simpl.
    unfold series_set. unfold hour_index in Hhour. rewrite Hhour. simpl.
    apply array_set_lookup. }
  destruct (table !! String_ (Temporal.GEOID row)) as [days0|]; simpl; apply Hnew.
Qed.

Lemma temporal_row_round_trip_sample :
  (Obj.stored
     (getTemporalPredictionsForSegment
        (loadTemporalPredictions (temporal_only sample_temporal_rows) dataState0).2
        (Number 11001))
     ≫= fun days : DayTable => days !! "1")
    ≫= (fun series => elements series !! 17%nat)
  = Some (Some (Number 20)).
Proof.
  refine (temporal_row_round_trip (temporal_only sample_temporal_rows) dataState0
            (take 1 sample_temporal_rows)
            (temporal_row (Number 11001) eq_refl (NNumber 1) (NNumber 17) (Number 20))
            17 _ _ _ _).
  - eexists. repeat split.
  - reflexivity.
  - reflexivity.
  - reflexivity.
Defined.

(** ** Neighborhood list *)

Lemma sorted_insert_elem (x y : string) (l : list string) :
  y ∈ sorted_insert x l ↔ y = x ∨ y ∈ l.
Proof.
  induction l as [|z l IH]; simpl.
  - rewrite list_elem_of_singleton, elem_of_nil. tauto.
  - destruct (String.eqb_spec x z) as [->|Hne].
    + rewrite elem_of_cons. tauto.
    + destruct (String.ltb x z).
      * rewrite elem_of_cons. tauto.
      * rewrite !elem_of_cons, IH. tauto.
Qed.

(** X22.  The neighborhood list holds exactly the names of the
    neighborhood features that have properties: DC_HPN_NAME, else NAME, else
    NEIGHBORHOOD, else "Unknown". *)
Theorem neighborhoods_list_members (neighborhoodData : Collection Hood.Feature)
    (fs : list Hood.Feature) (name : string) :
  features neighborhoodData = Some fs →
  (name ∈ extractNeighborhoodsList (Some neighborhoodData) ↔
   ∃ feature props, feature ∈ fs ∧ Hood.properties feature = Some props ∧
     name = neighborhood_name props).
Proof.
  intros Hfs. unfold extractNeighborhoodsList. simpl. rewrite Hfs. simpl.
  assert (∀ acc,
            name ∈ fold_left (fun neighborhoods feature =>
                      match Hood.properties feature with
                      | Some props => sorted_insert (neighborhood_name props) neighborhoods
                      | None => neighborhoods
                      end) fs acc
            ↔ name ∈ acc ∨
              ∃ feature props, feature ∈ fs ∧ Hood.properties feature = Some props ∧
                name = neighborhood_name props) as H.
  { clear Hfs. induction fs as [|f fs' IH]; intros acc; simpl.
    - split; [tauto|]. intros [H | (f & p & Hin & _)]; [exact H|].
      by apply elem_of_nil in Hin.
    - rewrite IH. split.
      + intros [Hacc | (f0 & p & Hin & Hp & Hn)].
        * destruct (Hood.properties f) as [p|] eqn:Hp; [|by left].
          apply sorted_insert_elem in Hacc as [-> | Hacc]; [|by left].
          right. exists f, p. split; [apply list_elem_of_here | done].
        * right. exists f0, p. split; [by apply list_elem_of_further | done].
      + intros [Hacc | (f0 & p & Hin & Hp & Hn)].
        * left. destruct (Hood.properties f); [|exact Hacc].
          apply sorted_insert_elem. by right.
        * apply elem_of_cons in Hin as [-> | Hin].
          -- left. rewrite Hp. apply sorted_insert_elem. by left.
          -- right. by exists f0, p. }
  rewrite (H []). rewrite elem_of_nil. tauto.
Qed.

Lemma neighborhoods_list_members_default :
  "Downtown" ∈ extractNeighborhoodsList (Some defaultNeighborhoodData) ↔
  ∃ feature props, feature ∈ default [] (features defaultNeighborhoodData) ∧
    Hood.properties feature = Some props ∧ "Downtown" = neighborhood_name props.
Proof.
  apply (neighborhoods_list_members defaultNeighborhoodData). reflexivity.
Defined.

(** ** Initialisation and the road-network loader *)

Lemma processData_ds rand σ : ds (processData rand σ).2 = ds σ.
Proof.
  unfold processData.
  set (σ1 := match counter_object σ, predictionsData (ds σ) with
             | Some cs, Some preds => _
             | _, _ => σ
             end).
  assert (H1 : ds σ1 = ds σ).
  { subst σ1. destruct (counter_object σ); [|done].
    destruct (predictionsData (ds σ)); [|done].
    by destruct (updateCounterPointsWithObservedData _ _ _ _). }
  clearbody σ1.
  destruct (road_object σ1), (counter_object σ1), (predictionsData (ds σ1)),
    (censusData (ds σ1)); try exact H1.
  by destruct (processRoadNetworkData _ _ _ _).
Qed.

(** The handler of [initData] marks the state initialised exactly when it
    returns. *)
Lemma onLoaded_initialized env σ roadData counterData neighborhoodData censusData_
    predictionsData_ :
  let r := onLoaded env σ roadData counterData neighborhoodData censusData_
             predictionsData_ in
  match r.1 with
  | Returned _ => isInitialized (ds r.2) = true
  | Thrown _ => isInitialized (ds r.2) = isInitialized (ds σ)
  end.
Proof.
  cbv zeta. unfold onLoaded.
  destruct (store_object roadData (roads σ)) as [r rh].
  destruct (store_object counterData (counters σ)) as [c ch].
  set (stored := {| ds := _; roads := rh; counters := ch; draws := draws σ |}).
  pose proof (processData_ds (random env) stored) as Hds.
  destruct (processData (random env) stored) as [[[]|e] processed]; simpl in *.
  2:{ by rewrite Hds. }
  set (listed := if neighborhoodData ≫= features is Some _ then _ else processed).
  assert (Hl : isInitialized (ds listed) = isInitialized (ds σ)).
  { subst listed. destruct (neighborhoodData ≫= features); simpl; by rewrite Hds. }
  clearbody listed. unfold calculateStatistics.
  destruct (with_properties _); simpl; [reflexivity | exact Hl].
Qed.

(** X23.  When the promise of [initData] resolves, the state is marked
    initialised, and a further call, whatever the environment then answers,
    resolves with the same state and changes nothing.  When it is rejected
    (the handler has thrown), the state is not marked initialised, so that a
    further call loads again. *)
Theorem initData_only_once (env again : Env) (σ : Store) :
  let first := initData env σ in
  (resolves first.1 →
     isInitialized (ds first.2) = true ∧
     initData again first.2 = (Resolved (ds first.2), first.2)) ∧
  (¬ resolves first.1 → isInitialized (ds first.2) = false).
Proof.
  cbv zeta.
  assert (if isInitialized (ds (initData env σ).2) then resolves (initData env σ).1
          else ¬ resolves (initData env σ).1) as Hinit.
  { unfold initData. destruct (isInitialized (ds σ)) eqn:Hi.
    { simpl. rewrite Hi. by eexists. }
    pose proof (loadTemporalPredictions_resolves env (ds σ)) as Ht.
    assert (Hd : isInitialized (ds σ) = isInitialized (loadTemporalPredictions env (ds σ)).2).
    { unfold loadTemporalPredictions. by destruct (then_ _ _). }
    destruct (loadTemporalPredictions env (ds σ)) as [temporal d]. simpl in Ht, Hd. subst.
    destruct (loadRoadNetworkData_resolves env) as [r ->].
    destruct (loadCounterPointsData_resolves env) as [c ->].
    destruct (loadNeighborhoodBoundaries_resolves env) as [n ->].
    destruct (loadCensusData_resolves env) as [s ->].
    destruct (loadPredictionsData_resolves env) as [p ->].
    simpl.
    pose proof (onLoaded_initialized env
                  {| ds := d; roads := roads σ; counters := counters σ; draws := draws σ |}
                  r c n s p) as Ho.
    cbv zeta in Ho.
    destruct (onLoaded _ _ _ _ _ _ _) as [[[]|e] final]; simpl in *.
    - rewrite Ho. by eexists.
    - rewrite Ho, <- Hd, Hi. intros [v Hv]. discriminate. }
  destruct (isInitialized (ds (initData env σ).2)) eqn:Hi.
  - split; [|tauto]. intros _. split; [reflexivity|].
    unfold initData at 1. by rewrite Hi.
  - split; [tauto | reflexivity].
Qed.

(** The rejected initialisation leaves the state uninitialised. *)
Example initData_rejected_is_not_initialised :
  let env := backup_only (Some {| features := Some [NoProps None] |}) in
  isInitialized (ds (initData env store0).2) = false.
Proof. vm_compute. reflexivity. Qed.

(** X24.  A primary road-network response that parses is returned as it
    is when its first feature has a geometry with coordinates or it has no
    feature; when it has no feature list, or its first feature has no
    geometry or no coordinates, the loader behaves as if the primary request
    had failed. *)
Theorem road_loader_primary (env : Env) (data : Json Road.Item) :
  primary_parsed env data →
  match data ≫= features with
  | Some [] => loadRoadNetworkData env = Resolved data
  | Some (first :: _) =>
      if geometry_of Road.geometry first ≫= Road.coordinates is Some _
      then loadRoadNetworkData env = Resolved data
      else loadRoadNetworkData env = loadRoadNetworkData (without_primary env)
  | None => loadRoadNetworkData env = loadRoadNetworkData (without_primary env)
  end.
Proof.
  intros (response & Hf & Hok & Hb). unfold loadRoadNetworkData.
  rewrite Hf. simpl. unfold read_if_ok. rewrite Hok, Hb. simpl.
  unfold features_of.
  destruct (data ≫= features) as [[|first fs]|]; simpl; try reflexivity.
  destruct (geometry_of Road.geometry first ≫= Road.coordinates); reflexivity.
Qed.

Lemma road_loader_primary_sample :
  let data : Json Road.Item :=
    Some {| features :=
              Some [WithProps (segment (Some "A") None None None None None)] |} in
  loadRoadNetworkData (roads_only data)
  = loadRoadNetworkData (without_primary (roads_only data)).
Proof.
  apply (road_loader_primary
           (roads_only
              (Some {| features :=
                         Some [WithProps (segment (Some "A") None None None None None)] |}))
           (Some {| features :=
                      Some [WithProps (segment (Some "A") None None None None None)] |})).
  eexists. repeat split.
Defined.

(** ** Comparison with the city averages *)

Lemma floor_gt (y : Q) (z : Z) : (z <? Qfloor y)%Z = true ↔ inject_Z (z + 1) <= y.
Proof.
  rewrite Z.ltb_lt. split.
  - intros H. eapply Qle_trans; [|apply Qfloor_le]. rewrite <- Zle_Qle. lia.
  - intros H. apply Qfloor_resp_le in H. rewrite Qfloor_Z in H. lia.
Qed.

Lemma floor_lt (y : Q) (z : Z) : (Qfloor y <? z)%Z = true ↔ y < inject_Z z.
Proof.
  rewrite Z.ltb_lt. split.
  - intros H. eapply Qlt_le_trans; [apply Qlt_floor|]. rewrite <- Zle_Qle. lia.
  - intros H. destruct (Z.lt_ge_cases (Qfloor y) z) as [L|L]; [exact L|].
    exfalso. rewrite Zle_Qle in L.
    pose proof (Qfloor_le y) as Hy.
    set (a := inject_Z z) in *. set (b := inject_Z (Qfloor y)) in *.
    clearbody a b. lra.
Qed.

Lemma compareItem_status (value average : Q) :
  let item := compareItem value average in
  let x := relative_difference item in
  Comparison.value item = value ∧ Comparison.average item = average ∧
  (average == 0 → Comparison.percentDiff item = 0%Z ∧ Comparison.status item = "normal") ∧
  (¬ average == 0 →
     Comparison.percentDiff item = Math_round x ∧
     (Comparison.status item = "very-high" ↔ 101 # 2 <= x) ∧
     (Comparison.status item = "high" ↔ 41 # 2 <= x ∧ x < 101 # 2) ∧
     (Comparison.status item = "normal" ↔ -(41 # 2) <= x ∧ x < 41 # 2) ∧
     (Comparison.status item = "low" ↔ -(101 # 2) <= x ∧ x < -(41 # 2)) ∧
     (Comparison.status item = "very-low" ↔ x < -(101 # 2))).
Proof.
  cbv zeta. unfold compareItem, relative_difference.
  destruct (Qeq_bool average 0) eqn:E; simpl.
  - apply Qeq_bool_iff in E. repeat split; try done; intros; contradiction.
  - assert (¬ average == 0) as Hne.
    { intros H. apply Qeq_bool_iff in H. congruence. }
    repeat split; try done; try contradiction.
    all: set (x := (value ⊖ average) ⊘ average ⊗ 100) in *; clearbody x;
      unfold Math_round in *;
      repeat match goal with
      | H : context [(?z <? Qfloor ?y)%Z] |- _ =>
          let T := fresh "T" in
          destruct (z <? Qfloor y)%Z eqn:T;
          [apply floor_gt in T
          |apply not_true_iff_false in T; rewrite floor_gt in T; apply Qnot_le_lt in T]
      | |- context [(?z <? Qfloor ?y)%Z] =>
          let T := fresh "T" in
          destruct (z <? Qfloor y)%Z eqn:T;
          [apply floor_gt in T
          |apply not_true_iff_false in T; rewrite floor_gt in T; apply Qnot_le_lt in T]
      | H : context [(Qfloor ?y <? ?z)%Z] |- _ =>
          let T := fresh "T" in
          destruct (Qfloor y <? z)%Z eqn:T;
          [apply floor_lt in T
          |apply not_true_iff_false in T; rewrite floor_lt in T; apply Qnot_lt_le in T]
      | |- context [(Qfloor ?y <? ?z)%Z] =>
          let T := fresh "T" in
          destruct (Qfloor y <? z)%Z eqn:T;
          [apply floor_lt in T
          |apply not_true_iff_false in T; rewrite floor_lt in T; apply Qnot_lt_le in T]
      end;
      intros;
      repeat match goal with
      | H : context [inject_Z ?c] |- _ =>
          let v := eval vm_compute in (inject_Z c) in change (inject_Z c) with v in H
      end;
      try discriminate; try reflexivity; try lra.
Qed.

Lemma comparison_items_are_compared (d : DataState) (props : Road.Props)
    (item : Comparison.Item) :
  item ∈ comparison_items (compareWithAverage d props) →
  ∃ value average, item = compareItem value average.
Proof.
  unfold comparison_items, compareWithAverage. simpl.
  rewrite !elem_of_cons, elem_of_nil.
  intros [-> | [-> | [-> | [-> | []]]]]; eauto.
Qed.

(** X25.  For each item of [compareWithAverage]: with an average of 0 the
    percent difference is 0 and the status "normal"; otherwise the percent
    difference is the rounded relative difference x to the average, x being
    [(value - average) / average * 100] as the code computes it in double
    precision, and the status is very-high for x >= 50.5, high for
    20.5 <= x < 50.5, normal for -20.5 <= x < 20.5, low for
    -50.5 <= x < -20.5 and very-low below. *)
Theorem comparison_status_thresholds (d : DataState) (props : Road.Props)
    (item : Comparison.Item) :
  item ∈ comparison_items (compareWithAverage d props) →
  let x := relative_difference item in
  (Comparison.average item == 0 →
     Comparison.percentDiff item = 0%Z ∧ Comparison.status item = "normal") ∧
  (¬ Comparison.average item == 0 →
     Comparison.percentDiff item = Math_round x ∧
     (Comparison.status item = "very-high" ↔ 101 # 2 <= x) ∧
     (Comparison.status item = "high" ↔ 41 # 2 <= x ∧ x < 101 # 2) ∧
     (Comparison.status item = "normal" ↔ -(41 # 2) <= x ∧ x < 41 # 2) ∧
     (Comparison.status item = "low" ↔ -(101 # 2) <= x ∧ x < -(41 # 2)) ∧
     (Comparison.status item = "very-low" ↔ x < -(101 # 2))).
Proof.
  intros Hin. destruct (comparison_items_are_compared _ _ _ Hin) as (v & a & ->).
  destruct (compareItem_status v a) as (_ & Ha & H0 & H1). cbv zeta in *.
  rewrite Ha. split; assumption.
Qed.

Lemma comparison_status_thresholds_sample :
  let item := Comparison.bikeCount
                (compareWithAverage (ds (initData offline store0).2)
                   (Road.properties (default_road 0))) in
  let x := relative_difference item in
  (Comparison.average item == 0 →
     Comparison.percentDiff item = 0%Z ∧ Comparison.status item = "normal") ∧
  (¬ Comparison.average item == 0 →
     Comparison.percentDiff item = Math_round x ∧
     (Comparison.status item = "very-high" ↔ 101 # 2 <= x) ∧
     (Comparison.status item = "high" ↔ 41 # 2 <= x ∧ x < 101 # 2) ∧
     (Comparison.status item = "normal" ↔ -(41 # 2) <= x ∧ x < 41 # 2) ∧
     (Comparison.status item = "low" ↔ -(101 # 2) <= x ∧ x < -(41 # 2)) ∧
     (Comparison.status item = "very-low" ↔ x < -(101 # 2))).
Proof.
  apply (comparison_status_thresholds (ds (initData offline store0).2)
           (Road.properties (default_road 0))).
  apply list_elem_of_here.
Defined.

(** A value of 123.41 against an average of 82: the relative difference is
    rounded up to 50.5 by the arithmetic of the code, so the status is
    very-high (in exact arithmetic on the same double it is below 50.5). *)
Example comparison_rounds_in_double_precision :
  let item := compareItem (double (12341 # 100)) 82 in
  Comparison.percentDiff item = 51%Z ∧ Comparison.status item = "very-high" ∧
  (double (12341 # 100) - 82) / 82 * 100 < 101 # 2.
Proof. vm_compute. repeat split. Qed.

(** X26.  The status of every item of [compareWithAverage] is one of the
    five statuses [getComparisonColor] knows, so its colour is never the grey
    default. *)
Theorem comparison_color_is_known (d : DataState) (props : Road.Props)
    (item : Comparison.Item) :
  item ∈ comparison_items (compareWithAverage d props) →
  Comparison.status item ∈ ["very-high"; "high"; "normal"; "low"; "very-low"] ∧
  getComparisonColor (Comparison.status item) ≠ "#9e9e9e".
Proof.
  intros Hin. destruct (comparison_items_are_compared _ _ _ Hin) as (v & a & ->).
  unfold compareItem.
  destruct (negb (Qeq_bool a 0)); simpl;
    repeat match goal with
    | |- context [(?x <? ?y)%Z] => destruct (x <? y)%Z
    end;
    (split; [rewrite !elem_of_cons; tauto | discriminate]).
Qed.

Lemma comparison_color_is_known_sample :
  let item := Comparison.income
                (compareWithAverage (ds (initData offline store0).2)
                   (Road.properties (default_road 0))) in
  Comparison.status item ∈ ["very-high"; "high"; "normal"; "low"; "very-low"] ∧
  getComparisonColor (Comparison.status item) ≠ "#9e9e9e".
Proof.
  apply (comparison_color_is_known (ds (initData offline store0).2)
           (Road.properties (default_road 0))).
  apply list_elem_of_further, list_elem_of_here.
Defined.


(** ** Observed counts taken from the predictions table *)

Lemma observedCountMap_lookup (predictionsData : list Pred.Row) (k : string) :
  observedCountMap predictionsData !! k
  = (fun item => num_or (parseFloat (observed_cell item)) 0)
      <$> last_with observed_key k predictionsData.
Proof.
  unfold observedCountMap.
  induction predictionsData as [|item rows IH] using rev_ind; [apply lookup_empty|].
  rewrite fold_left_app, last_with_snoc. simpl.
  set (m := fold_left _ rows ∅) in *.
  case_bool_decide as Hd; unfold observed_key, row_key in Hd.
  - destruct (truthy (observed_cell item)); [|discriminate].
    destruct (cell_key (Pred.SUBBLOCKKEY item)) as [k'|]; [|discriminate].
    unfold Obj.set_primitive.
    destruct (String.eqb k' "__proto__"); [discriminate|]. injection Hd as ->.
    by rewrite lookup_insert_eq.
  - destruct (cell_key (Pred.SUBBLOCKKEY item)) as [k'|]; [|exact IH].
    destruct (truthy (observed_cell item)); [|exact IH].
    unfold Obj.set_primitive.
    destruct (String.eqb k' "__proto__"); [exact IH|].
    rewrite lookup_insert_ne by congruence. exact IH.
Qed.

(** X27.  The observed-count dictionary of the counter update holds, for
    a key, the number read by [parseFloat] from the first truthy of the cells
    observed, OBSERVED_COUNT and .pred of the last prediction row with that
    key (the string of its truthy SUBBLOCKKEY) and a truthy cell, and 0 when
    that cell does not read as a non-zero number (a text such as "NA");
    nothing is stored under [__proto__], and nothing under a key that no such
    row carries. *)
Theorem observed_count_map_last_wins (predictionsData : list Pred.Row) (k : string) :
  observedCountMap predictionsData !! k
  = (fun item => num_or (parseFloat (observed_cell item)) 0)
      <$> last_with observed_key k predictionsData
  ∧ observedCountMap predictionsData !! "__proto__" = None
  ∧ (∀ item, last_with observed_key k predictionsData = Some item →
       item ∈ predictionsData ∧
       truthy (observed_cell item) = true ∧
       cell_key (Pred.SUBBLOCKKEY item) = Some k ∧
       observed_cell item
       = (if truthy (Pred.observed item) then Pred.observed item
          else if truthy (Pred.OBSERVED_COUNT item) then Pred.OBSERVED_COUNT item
          else Pred.pred item)).
Proof.
  split; [apply observedCountMap_lookup|]. split.
  - rewrite observedCountMap_lookup.
    assert (last_with observed_key "__proto__" predictionsData = None) as ->; [|done].
    apply last_with_None. intros item _. unfold observed_key.
    destruct (truthy (observed_cell item)); [|discriminate].
    destruct (row_key item) as [k'|]; [|discriminate].
    destruct (String.eqb_spec k' "__proto__"); [discriminate | congruence].
  - intros item E. apply last_with_Some in E as [Hin Hk]. split; [exact Hin|].
    unfold observed_key, row_key in Hk.
    destruct (truthy (observed_cell item)) eqn:T; [|discriminate].
    destruct (cell_key (Pred.SUBBLOCKKEY item)) as [k'|]; [|discriminate].
    destruct (String.eqb k' "__proto__"); [discriminate|]. injection Hk as ->.
    repeat split. unfold observed_cell, cell_or.
    destruct (truthy (Pred.observed item)) eqn:T1; [by rewrite T1|].
    by destruct (truthy (Pred.OBSERVED_COUNT item)).
Qed.

(** A cell that does not read as a number stores 0, and a row keyed
    [__proto__] stores nothing. *)
Example observed_count_of_text :
  observedCountMap [prediction "A" (Text "NA")] !! "A" = Some 0 ∧
  observedCountMap [prediction "B" (Text "12.5 bikes")] !! "B" = Some (25 # 2) ∧
  observedCountMap [prediction "__proto__" (Number 7)] = ∅.
Proof. vm_compute. repeat split. Qed.

(** ** Most active neighborhood *)

Lemma most_active_from (counts : list (string * Tally)) :
  ∀ best : string * Q,
    let result :=
      fold_left (fun best e =>
                   match e.2 with
                   | Count q => if gt q best.2 then (e.1, q) else best
                   | Concatenation => best
                   end) counts best in
    (∀ area q, (area, Count q) ∈ counts → q <= result.2) ∧
    (result = best ∨ ((result.1, Count result.2) ∈ counts ∧ best.2 < result.2)).
Proof.
  induction counts as [|[area0 t0] counts IH]; intros best; simpl.
  - split; [intros area q He; by apply elem_of_nil in He | by left].
  - set (next := match t0 with
                 | Count q => if gt q best.2 then (area0, q) else best
                 | Concatenation => best
                 end).
    destruct (IH next) as (H2 & H3). cbv zeta in *.
    set (result := fold_left _ counts next) in *.
    assert (next.2 <= result.2) as H1.
    { destruct H3 as [-> | [_ H]]; [apply Qle_refl | by apply Qlt_le_weak]. }
    assert (best.2 <= next.2 ∧ (∀ q, t0 = Count q → q <= next.2) ∧
            (next = best ∨ (t0 = Count next.2 ∧ next.1 = area0 ∧ best.2 < next.2)))
      as (N1 & N2 & N3).
    { subst next. destruct t0 as [q|].
      - destruct (gt q best.2) eqn:G.
        + apply lt_spec in G. simpl. split; [lra|]. split.
          * intros q' [= <-]. lra.
          * right. by repeat split.
        + unfold gt, lt in G. apply negb_false_iff, Qle_bool_iff in G.
          split; [lra|]. split; [intros q' [= <-]; exact G | by left].
      - split; [lra|]. split; [discriminate | by left]. }
    clearbody next. split.
    + intros area q He. apply elem_of_cons in He as [[= -> <-] | He].
      * specialize (N2 q eq_refl). lra.
      * by apply (H2 area).
    + destruct H3 as [Hr | [H3 H4]].
      * rewrite Hr. destruct N3 as [-> | (Ht & Ha & Hlt)]; [by left|].
        right. split; [|exact Hlt]. rewrite Ha, <- Ht. apply list_elem_of_here.
      * right. split; [by apply list_elem_of_further | lra].
Qed.

(** Entries of an object whose keys are all different. *)
Lemma entry_get_Some {V} (o : list (string * V)) (k : string) (v : V) :
  NoDup (map fst o) → (entry_get k o = Some v ↔ (k, v) ∈ o).
Proof.
  induction o as [|[k' v'] o IH]; simpl; intros Hnd.
  - split; [discriminate | intros H; by apply elem_of_nil in H].
  - apply NoDup_cons in Hnd as [Hk' Hnd]. rewrite elem_of_cons.
    destruct (String.eqb_spec k k') as [->|Hne].
    + split; [intros [= ->]; by left|].
      intros [[= ->] | Hin]; [reflexivity|].
      exfalso. apply Hk'. apply list_elem_of_fmap. by exists (k', v).
    + rewrite (IH Hnd). split; [by right|]. intros [[= -> _] | Hin]; [done | exact Hin].
Qed.

Lemma entry_set_spec {V} (o : list (string * V)) (k : string) (v : V) :
  NoDup (map fst o) →
  NoDup (map fst (entry_set k v o)) ∧
  (∀ k' v', (k', v') ∈ entry_set k v o ↔
     (k' = k ∧ v' = v) ∨ (k' ≠ k ∧ (k', v') ∈ o)).
Proof.
  induction o as [|[k0 v0] o IH]; simpl; intros Hnd.
  - split; [apply NoDup_singleton|]. intros k' v'.
    rewrite list_elem_of_singleton, elem_of_nil. split.
    + intros [= -> ->]. by left.
    + intros [[-> ->] | [_ []]]. reflexivity.
  - apply NoDup_cons in Hnd as [Hk0 Hnd]. destruct (IH Hnd) as [IHn IHm].
    destruct (String.eqb_spec k k0) as [->|Hne]; simpl.
    + split; [by apply NoDup_cons|]. intros k' v'. rewrite !elem_of_cons. split.
      * intros [[= -> ->] | Hin]; [by left|]. right. split; [|by right].
        intros ->. apply Hk0. apply list_elem_of_fmap. by exists (k0, v').
      * intros [[-> ->] | [Hne [[= -> ->] | Hin]]]; [by left | done | by right].
    + split.
      * apply NoDup_cons. split; [|exact IHn].
        intros Hin. apply list_elem_of_fmap in Hin as [[k1 v1] [Hk1 Hin]]. simpl in Hk1. subst k1.
        apply IHm in Hin as [[-> _] | [_ Hin]]; [done|].
        apply Hk0. apply list_elem_of_fmap. by exists (k0, v1).
      * intros k' v'. rewrite !elem_of_cons, IHm. split.
        -- intros [[= -> ->] | [[-> ->] | [Hk Hin]]];
             [right; split; [congruence | by left] | by left | right; split; [done | by right]].
        -- intros [[-> ->] | [Hk [[= -> ->] | Hin]]];
             [right; by left | by left | right; right; by split].
Qed.

(** [Object.entries] lists every own property, whatever the order. *)
Lemma insert_by_index_elem {V} (e e' : N * (string * V)) (l : list (N * (string * V))) :
  e' ∈ Obj.insert_by_index e l ↔ e' = e ∨ e' ∈ l.
Proof.
  induction l as [|x l IH]; simpl.
  - rewrite list_elem_of_singleton, elem_of_nil. tauto.
  - destruct (e.1 <? x.1)%N; rewrite !elem_of_cons; [tauto|]. rewrite IH. tauto.
Qed.

Lemma entries_elem {V} (o : list (string * V)) (e : string * V) :
  e ∈ Obj.entries o ↔ e ∈ o.
Proof.
  unfold Obj.entries. rewrite elem_of_app.
  assert (Hidx : ∀ acc,
            e ∈ map snd (fold_left (fun acc e =>
                    match Obj.array_index e.1 with
                    | Some n => Obj.insert_by_index (n, e) acc
                    | None => acc
                    end) o acc)
            ↔ e ∈ map snd acc ∨ (e ∈ o ∧ is_Some (Obj.array_index e.1))).
  { induction o as [|x o IH]; intros acc; simpl.
    - split; [tauto|]. intros [H | [H _]]; [exact H | by apply elem_of_nil in H].
    - rewrite IH. rewrite elem_of_cons.
      destruct (Obj.array_index x.1) as [n|] eqn:Hx.
      + split.
        * intros [H | H]; [|tauto].
          apply list_elem_of_fmap in H as [[m y] [-> H]].
          apply insert_by_index_elem in H as [[= -> ->] | H].
          -- right. simpl. split; [by left | by rewrite Hx].
          -- left. apply list_elem_of_fmap. by exists (m, y).
        * intros [H | [[-> | H] Hs]]; [| |tauto].
          -- left. apply list_elem_of_fmap in H as [[m y] [-> H]].
             apply list_elem_of_fmap. exists (m, y). split; [reflexivity|].
             apply insert_by_index_elem. by right.
          -- left. apply list_elem_of_fmap. exists (n, x). split; [reflexivity|].
             apply insert_by_index_elem. by left.
      + split; [tauto|]. intros [H | [[-> | H] Hs]]; [tauto | | tauto].
        destruct Hs as [n Hs]. congruence. }
  rewrite Hidx. simpl. rewrite elem_of_nil.
  rewrite (list_elem_of_In (List.filter _ o) e), filter_In, <- list_elem_of_In.
  rewrite negb_true_iff, bool_decide_eq_false.
  destruct (decide (is_Some (Obj.array_index e.1))); tauto.
Qed.

Lemma area_volume_snoc (area : string) (fs : list Road.Feature) (f : Road.Feature) :
  area_volume area (fs ++ [f])
  = if bool_decide (area_of f = Some area)
    then area_volume area fs ⊕ volume_of f else area_volume area fs.
Proof.
  unfold area_volume, sum_of. rewrite List.filter_app. simpl.
  destruct (bool_decide (area_of f = Some area)).
  - rewrite map_app, fold_left_app. reflexivity.
  - by rewrite app_nil_r.
Qed.

(** A stored tally that is falsy adds as 0. *)
Lemma falsy_adds_as_zero (v volume : Q) :
  (if truthy v then v else 0) ⊕ volume = v ⊕ volume.
Proof.
  destruct (truthy v) eqn:T; [reflexivity|]. apply truthy_num_false in T.
  unfold add. apply double_comp. by rewrite T.
Qed.

(** The tallies of [calculateStatistics]: one entry per neighborhood that
    occurs, [__proto__] apart, holding its total volume, or for the name of
    an inherited member a string. *)
Lemma neighborhood_tallies (fs : list Road.Feature) :
  let counts := Acc.neighborhoodCounts (fold_left accumulate fs Acc.init) in
  NoDup (map fst counts) ∧
  (∀ area t, (area, t) ∈ counts →
     area ≠ "__proto__" ∧
     (∃ f, f ∈ fs ∧ area_of f = Some area) ∧
     t = if Obj.inherited area then Concatenation else Count (area_volume area fs)) ∧
  (∀ f area, f ∈ fs → area_of f = Some area → area ≠ "__proto__" →
     ∃ t, (area, t) ∈ counts).
Proof.
  induction fs as [|f fs IH] using rev_ind; cbv zeta.
  - simpl. split; [apply NoDup_nil_2|]. split.
    + intros area v H. by apply elem_of_nil in H.
    + intros f area H. by apply elem_of_nil in H.
  - rewrite fold_left_app. cbn [fold_left].
    destruct IH as (Hnd & Hin & Hall).
    set (a := fold_left accumulate fs Acc.init) in *.
    unfold accumulate. cbn [Acc.neighborhoodCounts]. fold (area_of f).
    destruct (area_of f) as [nb|] eqn:Hf.
    + fold (volume_of f). unfold tally_set.
      destruct (String.eqb_spec nb "__proto__") as [Hp | Hp].
      { split; [exact Hnd|]. split.
        - intros area t Ht. destruct (Hin _ _ Ht) as (Hne & (f0 & Hf0 & Ha0) & Hv).
          split; [exact Hne|]. split.
          + exists f0. split; [apply elem_of_app; by left | exact Ha0].
          + rewrite area_volume_snoc, Hf, bool_decide_eq_false_2 by congruence. exact Hv.
        - intros f0 area Hf0 Ha0 Hne. apply elem_of_app in Hf0 as [Hf0 | Hf0].
          + by apply (Hall f0).
          + apply list_elem_of_singleton in Hf0 as ->. congruence. }
      destruct (entry_set_spec (Acc.neighborhoodCounts a) nb
                  (tally_sum (Acc.neighborhoodCounts a) nb (volume_of f)) Hnd)
        as [Hnd' Hm].
      split; [exact Hnd'|]. split.
      * intros area t Ht. apply Hm in Ht as [[-> ->] | [Hne Ht]].
        -- split; [exact Hp|]. split.
           { exists f. split; [apply elem_of_app; right; apply list_elem_of_here | exact Hf]. }
           rewrite area_volume_snoc, Hf, bool_decide_eq_true_2 by reflexivity.
           unfold tally_sum.
           destruct (entry_get nb (Acc.neighborhoodCounts a)) as [t0|] eqn:Hg.
           ++ apply (entry_get_Some _ _ _ Hnd) in Hg.
              destruct (Hin _ _ Hg) as (_ & _ & Ht0).
              destruct (Obj.inherited nb); subst t0; [reflexivity|].
              by rewrite falsy_adds_as_zero.
           ++ assert (List.filter (fun f0 => bool_decide (area_of f0 = Some nb)) fs = []) as Hnone.
              { destruct (List.filter _ fs) as [|f0 l] eqn:E; [reflexivity|].
                assert (In f0 (List.filter (fun f0 => bool_decide (area_of f0 = Some nb)) fs)) as Hi
                  by (rewrite E; by left).
                apply filter_In in Hi as [Hi Hd]. apply bool_decide_eq_true in Hd.
                destruct (Hall f0 nb (proj2 (list_elem_of_In _ _) Hi) Hd Hp) as [v1 Hv1].
                apply (entry_get_Some _ _ _ Hnd) in Hv1. congruence. }
              destruct (Obj.inherited nb); [reflexivity|].
              unfold area_volume. rewrite Hnone. reflexivity.
        -- destruct (Hin _ _ Ht) as (Hne' & (f0 & Hf0 & Ha0) & Hv). split; [exact Hne'|].
           split.
           ++ exists f0. split; [apply elem_of_app; by left | exact Ha0].
           ++ rewrite area_volume_snoc, Hf, bool_decide_eq_false_2 by congruence. exact Hv.
      * intros f0 area Hf0 Ha0 Hne. apply elem_of_app in Hf0 as [Hf0 | Hf0].
        -- destruct (Hall _ _ Hf0 Ha0 Hne) as [v Hv].
           destruct (decide (area = nb)) as [->|Hne'].
           ++ eexists. apply Hm. left. split; reflexivity.
           ++ exists v. apply Hm. right. by split.
        -- apply list_elem_of_singleton in Hf0 as ->. rewrite Hf in Ha0. injection Ha0 as ->.
           eexists. apply Hm. left. split; reflexivity.
    + split; [exact Hnd|]. split.
      * intros area t Ht. destruct (Hin _ _ Ht) as (Hne & (f0 & Hf0 & Ha0) & Hv).
        split; [exact Hne|]. split.
        -- exists f0. split; [apply elem_of_app; by left | exact Ha0].
        -- rewrite area_volume_snoc, Hf, bool_decide_eq_false_2 by discriminate. exact Hv.
      * intros f0 area Hf0 Ha0 Hne. apply elem_of_app in Hf0 as [Hf0 | Hf0].
        -- by apply (Hall f0).
        -- apply list_elem_of_singleton in Hf0 as ->. congruence.
Qed.

(** X28.  mostActiveArea names a neighborhood of the data whose name is no
    inherited member of objects and whose total volume (observed count, else
    prediction, per segment, added up in the order of the collection and in
    the arithmetic of the code) is positive and at least that of every such
    neighborhood; it is "Unknown" when no such neighborhood has a positive
    total.  A neighborhood named like an inherited member ([constructor],
    [toString], [__proto__], ...) never is the most active area: its tally
    is a string, or is not stored. *)
Theorem most_active_area_is_maximal (σ : Store) (fs : list Road.Feature) :
  road_features σ = Some fs →
  let area := mostActiveArea (statistics (ds (calculateStatistics σ).2)) in
  (area = "Unknown" ∧
   ∀ f other, f ∈ fs → area_of f = Some other → Obj.inherited other = false →
     area_volume other fs <= 0)
  ∨
  ((∃ f, f ∈ fs ∧ area_of f = Some area) ∧
   Obj.inherited area = false ∧
   0 < area_volume area fs ∧
   ∀ f other, f ∈ fs → area_of f = Some other → Obj.inherited other = false →
     area_volume other fs <= area_volume area fs).
Proof.
  intros Hfs. cbv zeta. rewrite (calculateStatistics_statistics σ fs Hfs). simpl.
  unfold most_active.
  destruct (neighborhood_tallies fs) as (Hnd & Hin & Hall). cbv zeta in *.
  set (counts := Acc.neighborhoodCounts _) in *.
  destruct (most_active_from (Obj.entries counts) ("Unknown", 0)) as (Hmax & Hres).
  cbv zeta in *.
  set (result := fold_left _ (Obj.entries counts) _) in *.
  assert (Hproper : ∀ f other, f ∈ fs → area_of f = Some other →
            Obj.inherited other = false → (other, Count (area_volume other fs)) ∈ counts).
  { intros f other Hf Ha Hown.
    assert (other ≠ "__proto__") as Hne by (intros ->; discriminate).
    destruct (Hall _ _ Hf Ha Hne) as [t Ht].
    destruct (Hin _ _ Ht) as (_ & _ & E). rewrite Hown in E. by subst t. }
  destruct Hres as [Hr | [Hr Hpos]].
  - left. rewrite Hr in *. split; [reflexivity|]. intros f other Hf Ha Hown.
    apply (Hmax other). apply entries_elem. by apply (Hproper f).
  - right. destruct result as [area count]. simpl in *.
    apply (proj1 (entries_elem _ _)) in Hr. destruct (Hin _ _ Hr) as (_ & Hex & E).
    destruct (Obj.inherited area) eqn:Hown; [discriminate|]. injection E as E.
    split; [exact Hex|]. split; [reflexivity|]. split.
    + by rewrite <- E.
    + intros f other Hf Ha Hown'. rewrite <- E.
      apply (Hmax other). apply entries_elem. by apply (Hproper f).
Qed.

Lemma most_active_area_is_maximal_sample :
  let fs := default_roads in
  let area :=
    mostActiveArea (statistics (ds (calculateStatistics (store_of_roads default_roads)).2)) in
  (area = "Unknown" ∧
   ∀ f other, f ∈ fs → area_of f = Some other → Obj.inherited other = false →
     area_volume other fs <= 0)
  ∨
  ((∃ f, f ∈ fs ∧ area_of f = Some area) ∧
   Obj.inherited area = false ∧
   0 < area_volume area fs ∧
   ∀ f other, f ∈ fs → area_of f = Some other → Obj.inherited other = false →
     area_volume other fs <= area_volume area fs).
Proof.
  apply (most_active_area_is_maximal (store_of_roads default_roads)). reflexivity.
Defined.

(** A neighborhood named [constructor] is never the most active area,
    whatever its volume; and of two areas with the same volume whose names
    are array indices, the one with the smaller index wins, also when it was
    met later. *)
Example most_active_area_samples :
  mostActiveArea (computeStatistics
    [in_area "constructor" (segment (Some "A") (Some 90) None None None None)])
  = "Unknown"
  ∧ mostActiveArea (computeStatistics
      [in_area "constructor" (segment (Some "A") (Some 90) None None None None);
       in_area "Downtown" (segment (Some "B") (Some 5) None None None None)])
    = "Downtown"
  ∧ mostActiveArea (computeStatistics
      [in_area "10" (segment (Some "A") (Some 7) None None None None);
       in_area "9" (segment (Some "B") (Some 7) None None None None)])
    = "9".
Proof. vm_compute. repeat split. Qed.
